(** * COntoVAE: the ontology-structured variational autoencoder of
    [onto_vae/cvae_model.py], embedded shallowly.

    Conventions of the embedding.
    - A [torch] or [numpy] scalar is an exact rational ([Q]); rounding, NaN
      and overflow of tensor entries are outside the model.  The scalar
      bookkeeping of the training loop, which starts from [float('inf')],
      uses [pyfloat], which has the infinities and NaN.
    - A 2-d tensor or array is a list of rows ([matrix]); the rows are the
      samples of a batch.
    - A Python exception is a value of [exn]; code that can raise returns a
      [result].  Methods of the model run in the monad [M], which threads the
      interpreter state [World] and keeps it when an exception is raised.
    - Code that lives outside [cvae_model.py] (the [Encoder], [OntoDecoder]
      and [simple_classifier] modules, the data loader, autograd, the random
      generator, [exp] and [sqrt]) is a [Variable] of the section that needs
      it. *)

From Stdlib Require Import String Ascii DecimalString DecimalNat.
From Stdlib Require Import List Bool Arith ZArith QArith Lia Lqa.
Import ListNotations.

Set Implicit Arguments.

Open Scope string_scope.
Open Scope list_scope.
Open Scope Q_scope.

(** ** Python exceptions and results *)

Inductive exn : Type :=
| ValueError (msg : string)
| AttributeError (msg : string)
| TypeError (msg : string)
| KeyError (key : string)
| IndexError (msg : string)
| RuntimeError (msg : string)
| UnboundLocalError (name : string)
| ZeroDivisionError (msg : string)
| FileNotFoundError (path : string)
| SystemExit (msg : string).

Inductive result (A : Type) : Type :=
| Ok (a : A)
| Raise (e : exn).

Arguments Ok {A} a.
Arguments Raise {A} e.

Definition rbind {A B} (r : result A) (k : A -> result B) : result B :=
  match r with
  | Ok a => k a
  | Raise e => Raise e
  end.

Declare Scope res_scope.
Delimit Scope res_scope with res.
Notation "'let!' x ':=' r 'in' k" := (rbind r (fun x => k))
  (at level 10, x pattern, r at level 100, k at level 200) : res_scope.

Definition is_ok {A} (r : result A) : bool :=
  match r with Ok _ => true | Raise _ => false end.

(** ** Tensors *)

Abbreviation vec := (list Q) (only parsing).
Abbreviation matrix := (list (list Q)) (only parsing).

Definition Qsum (l : list Q) : Q := fold_right Qplus 0 l.

(** [torch.sum(t)] with no [dim]: the sum over every element. *)
Definition tsum (t : matrix) : Q := Qsum (map Qsum t).

(** [torch.mean(t)]: the sum of the elements over their number. *)
Definition torch_mean (elems : list Q) : Q :=
  Qsum elems / inject_Z (Z.of_nat (length elems)).

(** A 0-dimensional tensor has exactly one element. *)
Definition scalar_tensor (x : Q) : list Q := [x].

Definition shape_mismatch {A} : result A :=
  Raise (RuntimeError "The size of tensor a must match the size of tensor b").

(** Element-wise combination of two sequences of equal length; a different
    length is the shape error of [torch].  (Broadcasting of size-1 dimensions
    is not modelled: every use in the source combines tensors that are built
    with equal shapes.) *)
Fixpoint zip_with {A B C} (f : A -> B -> C) (l : list A) (l' : list B)
  : result (list C) :=
  match l, l' with
  | [], [] => Ok []
  | a :: t, b :: t' =>
      match zip_with f t t' with
      | Ok r => Ok (f a b :: r)
      | Raise e => Raise e
      end
  | _, _ => shape_mismatch
  end.

Fixpoint zip_rows {A B C} (f : A -> B -> C) (m : list (list A))
  (m' : list (list B)) : result (list (list C)) :=
  match m, m' with
  | [], [] => Ok []
  | r :: t, r' :: t' =>
      match zip_with f r r' with
      | Ok x =>
          match zip_rows f t t' with
          | Ok y => Ok (x :: y)
          | Raise e => Raise e
          end
      | Raise e => Raise e
      end
  | _, _ => shape_mismatch
  end.

(** Two tensors have the same shape. *)
Definition same_shape {A B} (m : list (list A)) (m' : list (list B)) : Prop :=
  Forall2 (fun r r' => length r = length r') m m'.

(** ** The loss composer *)

Section Loss.

(** [torch.exp] on one element. *)
Variable exp : Q -> Q.

(** The summand of the KL term, [1. + log_var - mu.pow(2) - log_var.exp()]. *)
Definition kl_elem (l m : Q) : Q := 1 + l - m * m - exp l.

(** The summand of [F.mse_loss(reconstruction, data, reduction="sum")]. *)
Definition sq_err (r x : Q) : Q := (r - x) * (r - x).

(** [vae_loss], lines 302-316 (the Neptune logging does not change the
    value). *)
Definition vae_loss (reconstruction mu log_var data : matrix) (kl_coeff : Q)
  : result Q :=
  (let! t := zip_rows kl_elem log_var mu in
   let kl_loss := - (1 # 2) * tsum t in
   let! d := zip_rows sq_err reconstruction data in
   let rec_loss := tsum d in
   Ok (torch_mean (scalar_tensor (rec_loss + kl_coeff * kl_loss))))%res.

(** The per-sample quantities the specification speaks of. *)
Definition sample_rec (r x : vec) : Q :=
  Qsum (map (fun p => sq_err (fst p) (snd p)) (combine r x)).

Definition sample_kl (l m : vec) : Q :=
  - (1 # 2) * Qsum (map (fun p => kl_elem (fst p) (snd p)) (combine l m)).

(** The list, over the samples of the batch, of
    [reconstruction_sum + kl_coeff * KL_sum]. *)
Fixpoint sample_losses (reconstruction mu log_var data : matrix)
  (kl_coeff : Q) : list Q :=
  match reconstruction, mu, log_var, data with
  | r :: rs, m :: ms, l :: ls, x :: xs =>
      (sample_rec r x + kl_coeff * sample_kl l m)
        :: sample_losses rs ms ls xs kl_coeff
  | _, _, _, _ => []
  end.

(** Following the specification's words: the mean over the batch of the
    per-sample losses. *)
Definition vae_loss_spec (reconstruction mu log_var data : matrix)
  (kl_coeff : Q) : Q :=
  torch_mean (sample_losses reconstruction mu log_var data kl_coeff).

End Loss.

(** A rational stand-in for [exp], used only to evaluate the definitions on
    concrete inputs: the partial sum of the exponential series up to degree
    [n].  It is exact at [0], like the floating-point [exp]. *)
Fixpoint exp_series_from (n : nat) (k : positive) (term x : Q) : Q :=
  match n with
  | O => term
  | S n' =>
      Qred (term + exp_series_from n' (Pos.succ k)
                                   (Qred (term * x / inject_Z (Zpos k))) x)
  end.

Definition exp_series (x : Q) : Q := exp_series_from 8 1%positive 1 x.

(** ** More tensor operations *)

(** [x.shape[0]] and the shape test between two tensors. *)
Definition n_rows (m : matrix) : nat := length m.

Definition zeros (rows cols : nat) : matrix := repeat (repeat 0 cols) rows.

(** [torch.eye(n)]. *)
Definition eye (n : nat) : matrix :=
  map (fun i => map (fun j => if Nat.eqb i j then 1 else 0) (seq 0 n)) (seq 0 n).

(** [torch.hstack((a, b))] and [np.hstack((a, b))] of two 2-d tensors: the
    rows are joined; the numbers of rows must agree. *)
Definition hstack (a b : matrix) : result matrix := zip_with (@app Q) a b.

(** [torch.cat(ts, dim=1)]; [torch.cat] of an empty list is an error. *)
Fixpoint cat_dim1 (ts : list matrix) : result matrix :=
  match ts with
  | [] => Raise (RuntimeError "torch.cat(): expected a non-empty list of Tensors")
  | [t] => Ok t
  | t :: rest =>
      match cat_dim1 rest with
      | Ok r => hstack t r
      | Raise e => Raise e
      end
  end.

(** [t[:, idx]] with a list of column indices (numpy and torch fancy
    indexing): an index past the width is an [IndexError]. *)
Fixpoint take_cols_row (idx : list nat) (row : vec) : result vec :=
  match idx with
  | [] => Ok []
  | i :: rest =>
      match nth_error row i with
      | Some v =>
          match take_cols_row rest row with
          | Ok r => Ok (v :: r)
          | Raise e => Raise e
          end
      | None => Raise (IndexError "index is out of bounds for axis 1")
      end
  end.

Fixpoint take_cols (idx : list nat) (m : matrix) : result matrix :=
  match m with
  | [] => Ok []
  | row :: rest =>
      match take_cols_row idx row with
      | Ok r =>
          match take_cols idx rest with
          | Ok rs => Ok (r :: rs)
          | Raise e => Raise e
          end
      | Raise e => Raise e
      end
  end.

(** [t[rows]] / [t[rows, :]] with a list of row indices. *)
Fixpoint take_rows {A} (idx : list nat) (m : list A) : result (list A) :=
  match idx with
  | [] => Ok []
  | i :: rest =>
      match nth_error m i with
      | Some r =>
          match take_rows rest m with
          | Ok rs => Ok (r :: rs)
          | Raise e => Raise e
          end
      | None => Raise (IndexError "index is out of bounds for axis 0")
      end
  end.

(** [data[:, j] = v] on one row: writing past the width is an
    [IndexError]. *)
Fixpoint set_col_row (j : nat) (v : Q) (row : vec) : result vec :=
  match row, j with
  | [], _ => Raise (IndexError "index is out of bounds for axis 1")
  | _ :: t, O => Ok (v :: t)
  | a :: t, S j' =>
      match set_col_row j' v t with
      | Ok t' => Ok (a :: t')
      | Raise e => Raise e
      end
  end.

Fixpoint set_col (j : nat) (v : Q) (m : matrix) : result matrix :=
  match m with
  | [] => Ok []
  | row :: rest =>
      match set_col_row j v row with
      | Ok r =>
          match set_col j v rest with
          | Ok rs => Ok (r :: rs)
          | Raise e => Raise e
          end
      | Raise e => Raise e
      end
  end.

(** The mean of one chunk, [.mean(...)] over the chunk's width.  (The mean of
    an empty chunk is NaN in torch; tensor entries have no NaN here and the
    model gives [0 / 0 = 0].) *)
Definition chunk_mean (c : vec) : Q := Qsum c / inject_Z (Z.of_nat (length c)).

(** Consecutive chunks of width [n] of a row; the last one may be shorter. *)
Fixpoint chunks_go (fuel n : nat) (row : vec) : list vec :=
  match fuel with
  | O => []
  | S f =>
      match row with
      | [] => []
      | _ => firstn n row :: chunks_go f n (skipn n row)
      end
  end.

(** [torch.split(row, n)]: a split size of 0 is accepted only for an empty
    dimension; an empty dimension gives one empty chunk. *)
Definition torch_split (n : nat) (row : vec) : result (list vec) :=
  match row with
  | [] => Ok [[]]
  | _ =>
      match n with
      | O => Raise (RuntimeError "split_size can only be 0 if dimension size is 0")
      | S _ => Ok (chunks_go (length row) n row)
      end
  end.

(** [torch.stack] wants tensors of one shape. *)
Definition stackable (cs : list vec) : bool :=
  match cs with
  | [] => false
  | c :: rest => forallb (fun c' => Nat.eqb (length c') (length c)) rest
  end.

(** One row of
    [torch.stack(list(torch.split(act, n, dim=1)), dim=0).mean(dim=2).T]. *)
Definition split_mean_row (n : nat) (row : vec) : result vec :=
  (let! cs := torch_split n row in
   if stackable cs then Ok (map chunk_mean cs)
   else Raise (RuntimeError "stack expects each tensor to be equal size"))%res.

Fixpoint rmap {A B} (f : A -> result B) (l : list A) : result (list B) :=
  match l with
  | [] => Ok []
  | a :: t =>
      match f a with
      | Ok b =>
          match rmap f t with
          | Ok bs => Ok (b :: bs)
          | Raise e => Raise e
          end
      | Raise e => Raise e
      end
  end.

Definition split_mean (n : nat) (act : matrix) : result matrix :=
  rmap (split_mean_row n) act.

(** One row of [np.array(np.split(z, z.shape[1]/n, axis=1)).mean(axis=2).T].
    The number of sections is the float quotient [width / n]: [n = 0] is a
    [ZeroDivisionError] and so is the test [width % sections] on an empty
    row; numpy wants an equal division.  (The quotient is taken exactly: a
    width that [n] does not divide always fails the test.) *)
Definition np_split_mean_row (n : nat) (row : vec) : result vec :=
  match n with
  | O => Raise (ZeroDivisionError "division by zero")
  | S _ =>
      match row with
      | [] => Raise (ZeroDivisionError "float modulo")
      | _ =>
          if Nat.eqb (Nat.modulo (length row) n) 0
          then Ok (map chunk_mean (chunks_go (length row) n row))
          else Raise (ValueError "array split does not result in an equal division")
      end
  end.

Definition np_split_mean (n : nat) (act : matrix) : result matrix :=
  match n with
  | O => Raise (ZeroDivisionError "division by zero")
  | S _ => rmap (np_split_mean_row n) act
  end.

(** [np.argmax(output, axis=1)] on one row: the first position of the
    largest entry. *)
Fixpoint argmax_from (best_i : nat) (best : Q) (i : nat) (l : vec) : nat :=
  match l with
  | [] => best_i
  | x :: t =>
      if Qle_bool x best then argmax_from best_i best (S i) t
      else argmax_from i x (S i) t
  end.

Definition argmax_row (row : vec) : result nat :=
  match row with
  | [] => Raise (ValueError "attempt to get argmax of an empty sequence")
  | x :: t => Ok (argmax_from 0 x 1 t)
  end.

(** A tensor of the shape of [t] whose entry at row [i], column [j] is
    [f i j]. *)
Definition tabulate_like (f : nat -> nat -> Q) (t : matrix) : matrix :=
  map (fun ir => map (fun jc => f (fst ir) (fst jc))
                     (combine (seq 0 (length (snd ir))) (snd ir)))
      (combine (seq 0 (length t)) t).

(** ** Python floats of the loss bookkeeping *)

Inductive pyfloat : Type :=
| Fin (q : Q)
| PInf
| NInf
| NaN.

(** [a < b] on Python floats: every comparison with NaN is false. *)
Definition pf_lt (a b : pyfloat) : bool :=
  match a, b with
  | Fin x, Fin y => negb (Qle_bool y x)
  | Fin _, PInf => true
  | NInf, Fin _ => true
  | NInf, PInf => true
  | _, _ => false
  end.

(** ** Parameters, gradient masks and the optimizer *)

(** A [torch.nn.Parameter]: its tensor ([.data]), whether autograd tracks it
    and the gradient of the last backward pass ([None] after
    [optimizer.zero_grad()] and for a frozen parameter). *)
Record tparam : Type := {
  pname : string;
  data : matrix;
  requires_grad : bool;
  grad : option matrix
}.

Definition set_data (p : tparam) (d : matrix) : tparam :=
  {| pname := pname p; data := d; requires_grad := requires_grad p;
     grad := grad p |}.

Definition set_grad (p : tparam) (g : option matrix) : tparam :=
  {| pname := pname p; data := data p; requires_grad := requires_grad p;
     grad := g |}.

(** [for i in range(len(l)): l[i] = f(i, l[i])], counting from [i]: the loop
    updates in place, so an exception leaves the earlier elements updated
    and the later ones untouched. *)
Fixpoint for_each {A} (f : nat -> A -> result A) (i : nat) (l : list A)
  : list A * option exn :=
  match l with
  | [] => ([], None)
  | a :: t =>
      match f i a with
      | Ok a' => let (t', e) := for_each f (S i) t in (a' :: t', e)
      | Raise e => (a :: t, Some e)
      end
  end.

(** [tensor.clamp(0)], that is [clamp(min=0)], on one entry. *)
Definition clamp0 (w : Q) : Q := if Qle_bool 0 w then w else 0.

(** [optimizer.zero_grad()] on one group of parameters. *)
Definition zero_grad (ps : list tparam) : list tparam :=
  map (fun p => set_grad p None) ps.

(** [loss.backward()] on one group of parameters: every tracked parameter
    receives a gradient of its own shape; [g k i j] is the derivative of the
    loss in entry [(i, j)] of the [k]-th parameter of the group. *)
Definition backward_group (g : nat -> nat -> nat -> Q) (ps : list tparam)
  : list tparam :=
  map (fun kp =>
         if requires_grad (snd kp)
         then set_grad (snd kp) (Some (tabulate_like (g (fst kp)) (data (snd kp))))
         else snd kp)
      (combine (seq 0 (length ps)) ps).

(** Lines 394-397: the gradients of connections the ontology does not have
    are zeroed.
    [[
    if self.decoder.decoder[0][0].weight.requires_grad:
        for i in range(len(self.decoder.decoder)):
            self.decoder.decoder[i][0].weight.grad =
                torch.mul(self.decoder.decoder[i][0].weight.grad, self.decoder.masks[i])
    ]] *)
Definition mask_one_grad (masks : list matrix) (i : nat) (w : tparam)
  : result tparam :=
  match grad w with
  | None => Raise (TypeError "mul(): argument 'input' must be Tensor, not NoneType")
  | Some g =>
      match nth_error masks i with
      | None => Raise (IndexError "list index out of range")
      | Some mk =>
          (let! g' := zip_rows Qmult g mk in Ok (set_grad w (Some g')))%res
      end
  end.

Definition mask_gradients (masks : list matrix) (ws : list tparam)
  : list tparam * option exn :=
  match ws with
  | [] => (ws, Some (IndexError "index 0 is out of range"))
  | w0 :: _ =>
      if requires_grad w0 then for_each (mask_one_grad masks) 0 ws
      else (ws, None)
  end.

(** Lines 402-405: the weights of the ontology module are made positive.
    [[
    if self.decoder.decoder[0][0].weight.requires_grad:
        for i in range(len(self.decoder.decoder)):
            self.decoder.decoder[i][0].weight.data =
                self.decoder.decoder[i][0].weight.data.clamp(0)
    ]] *)
Definition clamp_weights (ws : list tparam) : list tparam * option exn :=
  match ws with
  | [] => (ws, Some (IndexError "index 0 is out of range"))
  | w0 :: _ =>
      if requires_grad w0
      then for_each (fun _ w => Ok (set_data w (map (map clamp0) (data w)))) 0 ws
      else (ws, None)
  end.

(** The optimizer of [train_model] is [optim.AdamW(self.parameters(), lr=lr)]
    with torch's defaults: betas (0.9, 0.999), eps 1e-8, weight decay 1e-2,
    no amsgrad.  Its state per parameter is created at the parameter's first
    update. *)
Record adam_state : Type := {
  step : nat;
  exp_avg : matrix;
  exp_avg_sq : matrix
}.

Definition beta1 : Q := 9 # 10.
Definition beta2 : Q := 999 # 1000.
Definition adam_eps : Q := 1 # 100000000.
Definition weight_decay : Q := 1 # 100.

Section AdamW.

(** The square root of one element ([torch.sqrt], [math.sqrt]). *)
Variable sqrt : Q -> Q.

(** The learning rate the optimizer was created with. *)
Variable lr : Q.

Definition zeros_like (t : matrix) : matrix := map (map (fun _ => 0)) t.

(** One AdamW update of one parameter; a parameter without gradient is
    skipped. *)
Definition adamw_update (st : option adam_state) (p : tparam)
  : result (option adam_state * tparam) :=
  match grad p with
  | None => Ok (st, p)
  | Some g =>
      let s := match st with
               | Some s => s
               | None => {| step := 0; exp_avg := zeros_like (data p);
                            exp_avg_sq := zeros_like (data p) |}
               end in
      let t := S (step s) in
      let bias_correction1 := 1 - beta1 ^ Z.of_nat t in
      let bias_correction2 := 1 - beta2 ^ Z.of_nat t in
      let step_size := lr / bias_correction1 in
      (let! m := zip_rows (fun m g => m + (1 - beta1) * (g - m)) (exp_avg s) g in
       let! v := zip_rows (fun v g => beta2 * v + (1 - beta2) * (g * g))
                          (exp_avg_sq s) g in
       let! u := zip_rows (fun m v =>
                             step_size * (m / (sqrt v / sqrt bias_correction2 + adam_eps)))
                          m v in
       let! w := zip_rows (fun w u => w * (1 - lr * weight_decay) - u) (data p) u in
       Ok (Some {| step := t; exp_avg := m; exp_avg_sq := v |}, set_data p w))%res
  end.

(** [optimizer.step()] on one group of parameters and their states. *)
Fixpoint step_group (sts : list (option adam_state)) (ps : list tparam)
  : (list (option adam_state) * list tparam) * option exn :=
  match ps with
  | [] => ((sts, []), None)
  | p :: ps' =>
      match adamw_update (hd None sts) p with
      | Ok (st', p') =>
          let '((sts', ps''), e) := step_group (tl sts) ps' in
          ((st' :: sts', p' :: ps''), e)
      | Raise e => ((sts, ps), Some e)
      end
  end.

(** The part of one iteration of [train_round] that touches the decoder
    weights (lines 391-405): backward pass, gradient masking, optimizer step,
    clamp; [Raise] when one of these steps raises. *)
Definition decoder_train_step (masks : list matrix)
  (st : list (option adam_state) * list tparam) (g : nat -> nat -> nat -> Q)
  : result (list (option adam_state) * list tparam) :=
  let ws := backward_group g (zero_grad (snd st)) in
  match mask_gradients masks ws with
  | (_, Some e) => Raise e
  | (ws1, None) =>
      match step_group (fst st) ws1 with
      | (_, Some e) => Raise e
      | ((sts2, ws2), None) =>
          match clamp_weights ws2 with
          | (_, Some e) => Raise e
          | (ws3, None) => Ok (sts2, ws3)
          end
      end
  end.

(** The decoder weights after each completed iteration of the training loop,
    one gradient per minibatch; the run stops at the first iteration that
    raises. *)
Fixpoint decoder_train_trace (masks : list matrix)
  (st : list (option adam_state) * list tparam)
  (gs : list (nat -> nat -> nat -> Q))
  : list (list (option adam_state) * list tparam) :=
  match gs with
  | [] => []
  | g :: gs' =>
      match decoder_train_step masks st g with
      | Ok st' => st' :: decoder_train_trace masks st' gs'
      | Raise _ => []
      end
  end.

End AdamW.

(** A fresh optimizer holds no state yet. *)
Definition fresh_optimizer (ps : list tparam) : list (option adam_state) :=
  map (fun _ => None) ps.

(** The mask pattern on one weight: the weight is zero wherever its mask
    is. *)
Definition respects_mask (mk w : matrix) : Prop :=
  Forall2 (Forall2 (fun m x => m == 0 -> x == 0)) mk w.

Definition nonneg (w : matrix) : Prop := Forall (Forall (fun x => 0 <= x)) w.

(** A decimal fixed-point square root, used only to evaluate the definitions
    on concrete inputs. *)
Definition sqrt_fix (q : Q) : Q :=
  inject_Z (Z.sqrt (Qnum q * 1000000000000 / Zpos (Qden q))) / 1000000.

(** ** Python dictionaries and strings *)

(** A [dict] keeps its keys in insertion order: an association list whose
    keys are distinct.  [d[k] = v] overwrites in place or appends. *)
Fixpoint dict_get {V} (k : string) (d : list (string * V)) : option V :=
  match d with
  | [] => None
  | (k', v) :: t => if String.eqb k k' then Some v else dict_get k t
  end.

Fixpoint dict_set {V} (k : string) (v : V) (d : list (string * V))
  : list (string * V) :=
  match d with
  | [] => [(k, v)]
  | (k', v') :: t =>
      if String.eqb k k' then (k, v) :: t else (k', v') :: dict_set k v t
  end.

(** [d[k]], a [KeyError] when the key is missing. *)
Definition dict_item {V} (k : string) (d : list (string * V)) : result V :=
  match dict_get k d with
  | Some v => Ok v
  | None => Raise (KeyError k)
  end.

(** The same with integer keys (the [activation] dictionary of the hooks). *)
Fixpoint idict_set {V} (k : nat) (v : V) (d : list (nat * V))
  : list (nat * V) :=
  match d with
  | [] => [(k, v)]
  | (k', v') :: t =>
      if Nat.eqb k k' then (k, v) :: t else (k', v') :: idict_set k v t
  end.

(** [str(n)] of a non-negative integer. *)
Definition py_str (n : nat) : string := NilEmpty.string_of_uint (Nat.to_uint n).

(** [str(top) + '_' + str(bottom)]. *)
Definition thresh_key (top bottom : nat) : string :=
  py_str top ++ "_" ++ py_str bottom.

(** [lst.index(x)]: the first position of [x], a [ValueError] when [x] is
    not in the list. *)
Fixpoint list_index (x : string) (l : list string) : result nat :=
  match l with
  | [] => Raise (ValueError (x ++ " is not in list"))
  | a :: t =>
      if String.eqb a x then Ok O
      else match list_index x t with
           | Ok i => Ok (S i)
           | Raise e => Raise e
           end
  end.

(** [len(set(l))]. *)
Definition count_distinct_Z (l : list Z) : nat := length (nodup Z.eq_dec l).
Definition count_distinct (l : list nat) : nat := length (nodup Nat.eq_dec l).

(** ** The ontology object (an [Ontobj], defined outside this file)

    The fields the model reads.  A dataset is a numpy array, held by
    reference; [o_masks] holds [ontobj.masks[key]['decoder']]; an annotation
    table is the list of its rows, each with its index label and its [ID]. *)
Record Ontobj : Type := {
  description : string;
  o_genes : list (string * list string);
  o_masks : list (string * list matrix);
  o_data : list (string * list (string * nat));
  o_annot : list (string * list (nat * string))
}.

(** ** Checkpoints *)

Record Checkpoint : Type := {
  ck_epoch : nat;
  ck_model_state_dict : list (string * matrix);
  ck_optimizer_state_dict : list (list (option adam_state));
  ck_loss : pyfloat;
  ck_classifier_trained : bool;
  ck_n_classes : nat;
  ck_batch_corrected : bool;
  ck_n_batch : nat
}.

(** ** The model object *)

(** A registered forward hook: its handle, the decoder block
    [self.decoder.decoder[i][0]] it sits on and the [activation] dictionary
    its closure writes to. *)
Record hook : Type := {
  handle_id : nat;
  hook_layer : nat;
  hook_dict : nat
}.

(** The attributes [__init__] sets and no method changes afterwards. *)
Record Attrs : Type := {
  ontology : string;
  top : nat;
  bottom : nat;
  genes : list string;
  in_features : nat;
  mask_list : list matrix;
  layer_dims_dec : list nat;
  latent_dim : nat;
  layer_dims_enc : list nat;
  neuronnum : nat;
  drop : Q;
  z_drop : Q;
  labels : option (list Z);
  batches : option (list nat);
  one_hot : option matrix;
  modelpath : option string;
  X : nat;
  y : list Z;
  n_classes : nat;
  n_batch : nat;
  batch_info : list nat;
  decoder_masks : list matrix
}.

(** The model: its attributes, its training state, its parameters
    ([encoder_params] for [self.encoder], [decoder_weights] for the
    [self.decoder.decoder[i][0].weight], [decoder_rest] for the other
    parameters of the decoder, [classifier] present only when the attribute
    [self.classifier] exists), the train/eval mode of [nn.Module] and the
    forward hooks registered on the decoder blocks. *)
Record COntoVAE : Type := {
  attrs : Attrs;
  param_dict : list (string * Q);
  VAE_trained : bool;
  clf_trained : bool;
  val_loss_min : pyfloat;
  encoder_params : list tparam;
  decoder_weights : list tparam;
  decoder_rest : list tparam;
  classifier : option (list tparam);
  training : bool;
  forward_hooks : list hook
}.

Definition set_param_dict (v : list (string * Q)) (m : COntoVAE) : COntoVAE :=
  {| attrs := attrs m; param_dict := v; VAE_trained := VAE_trained m;
     clf_trained := clf_trained m; val_loss_min := val_loss_min m;
     encoder_params := encoder_params m; decoder_weights := decoder_weights m;
     decoder_rest := decoder_rest m; classifier := classifier m;
     training := training m; forward_hooks := forward_hooks m |}.

Definition set_VAE_trained (v : bool) (m : COntoVAE) : COntoVAE :=
  {| attrs := attrs m; param_dict := param_dict m; VAE_trained := v;
     clf_trained := clf_trained m; val_loss_min := val_loss_min m;
     encoder_params := encoder_params m; decoder_weights := decoder_weights m;
     decoder_rest := decoder_rest m; classifier := classifier m;
     training := training m; forward_hooks := forward_hooks m |}.

Definition set_clf_trained (v : bool) (m : COntoVAE) : COntoVAE :=
  {| attrs := attrs m; param_dict := param_dict m; VAE_trained := VAE_trained m;
     clf_trained := v; val_loss_min := val_loss_min m;
     encoder_params := encoder_params m; decoder_weights := decoder_weights m;
     decoder_rest := decoder_rest m; classifier := classifier m;
     training := training m; forward_hooks := forward_hooks m |}.

Definition set_val_loss_min (v : pyfloat) (m : COntoVAE) : COntoVAE :=
  {| attrs := attrs m; param_dict := param_dict m; VAE_trained := VAE_trained m;
     clf_trained := clf_trained m; val_loss_min := v;
     encoder_params := encoder_params m; decoder_weights := decoder_weights m;
     decoder_rest := decoder_rest m; classifier := classifier m;
     training := training m; forward_hooks := forward_hooks m |}.

Definition set_params (enc dec rest : list tparam) (clf : option (list tparam))
  (m : COntoVAE) : COntoVAE :=
  {| attrs := attrs m; param_dict := param_dict m; VAE_trained := VAE_trained m;
     clf_trained := clf_trained m; val_loss_min := val_loss_min m;
     encoder_params := enc; decoder_weights := dec;
     decoder_rest := rest; classifier := clf;
     training := training m; forward_hooks := forward_hooks m |}.

Definition set_training (v : bool) (m : COntoVAE) : COntoVAE :=
  {| attrs := attrs m; param_dict := param_dict m; VAE_trained := VAE_trained m;
     clf_trained := clf_trained m; val_loss_min := val_loss_min m;
     encoder_params := encoder_params m; decoder_weights := decoder_weights m;
     decoder_rest := decoder_rest m; classifier := classifier m;
     training := v; forward_hooks := forward_hooks m |}.

Definition set_forward_hooks (v : list hook) (m : COntoVAE) : COntoVAE :=
  {| attrs := attrs m; param_dict := param_dict m; VAE_trained := VAE_trained m;
     clf_trained := clf_trained m; val_loss_min := val_loss_min m;
     encoder_params := encoder_params m; decoder_weights := decoder_weights m;
     decoder_rest := decoder_rest m; classifier := classifier m;
     training := training m; forward_hooks := v |}.

(** ** The interpreter state and the monad of the methods *)

(** What a method can read and change: the model object itself, the state of
    torch's random generator (the number of tensors drawn so far), the numpy
    arrays of the heap (by reference), the [activation] dictionaries the
    hooks write to (by reference), the counter of hook handles and the files
    written by [torch.save], the latest first. *)
Record World : Type := {
  self : COntoVAE;
  rng : nat;
  arrays : list matrix;
  dicts : list (list (nat * matrix));
  next_handle : nat;
  files : list (string * Checkpoint)
}.

Definition set_self (v : COntoVAE) (w : World) : World :=
  {| self := v; rng := rng w; arrays := arrays w; dicts := dicts w;
     next_handle := next_handle w; files := files w |}.

Definition set_rng (v : nat) (w : World) : World :=
  {| self := self w; rng := v; arrays := arrays w; dicts := dicts w;
     next_handle := next_handle w; files := files w |}.

Definition set_arrays (v : list matrix) (w : World) : World :=
  {| self := self w; rng := rng w; arrays := v; dicts := dicts w;
     next_handle := next_handle w; files := files w |}.

Definition set_dicts (v : list (list (nat * matrix))) (w : World) : World :=
  {| self := self w; rng := rng w; arrays := arrays w; dicts := v;
     next_handle := next_handle w; files := files w |}.

Definition set_next_handle (v : nat) (w : World) : World :=
  {| self := self w; rng := rng w; arrays := arrays w; dicts := dicts w;
     next_handle := v; files := files w |}.

Definition set_files (v : list (string * Checkpoint)) (w : World) : World :=
  {| self := self w; rng := rng w; arrays := arrays w; dicts := dicts w;
     next_handle := next_handle w; files := v |}.

(** A method either returns a value or raises; the state it leaves behind is
    kept in both cases. *)
Definition M (A : Type) : Type := World -> result A * World.

Definition ret {A} (a : A) : M A := fun w => (Ok a, w).

Definition raise {A} (e : exn) : M A := fun w => (Raise e, w).

Definition bind {A B} (m : M A) (k : A -> M B) : M B :=
  fun w =>
    match m w with
    | (Ok a, w') => k a w'
    | (Raise e, w') => (Raise e, w')
    end.

Definition lift {A} (r : result A) : M A := fun w => (r, w).

Declare Scope m_scope.
Delimit Scope m_scope with M.
Notation "x <- m ;; k" := (bind m (fun x => k))
  (at level 61, m at next level, right associativity) : m_scope.
Notation "' pat <- m ;; k" := (bind m (fun x => match x with pat => k end))
  (at level 61, pat pattern, m at next level, right associativity) : m_scope.
Notation "m ;; k" := (bind m (fun _ => k))
  (at level 61, right associativity) : m_scope.

Definition get_self : M COntoVAE := fun w => (Ok (self w), w).

Definition modify_self (f : COntoVAE -> COntoVAE) : M unit :=
  fun w => (Ok tt, set_self (f (self w)) w).

(** An in-place loop: the state it reached is kept, then its exception, if
    any, is raised. *)
Definition finish_loop {A} (r : A * option exn) (store : A -> World -> World)
  : M unit :=
  fun w =>
    match snd r with
    | None => (Ok tt, store (fst r) w)
    | Some e => (Raise e, store (fst r) w)
    end.

(** Replace the element at position [i]. *)
Fixpoint list_update {A} (i : nat) (v : A) (l : list A) : list A :=
  match l, i with
  | [], _ => []
  | _ :: t, O => v :: t
  | a :: t, S i' => a :: list_update i' v t
  end.

(** [arr.copy()]: a new array on the heap. *)
Definition array_copy (r : nat) : M nat :=
  fun w =>
    match nth_error (arrays w) r with
    | Some a => (Ok (length (arrays w)), set_arrays (arrays w ++ [a]) w)
    | None => (Raise (RuntimeError "dangling array reference"), w)
    end.

Definition array_read (r : nat) : M matrix :=
  fun w =>
    match nth_error (arrays w) r with
    | Some a => (Ok a, w)
    | None => (Raise (RuntimeError "dangling array reference"), w)
    end.

Definition array_write (r : nat) (a : matrix) : M unit :=
  fun w => (Ok tt, set_arrays (list_update r a (arrays w)) w).

(** [torch.save(ck, path)] and [torch.load(path)]. *)
Definition torch_save (ck : Checkpoint) (path : string) : M unit :=
  fun w => (Ok tt, set_files ((path, ck) :: files w) w).

Definition torch_load (path : string) (fs : list (string * Checkpoint))
  : result Checkpoint :=
  match dict_get path fs with
  | Some ck => Ok ck
  | None => Raise (FileNotFoundError path)
  end.

(** ** The forward pass and the activation hooks *)

Section Network.

(** [torch.exp] on one element. *)
Variable exp : Q -> Q.

(** [torch.randn_like]: the entry at row [i], column [j] of the tensor drawn
    in generator state [s] is [randn s i j]. *)
Variable randn : nat -> nat -> nat -> Q.

(** [self.encoder(x)], an [Encoder] of [modules.py]: from the mode, the
    generator state (dropout), its parameters and the input, the pair
    [(mu, log_var)] or an exception. *)
Variable Encoder_forward :
  bool -> nat -> list tparam -> matrix -> result (matrix * matrix).

(** [self.decoder(z, batch)], an [OntoDecoder] of [modules.py]: from the
    mode, the generator state, its weights, its other parameters, the
    model's attributes, the latent sample and the batch labels, the outputs
    of the blocks [self.decoder.decoder[i][0]] it called, each with its [i],
    in call order, and the reconstruction or an exception. *)
Variable OntoDecoder_forward :
  bool -> nat -> list tparam -> list tparam -> Attrs -> matrix ->
  option (list nat) -> list (nat * matrix) * result matrix.

(** [self.classifier(act)], a [simple_classifier] of [modules.py]. *)
Variable classifier_forward : list tparam -> matrix -> result matrix.

Open Scope m_scope.

(** One use of torch's random generator. *)
Definition draw : M nat :=
  fun w => (Ok (rng w), set_rng (S (rng w)) w).

(** [self.eval()] and [self.train()]. *)
Definition eval : M unit := modify_self (set_training false).
Definition train : M unit := modify_self (set_training true).

(** [reparameterize], lines 154-167: [sample s] is its value when the
    generator is in state [s]. *)
Definition sample (s : nat) (mu log_var : matrix) : result matrix :=
  let sigma := map (map (fun l => exp ((1 # 2) * l))) log_var in
  let eps := tabulate_like (randn s) sigma in
  (let! es := zip_rows Qmult eps sigma in
   zip_rows Qplus mu es)%res.

Definition reparameterize (mu log_var : matrix) : M matrix :=
  s <- draw ;;
  lift (sample s mu log_var).

(** The batch information is attached to the input (lines 178-188 and
    202-212; the parameters are on the CPU, so the [else] arms run).  With
    [self.one_hot] still [None], looking the batch up fails with
    [no_one_hot]. *)
Definition attach_batch (m : COntoVAE) (no_one_hot : exn) (x : matrix)
  (batch : option (list nat)) : result matrix :=
  (let! x := match batch with
             | Some b =>
                 match one_hot (attrs m) with
                 | Some oh =>
                     let! rows := take_rows b oh in
                     hstack x rows
                 | None => Raise no_one_hot
                 end
             | None => Ok x
             end in
   match batch with
   | None =>
       if Nat.ltb 0 (n_batch (attrs m))
       then hstack x (zeros (n_rows x) (n_batch (attrs m)))
       else Ok x
   | Some _ => Ok x
   end)%res.

Definition none_has_no_to : exn :=
  AttributeError "'NoneType' object has no attribute 'to'".

Definition none_not_subscriptable : exn :=
  TypeError "'NoneType' object is not subscriptable".

Definition call_encoder (x : matrix) : M (matrix * matrix) :=
  m <- get_self ;;
  s <- draw ;;
  lift (Encoder_forward (training m) s (encoder_params m) x).

(** [get_embedding], lines 169-198. *)
Definition get_embedding (x : matrix) (batch : option (list nat)) : M matrix :=
  m <- get_self ;;
  x <- lift (attach_batch m none_has_no_to x batch) ;;
  eval ;;
  ' (mu, log_var) <- call_encoder x ;;
  reparameterize mu log_var.

(** A forward hook made by [_get_activation(index, activation)] runs
    [activation[index] = output]. *)
Definition fire_hook (i : nat) (out : matrix)
  (ds : list (list (nat * matrix))) (h : hook) : list (list (nat * matrix)) :=
  if Nat.eqb (hook_layer h) i then
    match nth_error ds (hook_dict h) with
    | Some d => list_update (hook_dict h) (idict_set i out d) ds
    | None => ds
    end
  else ds.

(** A call of block [i] runs the hooks registered on it, in the order of
    their registration. *)
Definition fire_event (hooks : list hook) (ds : list (list (nat * matrix)))
  (ev : nat * matrix) : list (list (nat * matrix)) :=
  fold_left (fire_hook (fst ev) (snd ev)) hooks ds.

Definition call_decoder (z : matrix) (batch : option (list nat)) : M matrix :=
  m <- get_self ;;
  s <- draw ;;
  let (events, r) :=
    OntoDecoder_forward (training m) s (decoder_weights m) (decoder_rest m)
                        (attrs m) z batch in
  (fun w => (r, set_dicts (fold_left (fire_event (forward_hooks m)) events (dicts w)) w)).

Definition call_classifier (act : matrix) : M matrix :=
  m <- get_self ;;
  match classifier m with
  | Some ps => lift (classifier_forward ps act)
  | None => raise (AttributeError "'COntoVAE' object has no attribute 'classifier'")
  end.

(** [module.register_forward_hook(fn)] and [handle.remove()]. *)
Definition register_forward_hook (layer activation : nat) : M nat :=
  fun w =>
    let h := next_handle w in
    (Ok h,
     set_next_handle (S h)
       (set_self
          (set_forward_hooks
             (forward_hooks (self w)
              ++ [{| handle_id := h; hook_layer := layer; hook_dict := activation |}])
             (self w)) w)).

Definition remove_handle (h : nat) : M unit :=
  modify_self (fun m =>
    set_forward_hooks
      (filter (fun k => negb (Nat.eqb (handle_id k) h)) (forward_hooks m)) m).

(** [activation = {}]: a new dictionary. *)
Definition new_dict : M nat :=
  fun w => (Ok (length (dicts w)), set_dicts (dicts w ++ [[]]) w).

(** [list(activation.values())]. *)
Definition dict_values (d : nat) : M (list matrix) :=
  fun w => (Ok (map snd (nth d (dicts w) [])), w).

(** [_attach_hooks], lines 580-584: a hook on every decoder block but the
    last. *)
Fixpoint attach_loop (layers : list nat) (activation : nat)
  (hooks : list (string * nat)) : M (list (string * nat)) :=
  match layers with
  | [] => ret hooks
  | i :: rest =>
      value <- register_forward_hook i activation ;;
      attach_loop rest activation (dict_set (py_str i) value hooks)
  end.

Definition _attach_hooks (activation : nat) (hooks : list (string * nat))
  : M (list (string * nat)) :=
  m <- get_self ;;
  attach_loop (seq 0 (length (decoder_weights m) - 1)) activation hooks.

(** [for h in hooks: hooks[h].remove()]. *)
Fixpoint remove_hooks (hooks : list (string * nat)) : M unit :=
  match hooks with
  | [] => ret tt
  | (_, h) :: rest => remove_handle h ;; remove_hooks rest
  end.

(** The pathway activities of one pass (lines 230-232 and 285-287): the
    captured outputs are joined, the latent sample is put in front, and
    every group of [neuronnum] columns is averaged.
    [[
    act = torch.cat(list(activation.values()), dim=1)
    act = torch.hstack((z,act))
    act = torch.stack(list(torch.split(act, self.neuronnum, dim=1)), dim=0).mean(dim=2).T
    ]] *)
Definition pathway_activities (n : nat) (z : matrix) (vals : list matrix)
  : result matrix :=
  (let! act := cat_dim1 vals in
   let! act := hstack z act in
   split_mean n act)%res.

(** [forward], lines 200-238.  With labels the result carries the pathway
    activities and the classifier output. *)
Definition forward (x : matrix) (batch : option (list nat))
  : M (matrix * matrix * matrix * option (matrix * matrix)) :=
  m <- get_self ;;
  x <- lift (attach_batch m none_has_no_to x batch) ;;
  ' (mu, log_var) <- call_encoder x ;;
  z <- reparameterize mu log_var ;;
  match labels (attrs m) with
  | Some _ =>
      activation <- new_dict ;;
      hooks <- _attach_hooks activation [] ;;
      reconstruction <- call_decoder z batch ;;
      vals <- dict_values activation ;;
      act <- lift (pathway_activities (neuronnum (attrs m)) z vals) ;;
      output <- call_classifier act ;;
      remove_hooks hooks ;;
      ret (reconstruction, mu, log_var, Some (act, output))
  | None =>
      reconstruction <- call_decoder z batch ;;
      ret (reconstruction, mu, log_var, None)
  end.

(** [ontobj.data[key][dataset].copy()] turned into a tensor. *)
Definition dataset_ref (m : COntoVAE) (ontobj : Ontobj) (dataset : string)
  : result nat :=
  (let! per_key := dict_item (thresh_key (top (attrs m)) (bottom (attrs m)))
                             (o_data ontobj) in
   dict_item dataset per_key)%res.

(** [get_classification], lines 241-300. *)
Definition get_classification (ontobj : Ontobj) (dataset : string)
  (batch : option (list nat)) : M (list nat) :=
  m <- get_self ;;
  if negb (String.eqb (ontology (attrs m)) (description ontobj))
  then raise (SystemExit ("Wrong ontology provided, should be " ++ ontology (attrs m)))
  else
    r <- lift (dataset_ref m ontobj dataset) ;;
    r <- array_copy r ;;
    data <- array_read r ;;
    data <- lift (attach_batch m none_not_subscriptable data batch) ;;
    eval ;;
    ' (mu, log_var) <- call_encoder data ;;
    z <- reparameterize mu log_var ;;
    activation <- new_dict ;;
    hooks <- _attach_hooks activation [] ;;
    reconstruction <- call_decoder z batch ;;
    vals <- dict_values activation ;;
    act <- lift (pathway_activities (neuronnum (attrs m)) z vals) ;;
    output <- call_classifier act ;;
    remove_hooks hooks ;;
    lift (rmap argmax_row output).

(** [_pass_data], lines 587-633; [None] is Python's [None], returned when
    [output] is neither ['act'] nor ['rec']. *)
Definition _pass_data (data : matrix) (batch : option (list nat))
  (output : string) : M (option matrix) :=
  eval ;;
  z <- get_embedding data batch ;;
  m <- get_self ;;
  z <- lift (np_split_mean (neuronnum (attrs m)) z) ;;
  activation <- new_dict ;;
  hooks <- _attach_hooks activation [] ;;
  ' (reconstruction, _, _, _) <- forward data batch ;;
  vals <- dict_values activation ;;
  act <- lift (cat_dim1 vals) ;;
  act <- lift (np_split_mean (neuronnum (attrs m)) act) ;;
  remove_hooks hooks ;;
  if String.eqb output "act" then
    r <- lift (hstack z act) ;; ret (Some r)
  else if String.eqb output "rec" then ret (Some reconstruction)
  else ret None.

(** [annot[annot.ID.isin(terms)].index.to_numpy()]. *)
Definition term_index (annot : list (nat * string)) (terms : list string)
  : list nat :=
  map fst (filter (fun row => existsb (String.eqb (snd row)) terms) annot).

(** [res[:, term_ind]] for the terms asked for. *)
Definition subset_terms (m : COntoVAE) (ontobj : Ontobj) (terms : list string)
  (res : matrix) : result matrix :=
  (let! annot := dict_item (thresh_key (top (attrs m)) (bottom (attrs m)))
                           (o_annot ontobj) in
   take_cols (term_index annot terms) res)%res.

(** [res[:, gene_ind]] with
    [gene_ind = np.array([onto_genes.index(g) for g in rec_genes])]; the
    array of an empty list is a float array, which cannot index. *)
Definition subset_genes (m : COntoVAE) (ontobj : Ontobj)
  (rec_genes : list string) (res : matrix) : result matrix :=
  (let! onto_genes := dict_item (thresh_key (top (attrs m)) (bottom (attrs m)))
                                (o_genes ontobj) in
   let! gene_ind := rmap (fun g => list_index g onto_genes) rec_genes in
   match gene_ind with
   | [] => Raise (IndexError "arrays used as indices must be of integer (or boolean) type")
   | _ => take_cols gene_ind res
   end)%res.

Definition wrong_ontology (m : COntoVAE) : exn :=
  ValueError ("Wrong ontology provided, should be " ++ ontology (attrs m)).

Definition subscript_none {A} (r : option A) : result A :=
  match r with
  | Some a => Ok a
  | None => Raise none_not_subscriptable
  end.

(** [get_pathway_activities], lines 636-669. *)
Definition get_pathway_activities (ontobj : Ontobj) (dataset : string)
  (batch : option (list nat)) (terms : option (list string))
  : M (option matrix) :=
  m <- get_self ;;
  if negb (String.eqb (ontology (attrs m)) (description ontobj))
  then raise (wrong_ontology m)
  else
    r <- lift (dataset_ref m ontobj dataset) ;;
    r <- array_copy r ;;
    data <- array_read r ;;
    act <- _pass_data data batch "act" ;;
    match terms with
    | Some ts =>
        act <- lift (subscript_none act) ;;
        act <- lift (subset_terms m ontobj ts act) ;;
        ret (Some act)
    | None => ret act
    end.

(** [get_reconstructed_values], lines 672-705. *)
Definition get_reconstructed_values (ontobj : Ontobj) (dataset : string)
  (batch : option (list nat)) (rec_genes : option (list string))
  : M (option matrix) :=
  m <- get_self ;;
  if negb (String.eqb (ontology (attrs m)) (description ontobj))
  then raise (wrong_ontology m)
  else
    r <- lift (dataset_ref m ontobj dataset) ;;
    r <- array_copy r ;;
    data <- array_read r ;;
    rec <- _pass_data data batch "rec" ;;
    match rec_genes with
    | Some gs =>
        rec <- lift (subscript_none rec) ;;
        rec <- lift (subset_genes m ontobj gs rec) ;;
        ret (Some rec)
    | None => ret rec
    end.

(** The loop [for i in range(len(genes)): data[:, indices[i]] = values[i]]
    on the array [r]. *)
Fixpoint perturb_loop (r : nat) (i : nat) (indices : list nat)
  (values : list Q) : M unit :=
  match indices with
  | [] => ret tt
  | ix :: rest =>
      match nth_error values i with
      | None => raise (IndexError "list index out of range")
      | Some v =>
          data <- array_read r ;;
          data <- lift (set_col ix v data) ;;
          array_write r data ;;
          perturb_loop r (S i) rest values
      end
  end.

Definition unbound_res {A} (res : option A) : result A :=
  match res with
  | Some a => Ok a
  | None => Raise (UnboundLocalError "res")
  end.

(** [perturbation], lines 708-773.  The local variable [res] is unbound
    ([None] here) until one of the two tests on [output] assigns it. *)
Definition perturbation (ontobj : Ontobj) (dataset : string)
  (genes_ : list string) (values : list Q) (batch : option (list nat))
  (output : string) (terms : option (list string))
  (rec_genes : option (list string)) : M (option matrix) :=
  let rec_genes := if String.eqb output "terms" then None else rec_genes in
  let terms := if String.eqb output " genes" then None else terms in
  m <- get_self ;;
  if negb (String.eqb (ontology (attrs m)) (description ontobj))
  then raise (wrong_ontology m)
  else
    r <- lift (dataset_ref m ontobj dataset) ;;
    r <- array_copy r ;;
    indices <- lift (rmap (fun g => list_index g (genes (attrs m))) genes_) ;;
    perturb_loop r 0 indices values ;;
    data <- array_read r ;;
    res <- (if String.eqb output "terms"
            then (v <- _pass_data data batch "act" ;; ret (Some v))
            else ret None) ;;
    res <- (if String.eqb output "genes"
            then (v <- _pass_data data batch "rec" ;; ret (Some v))
            else ret res) ;;
    res <- match terms with
           | Some ts =>
               res <- lift (unbound_res res) ;;
               res <- lift (subscript_none res) ;;
               res <- lift (subset_terms m ontobj ts res) ;;
               ret (Some (Some res))
           | None => ret res
           end ;;
    res <- match rec_genes with
           | Some gs =>
               res <- lift (unbound_res res) ;;
               res <- lift (subscript_none res) ;;
               res <- lift (subset_genes m ontobj gs res) ;;
               ret (Some (Some res))
           | None => ret res
           end ;;
    lift (unbound_res res).

Close Scope m_scope.

End Network.

(** ** Construction, state dictionaries and checkpoints *)

(** [self.parameters()]: the parameters of the encoder, the decoder and,
    when it exists, the classifier. *)
Definition parameters (m : COntoVAE) : list tparam :=
  encoder_params m ++ decoder_weights m ++ decoder_rest m
  ++ match classifier m with Some ps => ps | None => [] end.

(** [self.state_dict()]. *)
Definition state_dict (m : COntoVAE) : list (string * matrix) :=
  map (fun p => (pname p, data p)) (parameters m).

Definition same_shape_b (a b : matrix) : bool :=
  Nat.eqb (length a) (length b)
  && forallb (fun rr => Nat.eqb (length (fst rr)) (length (snd rr))) (combine a b).

(** [load_state_dict(sd, strict=False)] on one parameter: a name missing
    from [sd] is skipped, a tensor of another shape is reported. *)
Definition load_param (sd : list (string * matrix)) (p : tparam)
  : tparam * bool :=
  match dict_get (pname p) sd with
  | None => (p, false)
  | Some d => if same_shape_b (data p) d then (set_data p d, false) else (p, true)
  end.

Definition load_group (sd : list (string * matrix)) (ps : list tparam)
  : list tparam * bool :=
  (map (fun p => fst (load_param sd p)) ps,
   existsb (fun p => snd (load_param sd p)) ps).

(** [self.load_state_dict(sd, strict=False)]: every parameter whose name and
    shape match is overwritten; the size mismatches are raised together at
    the end. *)
Definition load_state_dict (sd : list (string * matrix)) (m : COntoVAE)
  : COntoVAE * option exn :=
  let (enc, e1) := load_group sd (encoder_params m) in
  let (dec, e2) := load_group sd (decoder_weights m) in
  let (rest, e3) := load_group sd (decoder_rest m) in
  let (clf, e4) := match classifier m with
                   | Some ps => let (c, e) := load_group sd ps in (Some c, e)
                   | None => (None, false)
                   end in
  (set_params enc dec rest clf m,
   if e1 || e2 || e3 || e4
   then Some (RuntimeError "Error(s) in loading state_dict: size mismatch")
   else None).

(** [m.shape[1]] and [m.shape[0]] of a mask.  (A list of rows does not record
    the width of a matrix without rows.) *)
Definition shape1 (m : matrix) : nat :=
  match m with
  | [] => O
  | r :: _ => length r
  end.

Definition sum_nat (l : list nat) : nat := fold_right Nat.add O l.

Section Construction.

(** The constructors of [modules.py]: [Encoder(...)] gives the encoder's
    parameters; [OntoDecoder(...)] gives the decoder's weights
    [decoder.decoder[i][0].weight], its masks [decoder.masks] and its other
    parameters; [simple_classifier(...)] gives the classifier's
    parameters. *)
Variable Encoder_new : nat -> nat -> list nat -> Q -> Q -> list tparam.
Variable OntoDecoder_new :
  nat -> list nat -> list matrix -> nat -> nat -> option matrix -> nat ->
  list tparam * list matrix * list tparam.
Variable simple_classifier_new : nat -> nat -> list tparam.

(** [__init__], lines 48-152, run with the arrays and the files of the
    state it is called in. *)
Definition init (ontobj : Ontobj) (dataset : string)
  (top_thresh bottom_thresh neuronnum_ : nat) (drop_ z_drop_ : Q)
  (labels_ : option (list Z)) (batches_ : option (list nat))
  (modelpath_ : option string)
  (arrays_ : list matrix) (files_ : list (string * Checkpoint))
  : result COntoVAE :=
  let key := thresh_key top_thresh bottom_thresh in
  match dict_get key (o_genes ontobj) with
  | None =>
      Raise (ValueError ("Available trimming thresholds are: "
                         ++ String.concat ", " (map fst (o_genes ontobj))))
  | Some genes_ =>
      (let in_features_ := length genes_ in
       let! masks_by_key := dict_item key (o_masks ontobj) in
       let mask_list_ := masks_by_key in
       let! m0 := match mask_list_ with
                  | [] => Raise (IndexError "list index out of range")
                  | m0 :: _ => Ok m0
                  end in
       let layer_dims_dec_ := shape1 m0 :: map (@length (list Q)) mask_list_ in
       let latent_dim_ := (shape1 m0 * neuronnum_)%nat in
       let! datasets := dict_item key (o_data ontobj) in
       match dict_get dataset datasets with
       | None =>
           Raise (ValueError ("Available datasets are: "
                              ++ String.concat ", " (map fst datasets)))
       | Some X_ =>
           let! Xarr := match nth_error arrays_ X_ with
                        | Some a => Ok a
                        | None => Raise (RuntimeError "dangling array reference")
                        end in
           let y_ := match labels_ with
                     | Some l => l
                     | None => repeat 0%Z (n_rows Xarr)
                     end in
           let n_classes0 := count_distinct_Z y_ in
           let n_batch0 := match batches_ with
                           | Some b => count_distinct b
                           | None => O
                           end in
           let one_hot0 := match batches_ with
                           | Some _ => Some (eye n_batch0)
                           | None => None
                           end in
           let batch_info_ := match batches_ with
                              | Some b => b
                              | None => repeat O (n_rows Xarr)
                              end in
           let! checkpoint := match modelpath_ with
                              | Some path =>
                                  let! ck := torch_load path files_ in Ok (Some ck)
                              | None => Ok None
                              end in
           let VAE_trained_ := match checkpoint with Some _ => true | None => false end in
           let clf_loaded := match checkpoint with
                             | Some ck => ck_classifier_trained ck
                             | None => false
                             end in
           let n_classes_ := match checkpoint with
                             | Some ck => if ck_classifier_trained ck
                                          then ck_n_classes ck else n_classes0
                             | None => n_classes0
                             end in
           let val_loss_min_ := match checkpoint with
                                | Some ck => if ck_classifier_trained ck
                                             then ck_loss ck else PInf
                                | None => PInf
                                end in
           let batch_loaded := match checkpoint with
                               | Some ck => ck_batch_corrected ck
                               | None => false
                               end in
           let n_batch_ := match checkpoint with
                           | Some ck => if ck_batch_corrected ck
                                        then ck_n_batch ck else n_batch0
                           | None => n_batch0
                           end in
           let one_hot_ := if batch_loaded then Some (eye n_batch_) else one_hot0 in
           let enc := Encoder_new (in_features_ + n_batch_) latent_dim_
                                  [latent_dim_] drop_ z_drop_ in
           let '(dec_w, dec_masks, dec_rest) :=
             OntoDecoder_new in_features_ layer_dims_dec_ mask_list_ latent_dim_
                             n_batch_ one_hot_ neuronnum_ in
           let clf := if Nat.ltb 1 n_classes_
                      then Some (simple_classifier_new
                                   (sum_nat (removelast layer_dims_dec_)) n_classes_)
                      else None in
           let m :=
             {| attrs :=
                  {| ontology := description ontobj;
                     top := top_thresh; bottom := bottom_thresh;
                     genes := genes_; in_features := in_features_;
                     mask_list := mask_list_;
                     layer_dims_dec := layer_dims_dec_;
                     latent_dim := latent_dim_;
                     layer_dims_enc := [latent_dim_];
                     neuronnum := neuronnum_;
                     drop := drop_; z_drop := z_drop_;
                     labels := labels_; batches := batches_;
                     one_hot := one_hot_; modelpath := modelpath_;
                     X := X_; y := y_;
                     n_classes := n_classes_; n_batch := n_batch_;
                     batch_info := batch_info_;
                     decoder_masks := dec_masks |};
                param_dict :=
                  [("top_thresh", inject_Z (Z.of_nat top_thresh));
                   ("bottom_thresh", inject_Z (Z.of_nat bottom_thresh));
                   ("neuronnum", inject_Z (Z.of_nat neuronnum_));
                   ("drop", drop_); ("z_drop", z_drop_)];
                VAE_trained := VAE_trained_;
                clf_trained := clf_loaded;
                val_loss_min := val_loss_min_;
                encoder_params := enc;
                decoder_weights := dec_w;
                decoder_rest := dec_rest;
                classifier := clf;
                training := true;
                forward_hooks := [] |} in
           match checkpoint with
           | Some ck =>
               match load_state_dict (ck_model_state_dict ck) m with
               | (m', None) => Ok m'
               | (_, Some e) => Raise e
               end
           | None => Ok m
           end
       end)%res
  end.

End Construction.

(** [load_model], lines 776-793. *)
Definition load_model (modelpath_ : string) : M unit :=
  fun w =>
    match torch_load modelpath_ (files w) with
    | Raise e => (Raise e, w)
    | Ok checkpoint =>
        let (m1, err) := load_state_dict (ck_model_state_dict checkpoint) (self w) in
        match err with
        | Some e => (Raise e, set_self m1 w)
        | None =>
            let m2 := set_VAE_trained true m1 in
            let m3 :=
              match labels (attrs m2) with
              | Some _ =>
                  if ck_classifier_trained checkpoint
                  then set_val_loss_min (ck_loss checkpoint) (set_clf_trained true m2)
                  else m2
              | None => set_val_loss_min (ck_loss checkpoint) m2
              end in
            (Ok tt, set_self m3 w)
        end
    end.

(** ** Training *)

(** The AdamW optimizer of [train_model]: its learning rate and its state
    for each group of [self.parameters()]. *)
Record optimizer : Type := {
  opt_lr : Q;
  st_encoder : list (option adam_state);
  st_decoder_weights : list (option adam_state);
  st_decoder_rest : list (option adam_state);
  st_classifier : list (option adam_state)
}.

(** [optim.AdamW(self.parameters(), lr=lr)]. *)
Definition new_optimizer (lr : Q) (m : COntoVAE) : optimizer :=
  {| opt_lr := lr;
     st_encoder := fresh_optimizer (encoder_params m);
     st_decoder_weights := fresh_optimizer (decoder_weights m);
     st_decoder_rest := fresh_optimizer (decoder_rest m);
     st_classifier := fresh_optimizer
                        (match classifier m with Some ps => ps | None => [] end) |}.

Definition optimizer_state_dict (o : optimizer)
  : list (list (option adam_state)) :=
  [st_encoder o; st_decoder_weights o; st_decoder_rest o; st_classifier o].

(** A minibatch of the data loader: [(data, y, batch, act)]. *)
Definition minibatch : Type := (matrix * list Z * list nat * matrix)%type.

(** [round(len(indices) * 0.8)]: the nearest integer ([0.8 * n] is never
    half-way between two integers). *)
Definition round_08 (n : nat) : nat := ((8 * n + 5) / 10)%nat.

Section Training.

Variable exp : Q -> Q.
Variable sqrt : Q -> Q.
Variable randn : nat -> nat -> nat -> Q.
Variable Encoder_forward :
  bool -> nat -> list tparam -> matrix -> result (matrix * matrix).
Variable OntoDecoder_forward :
  bool -> nat -> list tparam -> list tparam -> Attrs -> matrix ->
  option (list nat) -> list (nat * matrix) * result matrix.
Variable classifier_forward : list tparam -> matrix -> result matrix.

(** [np.random.RandomState(seed=42).permutation(n)]. *)
Variable permutation : nat -> list nat.

(** [FastTensorDataLoader(X, y, batch, act, batch_size=..., shuffle=...)]
    of [fast_data_loader.py]: the minibatches of one pass over the data,
    from the shuffle flag, the batch size, the generator state and the four
    tensors. *)
Variable loader : bool -> nat -> nat -> minibatch -> list minibatch.

(** [nn.CrossEntropyLoss()(class_output, y)]. *)
Variable cross_entropy : matrix -> list Z -> result Q.

(** [torch.argsort(act, dim=0).float()]. *)
Variable argsort0 : matrix -> matrix.

(** Autograd: the derivative of the loss of one iteration in entry [(i, j)]
    of the [k]-th parameter of group [grp] (0 the encoder, 1 the decoder
    weights, 2 the rest of the decoder, 3 the classifier), from the model and
    the generator state before the forward pass, the minibatch and the three
    coefficients. *)
Variable autograd :
  COntoVAE -> nat -> minibatch -> Q -> Q -> Q -> nat -> nat -> nat -> nat -> Q.

Open Scope m_scope.

#[local] Abbreviation forward_ := (forward exp randn Encoder_forward OntoDecoder_forward
                              classifier_forward).
#[local] Abbreviation pass_data_ := (_pass_data exp randn Encoder_forward OntoDecoder_forward
                                   classifier_forward).

(** [classify_loss], lines 318-331. *)
Definition classify_loss (class_output : matrix) (y_ : list Z) : result Q :=
  cross_entropy class_output y_.

(** The forward pass and the loss of one minibatch, shared by [train_round]
    (lines 361-389) and [val_round] (lines 436-460). *)
Definition minibatch_loss (mb : minibatch) (kl_coeff clf_coeff prior_coeff : Q)
  : M Q :=
  let '(data_, y_, batch_, act_) := mb in
  m <- get_self ;;
  let batch := match batches (attrs m) with
               | Some _ => Some batch_
               | None => None
               end in
  ' (reconstruction, mu, log_var, extra) <- forward_ data_ batch ;;
  loss <- lift (vae_loss exp reconstruction mu log_var data_ kl_coeff) ;;
  match labels (attrs m), extra with
  | Some _, Some (act, output) =>
      let act := argsort0 act in
      class_loss <- lift (classify_loss output y_) ;;
      let loss := loss + clf_coeff * class_loss in
      d <- lift (zip_rows sq_err act_ act) ;;
      let prior_loss := torch_mean (scalar_tensor (tsum d)) in
      ret (loss + prior_coeff * prior_loss)
  | Some _, None => raise (ValueError "not enough values to unpack")
  | None, _ => ret loss
  end.

Definition zero_grad_all (m : COntoVAE) : COntoVAE :=
  set_params (zero_grad (encoder_params m)) (zero_grad (decoder_weights m))
             (zero_grad (decoder_rest m))
             (option_map zero_grad (classifier m)) m.

Definition backward_all (g : nat -> nat -> nat -> nat -> Q) (m : COntoVAE)
  : COntoVAE :=
  set_params (backward_group (g 0%nat) (encoder_params m))
             (backward_group (g 1%nat) (decoder_weights m))
             (backward_group (g 2%nat) (decoder_rest m))
             (option_map (backward_group (g 3%nat)) (classifier m)) m.

Definition store_decoder_weights (ws : list tparam) (w : World) : World :=
  set_self (set_params (encoder_params (self w)) ws (decoder_rest (self w))
                       (classifier (self w)) (self w)) w.

(** [optimizer.step()] over the four groups. *)
Definition optimizer_step (o : optimizer) : M optimizer :=
  fun w =>
    let m := self w in
    let '((s1, p1), e1) := step_group sqrt (opt_lr o) (st_encoder o) (encoder_params m) in
    let m1 := set_params p1 (decoder_weights m) (decoder_rest m) (classifier m) m in
    let o1 := {| opt_lr := opt_lr o; st_encoder := s1;
                 st_decoder_weights := st_decoder_weights o;
                 st_decoder_rest := st_decoder_rest o;
                 st_classifier := st_classifier o |} in
    match e1 with
    | Some e => (Raise e, set_self m1 w)
    | None =>
        let '((s2, p2), e2) :=
          step_group sqrt (opt_lr o) (st_decoder_weights o) (decoder_weights m) in
        let m2 := set_params p1 p2 (decoder_rest m) (classifier m) m in
        match e2 with
        | Some e => (Raise e, set_self m2 w)
        | None =>
            let '((s3, p3), e3) :=
              step_group sqrt (opt_lr o) (st_decoder_rest o) (decoder_rest m) in
            let m3 := set_params p1 p2 p3 (classifier m) m in
            match e3 with
            | Some e => (Raise e, set_self m3 w)
            | None =>
                let '((s4, p4), e4) :=
                  match classifier m with
                  | Some ps =>
                      let '((s, p), e) := step_group sqrt (opt_lr o) (st_classifier o) ps in
                      ((s, Some p), e)
                  | None => ((st_classifier o, None), None)
                  end in
                let m4 := set_params p1 p2 p3 p4 m in
                match e4 with
                | Some e => (Raise e, set_self m4 w)
                | None =>
                    (Ok {| opt_lr := opt_lr o; st_encoder := s1;
                           st_decoder_weights := s2; st_decoder_rest := s3;
                           st_classifier := s4 |},
                     set_self m4 w)
                end
            end
        end
    end.

(** One iteration of the loop of [train_round], lines 359-405. *)
Definition train_iteration (o : optimizer) (mb : minibatch)
  (kl_coeff clf_coeff prior_coeff : Q) : M (optimizer * Q) :=
  modify_self zero_grad_all ;;
  m0 <- get_self ;;
  s0 <- (fun w => (Ok (rng w), w)) ;;
  loss <- minibatch_loss mb kl_coeff clf_coeff prior_coeff ;;
  modify_self (backward_all (autograd m0 s0 mb kl_coeff clf_coeff prior_coeff)) ;;
  m <- get_self ;;
  finish_loop (mask_gradients (decoder_masks (attrs m)) (decoder_weights m))
              store_decoder_weights ;;
  o' <- optimizer_step o ;;
  m <- get_self ;;
  finish_loop (clamp_weights (decoder_weights m)) store_decoder_weights ;;
  ret (o', loss).

Fixpoint train_loop (o : optimizer) (mbs : list minibatch)
  (kl_coeff clf_coeff prior_coeff running_loss : Q) : M (optimizer * Q) :=
  match mbs with
  | [] => ret (o, running_loss)
  | mb :: rest =>
      ' (o', loss) <- train_iteration o mb kl_coeff clf_coeff prior_coeff ;;
      train_loop o' rest kl_coeff clf_coeff prior_coeff (running_loss + loss)
  end.

Definition average_loss (running_loss : Q) (n : nat) : result Q :=
  match n with
  | O => Raise (ZeroDivisionError "float division by zero")
  | S _ => Ok (running_loss / inject_Z (Z.of_nat n))
  end.

(** [train_round], lines 333-409. *)
Definition train_round (dataloader : list minibatch)
  (kl_coeff clf_coeff prior_coeff : Q) (o : optimizer) : M (optimizer * Q) :=
  train ;;
  ' (o', running_loss) <- train_loop o dataloader kl_coeff clf_coeff prior_coeff 0 ;;
  train_loss <- lift (average_loss running_loss (length dataloader)) ;;
  ret (o', train_loss).

Fixpoint val_loop (mbs : list minibatch)
  (kl_coeff clf_coeff prior_coeff running_loss : Q) : M Q :=
  match mbs with
  | [] => ret running_loss
  | mb :: rest =>
      loss <- minibatch_loss mb kl_coeff clf_coeff prior_coeff ;;
      val_loop rest kl_coeff clf_coeff prior_coeff (running_loss + loss)
  end.

(** [val_round], lines 411-464. *)
Definition val_round (dataloader : list minibatch)
  (kl_coeff clf_coeff prior_coeff : Q) : M Q :=
  eval ;;
  running_loss <- val_loop dataloader kl_coeff clf_coeff prior_coeff 0 ;;
  lift (average_loss running_loss (length dataloader)).

(** The end of one epoch of [train_model], lines 546-573, from the
    validation loss of the epoch. *)
Definition epoch_end (modelpath_ : string) (epoch : nat) (o : optimizer)
  (val_epoch_loss : pyfloat) (train_param : list (string * Q)) : M unit :=
  m <- get_self ;;
  (if pf_lt val_epoch_loss (val_loss_min m) then
     torch_save
       {| ck_epoch := epoch;
          ck_model_state_dict := state_dict m;
          ck_optimizer_state_dict := optimizer_state_dict o;
          ck_loss := val_epoch_loss;
          ck_classifier_trained :=
            match labels (attrs m) with Some _ => true | None => false end;
          ck_n_classes := n_classes (attrs m);
          ck_batch_corrected := Nat.ltb 0 (n_batch (attrs m));
          ck_n_batch := n_batch (attrs m) |}
       modelpath_ ;;
     modify_self (set_val_loss_min val_epoch_loss)
   else ret tt) ;;
  modify_self (set_VAE_trained true) ;;
  (match labels (attrs m) with
   | Some _ => modify_self (set_clf_trained true)
   | None => ret tt
   end) ;;
  modify_self (fun m =>
    set_param_dict
      (fold_left (fun d kv => dict_set (fst kv) (snd kv) d) train_param
                 (param_dict m)) m).

(** The loop over the epochs, lines 537-573. *)
Fixpoint epoch_loop (modelpath_ : string) (epochs : list nat) (o : optimizer)
  (trainset valset : minibatch) (batch_size : nat)
  (kl_coeff clf_coeff prior_coeff : Q) (train_param : list (string * Q))
  : M unit :=
  match epochs with
  | [] => ret tt
  | epoch :: rest =>
      s <- draw ;;
      ' (o', train_epoch_loss) <-
        train_round (loader true batch_size s trainset)
                    kl_coeff clf_coeff prior_coeff o ;;
      val_epoch_loss <-
        val_round (loader false batch_size O valset)
                  kl_coeff clf_coeff prior_coeff ;;
      epoch_end modelpath_ epoch o' (Fin val_epoch_loss) train_param ;;
      epoch_loop modelpath_ rest o' trainset valset batch_size
                 kl_coeff clf_coeff prior_coeff train_param
  end.

(** [train_model], lines 466-573. *)
Definition train_model (modelpath_ : string)
  (lr kl_coeff clf_coeff prior_coeff : Q) (batch_size epochs : nat) : M unit :=
  m <- get_self ;;
  Xarr <- array_read (X (attrs m)) ;;
  let indices := permutation (n_rows Xarr) in
  let cut := round_08 (length indices) in
  let train_ind := firstn cut indices in
  let val_ind := skipn cut indices in
  X_train <- lift (take_rows train_ind Xarr) ;;
  y_train <- lift (take_rows train_ind (y (attrs m))) ;;
  batch_train <- lift (take_rows train_ind (batch_info (attrs m))) ;;
  X_val <- lift (take_rows val_ind Xarr) ;;
  y_val <- lift (take_rows val_ind (y (attrs m))) ;;
  batch_val <- lift (take_rows val_ind (batch_info (attrs m))) ;;
  ' (act_train, act_val) <-
    match labels (attrs m) with
    | Some _ =>
        if negb (VAE_trained m)
        then raise (ValueError "Please pretrain the VAE part of the model.")
        else
          let bt := match batches (attrs m) with
                    | Some _ => Some batch_train | None => None end in
          let bv := match batches (attrs m) with
                    | Some _ => Some batch_val | None => None end in
          act_train <- pass_data_ X_train bt "act" ;;
          act_val <- pass_data_ X_val bv "act" ;;
          act_train <- lift (subscript_none act_train) ;;
          act_val <- lift (subscript_none act_val) ;;
          ret (argsort0 act_train, argsort0 act_val)
    | None => ret (zeros (n_rows X_train) 1, zeros (n_rows X_val) 1)
    end ;;
  m <- get_self ;;
  let o := new_optimizer lr m in
  epoch_loop modelpath_ (seq 0 epochs) o
             (X_train, y_train, batch_train, act_train)
             (X_val, y_val, batch_val, act_val) batch_size
             kl_coeff clf_coeff prior_coeff
             [("learning_rate", lr); ("kl_coeff", kl_coeff);
              ("clf_coeff", clf_coeff);
              ("batch_size", inject_Z (Z.of_nat batch_size));
              ("epochs", inject_Z (Z.of_nat epochs))].

Close Scope m_scope.

End Training.

(** ** Notions used in the statements *)

(** Entry-wise relation between two tensors of one shape. *)
Definition mrel {A B} (P : A -> B -> Prop) (a : list (list A))
  (b : list (list B)) : Prop :=
  Forall2 (Forall2 P) a b.

(** A weight entry under a zero of the mask is zero. *)
Definition frozen (m x : Q) : Prop := m == 0 -> x == 0.

(** The invariant of one decoder layer during training: the weight keeps the
    mask pattern, it is trainable, and the first moment the optimizer holds
    for it is zero wherever the mask is. *)
Definition quiet (mk : matrix) (st : option adam_state) : Prop :=
  match st with
  | None => True
  | Some s => mrel frozen mk (exp_avg s) /\ mrel (fun _ _ => True) mk (exp_avg_sq s)
  end.

Definition layer_inv (mk : matrix) (st : option adam_state) (w : tparam)
  : Prop :=
  mrel frozen mk (data w) /\ requires_grad w = true /\ quiet mk st.

Inductive Forall3 {A B C} (R : A -> B -> C -> Prop)
  : list A -> list B -> list C -> Prop :=
| Forall3_nil : Forall3 R [] [] []
| Forall3_cons a b c la lb lc :
    R a b c -> Forall3 R la lb lc -> Forall3 R (a :: la) (b :: lb) (c :: lc).

Definition dec_inv : list matrix -> list (option adam_state) -> list tparam
                     -> Prop :=
  Forall3 layer_inv.

(** What the claim asks of the weights after a step. *)
Definition weights_ok (masks : list matrix) (ws : list tparam) : Prop :=
  Forall2 (fun mk w => respects_mask mk (data w) /\ nonneg (data w)) masks ws.


(** What holds of the outcome and of the final state of a computation run
    from the state [w]. *)
Definition post {A} (c : M A) (w : World) (Q : result A -> World -> Prop)
  : Prop :=
  Q (fst (c w)) (snd (c w)).

(** The hooks [_attach_hooks] registers on the blocks [layers] when the next
    free handle is [nh], writing to the dictionary [d], and the local
    dictionary of handles it builds. *)
Fixpoint new_hooks (nh d : nat) (layers : list nat) : list hook :=
  match layers with
  | [] => []
  | i :: rest =>
      {| handle_id := nh; hook_layer := i; hook_dict := d |}
        :: new_hooks (S nh) d rest
  end.

Fixpoint attach_dict (nh : nat) (layers : list nat)
  (hooks : list (string * nat)) : list (string * nat) :=
  match layers with
  | [] => hooks
  | i :: rest => attach_dict (S nh) rest (dict_set (py_str i) nh hooks)
  end.

(** The state with other hooks on the model and another handle counter. *)
Definition with_hooks (hs : list hook) (nh : nat) (w : World) : World :=
  set_next_handle nh (set_self (set_forward_hooks hs (self w)) w).

(** The hooks that stay when the handles [hs] are removed. *)
Definition without_handles (hs : list nat) (l : list hook) : list hook :=
  filter (fun k => negb (existsb (Nat.eqb (handle_id k)) hs)) l.

(** No registered hook carries a handle that is still to be given out, nor
    writes to a dictionary that is still to be made. *)
Definition hooks_wf (w : World) : Prop :=
  Forall (fun h => handle_id h < next_handle w /\ hook_dict h < length (dicts w))%nat
         (forward_hooks (self w)).

(** A computation that raises from every state satisfying [P], and one that
    leaves [P] standing. *)
Definition always_raises {A} (c : M A) (P : World -> Prop) : Prop :=
  forall w, P w -> exists e, fst (c w) = Raise e.

Definition keeps {A} (c : M A) (P : World -> Prop) : Prop :=
  forall w, P w -> P (snd (c w)).

(** A model with labels but without classifier head. *)
Definition headless (ls : list Z) (w : World) : Prop :=
  labels (attrs (self w)) = Some ls /\ classifier (self w) = None.

(** The encoder stage of a pass (lines 202-218): batch information,
    encoder, sample; [s] is the state of the random generator. *)
Definition encoder_stage (exp : Q -> Q) (randn : nat -> nat -> nat -> Q)
  (Encoder_forward :
     bool -> nat -> list tparam -> matrix -> result (matrix * matrix))
  (m : COntoVAE) (s : nat) (x : matrix) (batch : option (list nat))
  : result (matrix * matrix * matrix) :=
  (let! x1 := attach_batch m none_has_no_to x batch in
   let! ml := Encoder_forward (training m) s (encoder_params m) x1 in
   let! z := sample exp randn (S s) (fst ml) (snd ml) in
   Ok (fst ml, snd ml, z))%res.

(** Row [b] of the tensors [ms] laid side by side. *)
Definition join_rows (ms : list matrix) (b : nat) : vec :=
  concat (map (fun m => nth b m []) ms).

(** What the hooks of a pass write into its dictionary while the decoder
    calls block [a], [a + 1], ... with the outputs [outs], when the blocks
    below [k] carry a hook. *)
Fixpoint capture (k a : nat) (outs : list matrix) (cur : list (nat * matrix))
  : list (nat * matrix) :=
  match outs with
  | [] => cur
  | o :: rest =>
      capture k (S a) rest (if Nat.ltb a k then idict_set a o cur else cur)
  end.

(** A computation that neither reads nor writes the numpy arrays. *)
Definition arrays_blind {A} (c : M A) : Prop :=
  forall a w, c (set_arrays a w) = (fst (c w), set_arrays a (snd (c w))).

(** The one-hot code of batch [k] among [n] batches: row [k] of
    [torch.eye(n)]. *)
Definition one_hot_code (n k : nat) : vec :=
  map (fun j => if Nat.eqb k j then 1 else 0) (seq 0 n).

(** A parameter [p'] that can take the value of [p] from a state
    dictionary: the same name and a tensor of the same shape. *)
Definition like_param (p p' : tparam) : Prop :=
  pname p' = pname p /\ same_shape_b (data p') (data p) = true.

(** Two models whose modules have the same parameters, by name and shape. *)
Definition same_architecture (m m' : COntoVAE) : Prop :=
  Forall2 like_param (encoder_params m) (encoder_params m') /\
  Forall2 like_param (decoder_weights m) (decoder_weights m') /\
  Forall2 like_param (decoder_rest m) (decoder_rest m') /\
  match classifier m, classifier m' with
  | Some ps, Some ps' => Forall2 like_param ps ps'
  | None, None => True
  | _, _ => False
  end.

(** The entries of a state dictionary for one group of parameters. *)
Definition named_data (ps : list tparam) : list (string * matrix) :=
  map (fun p => (pname p, data p)) ps.

(** A computation moves the model object along the relation [R], whether it
    returns or raises. *)
Definition steps {A} (R : COntoVAE -> COntoVAE -> Prop) (c : M A) : Prop :=
  forall w, R (self w) (self (snd (c w))).

(** [b] is [a] or strictly below it, as Python floats compare. *)
Definition lowered (a b : pyfloat) : Prop := b = a \/ pf_lt b a = true.

(** The bookkeeping of training only moves forward: the best validation
    loss never goes up and a trained-flag is never taken back. *)
Definition bookkeeping_advances (m m' : COntoVAE) : Prop :=
  lowered (val_loss_min m) (val_loss_min m') /\
  (VAE_trained m = true -> VAE_trained m' = true) /\
  (clf_trained m = true -> clf_trained m' = true).

(** Two model objects with the same bookkeeping. *)
Definition same_bookkeeping (m m' : COntoVAE) : Prop :=
  VAE_trained m' = VAE_trained m /\ clf_trained m' = clf_trained m /\
  val_loss_min m' = val_loss_min m /\ param_dict m' = param_dict m.

(** A computation that leaves every numpy array as it is, whether it
    returns or raises. *)
Definition arrays_kept {A} (c : M A) : Prop :=
  forall w, arrays (snd (c w)) = arrays w.

(** Setting the columns [indices] of a dataset to [values], one after the
    other, by hand: [values[i]] goes to column [indices[i]]. *)
Fixpoint set_cols (i : nat) (indices : list nat) (values : list Q)
  (D : matrix) : result matrix :=
  match indices with
  | [] => Ok D
  | ix :: rest =>
      match nth_error values i with
      | None => Raise (IndexError "list index out of range")
      | Some v =>
          match set_col ix v D with
          | Ok D1 => set_cols (S i) rest values D1
          | Raise e => Raise e
          end
      end
  end.

(** ** A small model for evaluating the definitions

    Two root terms, one layer of three terms, three genes, two neurons per
    term.  The stand-ins for the modules of [modules.py] are simple
    functions: the encoder checks the width of its input against its weight
    and returns the row sum in every latent coordinate and a zero
    log-variance, block [i] of the decoder returns the row sum in
    every coordinate, the classifier returns the row sum and zero. *)

Definition toy_genes : list string := ["g1"; "g2"; "g3"].

Definition toy_mask0 : matrix := [[1; 0]; [1; 1]; [0; 1]].
Definition toy_mask1 : matrix := [[1; 0; 0]; [0; 1; 1]; [1; 1; 0]].

Definition toy_onto : Ontobj :=
  {| description := "toy ontology";
     o_genes := [("1000_30", toy_genes)];
     o_masks := [("1000_30", [toy_mask0; toy_mask1])];
     o_data := [("1000_30", [("train", 0%nat)])];
     o_annot := [("1000_30", [(0%nat, "T0"); (1%nat, "T1"); (2%nat, "T2");
                              (3%nat, "T3"); (4%nat, "T4")])] |}.

Definition toy_arrays : list matrix := [[[1; 2; 3]; [4; 5; 6]]].

Definition toy_randn (s i j : nat) : Q := inject_Z (Z.of_nat (s + i + j)).

Definition toy_encoder (latent : nat) (training_ : bool) (s : nat)
  (ps : list tparam) (x : matrix) : result (matrix * matrix) :=
  match ps with
  | p :: _ =>
      if forallb (fun row => Nat.eqb (length row) (shape1 (data p))) x
      then Ok (map (fun row => repeat (Qsum row) latent) x,
               map (fun _ => repeat 0 latent) x)
      else Raise (RuntimeError "mat1 and mat2 shapes cannot be multiplied")
  | [] => Raise (RuntimeError "mat1 and mat2 shapes cannot be multiplied")
  end.

Definition toy_decoder (widths : list nat) (training_ : bool) (s : nat)
  (ws rest : list tparam) (a : Attrs) (z : matrix) (batch : option (list nat))
  : list (nat * matrix) * result matrix :=
  (combine (seq 0 (length widths))
           (map (fun wd => map (fun row => repeat (Qsum row) wd) z) widths),
   Ok (map (fun row => repeat (Qsum row) (last widths O)) z)).

(** A decoder that fails after its first block. *)
Definition failing_decoder (training_ : bool) (s : nat)
  (ws rest : list tparam) (a : Attrs) (z : matrix) (batch : option (list nat))
  : list (nat * matrix) * result matrix :=
  ([(0%nat, z)], Raise (RuntimeError "mat1 and mat2 shapes cannot be multiplied")).

Definition toy_classifier (ps : list tparam) (act : matrix) : result matrix :=
  Ok (map (fun row => [Qsum row; 0]) act).

Definition toy_param (name : string) (d : matrix) : tparam :=
  {| pname := name; data := d; requires_grad := true; grad := None |}.

Definition toy_Encoder_new (inp latent : nat) (dims : list nat) (dr zdr : Q)
  : list tparam :=
  [toy_param "encoder.weight" (zeros latent inp)].

Definition toy_OntoDecoder_new (inp : nat) (dims : list nat)
  (masks : list matrix) (latent nb : nat) (oh : option matrix) (nn : nat)
  : list tparam * list matrix * list tparam :=
  (map (fun im => toy_param ("decoder.decoder." ++ py_str (fst im) ++ ".0.weight")
                            (snd im))
       (combine (seq 0 (length masks)) masks),
   masks, []).

Definition toy_classifier_new (inp classes : nat) : list tparam :=
  [toy_param "classifier.weight" (zeros classes inp)].

Definition toy_init := init toy_Encoder_new toy_OntoDecoder_new toy_classifier_new.

(** A world around a model. *)
Definition boot (m : COntoVAE) (arrays_ : list matrix)
  (files_ : list (string * Checkpoint)) : World :=
  {| self := m; rng := O; arrays := arrays_; dicts := [];
     next_handle := O; files := files_ |}.

Definition toy_forward :=
  forward exp_series toy_randn (toy_encoder 4) (toy_decoder [6; 3]%nat)
          toy_classifier.

(** The weight and mask of a one-layer decoder, and two gradients. *)
Definition toy_weight : tparam :=
  toy_param "decoder.decoder.0.0.weight" [[1 # 2; 0]; [0; 1 # 3]].

Definition toy_weight_mask : matrix := [[1; 0]; [0; 1]].

Definition toy_grads : list (nat -> nat -> nat -> Q) :=
  [fun _ _ _ => 1; fun _ i j => - inject_Z (Z.of_nat (i + j + 1))].

Definition blank_attrs : Attrs :=
  {| ontology := ""; top := O; bottom := O; genes := []; in_features := O;
     mask_list := []; layer_dims_dec := []; latent_dim := O;
     layer_dims_enc := []; neuronnum := O; drop := 0; z_drop := 0;
     labels := None; batches := None; one_hot := None; modelpath := None;
     X := O; y := []; n_classes := O; n_batch := O; batch_info := [];
     decoder_masks := [] |}.

Definition blank_model : COntoVAE :=
  {| attrs := blank_attrs; param_dict := []; VAE_trained := false;
     clf_trained := false; val_loss_min := PInf; encoder_params := [];
     decoder_weights := []; decoder_rest := []; classifier := None;
     training := true; forward_hooks := [] |}.

Definition or_blank (r : result COntoVAE) : COntoVAE :=
  match r with
  | Ok m => m
  | Raise _ => blank_model
  end.

(** The toy model without labels, with two classes of labels, with labels of
    one class, and with two batches. *)
Definition toy_plain : COntoVAE :=
  Eval vm_compute in
    or_blank (toy_init toy_onto "train" 1000 30 2 (1 # 5) (1 # 2)
                       None None None toy_arrays []).

Definition toy_labelled : COntoVAE :=
  Eval vm_compute in
    or_blank (toy_init toy_onto "train" 1000 30 2 (1 # 5) (1 # 2)
                       (Some [0%Z; 1%Z]) None None toy_arrays []).

Definition toy_one_class : COntoVAE :=
  Eval vm_compute in
    or_blank (toy_init toy_onto "train" 1000 30 2 (1 # 5) (1 # 2)
                       (Some [7%Z; 7%Z]) None None toy_arrays []).

Definition toy_batched : COntoVAE :=
  Eval vm_compute in
    or_blank (toy_init toy_onto "train" 1000 30 2 (1 # 5) (1 # 2)
                       None (Some [0%nat; 1%nat]) None toy_arrays []).

(** A checkpoint of a model whose classifier was trained on two classes. *)
Definition toy_checkpoint : Checkpoint :=
  {| ck_epoch := 3; ck_model_state_dict := [];
     ck_optimizer_state_dict := []; ck_loss := Fin 1;
     ck_classifier_trained := true; ck_n_classes := 2;
     ck_batch_corrected := false; ck_n_batch := 0 |}.

Definition toy_x : matrix := [[1; 2; 3]; [4; 5; 6]].

Definition toy_train_model :=
  train_model exp_series sqrt_fix toy_randn (toy_encoder 4)
              (toy_decoder [6; 3]%nat) toy_classifier (fun n => seq 0 n)
              (fun (_ : bool) (_ _ : nat) (mb : minibatch) => [mb])
              (fun (_ : matrix) (_ : list Z) => Ok 0)
              (fun a : matrix => a)
              (fun _ _ _ _ _ _ _ _ _ _ => 0).

(** The encoder stage and the decoder outputs of a pass of the labelled toy
    model on [toy_x]. *)
Definition toy_world : World := boot toy_labelled toy_arrays [].

Definition toy_mu : matrix := [[6; 6; 6; 6]; [15; 15; 15; 15]].
Definition toy_log_var : matrix := [[0; 0; 0; 0]; [0; 0; 0; 0]].

Definition toy_z : matrix :=
  Eval vm_compute in
    match sample exp_series toy_randn 1 toy_mu toy_log_var with
    | Ok z => z
    | Raise _ => []
    end.

Definition toy_outs : list matrix :=
  Eval vm_compute in
    map snd (fst (toy_decoder [6; 3]%nat false 2 [] [] blank_attrs toy_z None)).

Definition toy_reconstruction : matrix :=
  Eval vm_compute in
    match snd (toy_decoder [6; 3]%nat false 2 [] [] blank_attrs toy_z None) with
    | Ok r => r
    | Raise _ => []
    end.

(** A checkpoint of a model without labels, and the toy model rebuilt from
    it. *)
Definition toy_vae_checkpoint : Checkpoint :=
  {| ck_epoch := 3; ck_model_state_dict := [];
     ck_optimizer_state_dict := []; ck_loss := Fin 1;
     ck_classifier_trained := false; ck_n_classes := 1;
     ck_batch_corrected := false; ck_n_batch := 0 |}.

Definition toy_rebuilt : COntoVAE :=
  Eval vm_compute in
    or_blank (toy_init toy_onto "train" 1000 30 2 (1 # 5) (1 # 2)
                       None None (Some "vae.pt") toy_arrays
                       [("vae.pt", toy_vae_checkpoint)]).

(** The second latent sample of a query on [toy_x] (generator state 3), and
    what the decoder makes of it. *)
Definition toy_z2 : matrix :=
  Eval vm_compute in
    match sample exp_series toy_randn 3 toy_mu toy_log_var with
    | Ok z => z
    | Raise _ => []
    end.

Definition toy_outs2 : list matrix :=
  Eval vm_compute in
    map snd (fst (toy_decoder [6; 3]%nat false 4 [] [] blank_attrs toy_z2 None)).

Definition toy_reconstruction2 : matrix :=
  Eval vm_compute in
    match snd (toy_decoder [6; 3]%nat false 4 [] [] blank_attrs toy_z2 None) with
    | Ok r => r
    | Raise _ => []
    end.

(** An ontology object of another ontology. *)
Definition other_onto : Ontobj :=
  {| description := "another ontology";
     o_genes := o_genes toy_onto; o_masks := o_masks toy_onto;
     o_data := o_data toy_onto; o_annot := o_annot toy_onto |}.

(** A data loader that yields the whole dataset as one minibatch, and no
    minibatch for an empty dataset. *)
Definition toy_loader (shuffle : bool) (batch_size s : nat) (mb : minibatch)
  : list minibatch :=
  match mb with
  | ([], _, _, _) => []
  | _ => [mb]
  end.

(** * Theorems *)

Unset Implicit Arguments.

(** ** Facts about element-wise combination *)

Lemma zip_with_ok {A B C} (f : A -> B -> C) (l : list A) (l' : list B) :
  length l = length l' ->
  zip_with f l l' = Ok (map (fun p => f (fst p) (snd p)) (combine l l')).
Proof.
  revert l'; induction l as [|a l IH]; intros [|b l'] H; simpl in *;
    try discriminate; auto.
  rewrite IH by lia. reflexivity.
Qed.

Lemma zip_with_inv {A B C} (f : A -> B -> C) (l : list A) (l' : list B) r :
  zip_with f l l' = Ok r ->
  length l = length l' /\ r = map (fun p => f (fst p) (snd p)) (combine l l').
Proof.
  revert l' r; induction l as [|a l IH]; intros [|b l'] r H; simpl in *;
    try discriminate.
  - inversion H; auto.
  - destruct (zip_with f l l') eqn:E; try discriminate.
    inversion H; subst. destruct (IH _ _ E) as [-> ->]. auto.
Qed.

Lemma zip_with_length {A B C} (f : A -> B -> C) l l' r :
  zip_with f l l' = Ok r -> length r = length l.
Proof.
  intros H. apply zip_with_inv in H as [Hl ->].
  rewrite length_map, length_combine. lia.
Qed.

Lemma zip_rows_ok {A B C} (f : A -> B -> C) (m : list (list A)) m' :
  same_shape m m' ->
  zip_rows f m m'
  = Ok (map (fun p => map (fun q => f (fst q) (snd q))
                          (combine (fst p) (snd p))) (combine m m')).
Proof.
  induction 1 as [|r r' m m' Hr _ IH]; simpl; auto.
  rewrite (zip_with_ok f _ _ Hr), IH. reflexivity.
Qed.

Lemma zip_rows_inv {A B C} (f : A -> B -> C) (m : list (list A)) m' r :
  zip_rows f m m' = Ok r ->
  same_shape m m' /\
  r = map (fun p => map (fun q => f (fst q) (snd q))
                        (combine (fst p) (snd p))) (combine m m').
Proof.
  revert m' r; induction m as [|a m IH]; intros [|b m'] r H; simpl in *;
    try discriminate.
  - inversion H; split; [constructor | reflexivity].
  - destruct (zip_with f a b) eqn:E; try discriminate.
    destruct (zip_rows f m m') eqn:E'; try discriminate.
    inversion H; subst. apply zip_with_inv in E as [Hl ->].
    destruct (IH _ _ E') as [Hs ->]. split; [constructor; auto | reflexivity].
Qed.

Lemma same_shape_length {A B} (m : list (list A)) (m' : list (list B)) :
  same_shape m m' -> length m = length m'.
Proof. induction 1; simpl; auto. Qed.

(** ** The loss composer *)

Section LossFacts.

Variable exp : Q -> Q.

Lemma torch_mean_scalar (x : Q) : torch_mean (scalar_tensor x) == x.
Proof. unfold torch_mean, scalar_tensor, Qsum; simpl. field. Qed.

Lemma Qsum_app (l l' : list Q) : Qsum (l ++ l') == Qsum l + Qsum l'.
Proof.
  induction l as [|a l IH]; simpl.
  - ring.
  - rewrite IH. ring.
Qed.

(** The two whole-tensor sums of [vae_loss] regroup by sample. *)
Lemma loss_regroup (reconstruction mu log_var data : matrix) (kl_coeff : Q) :
  same_shape log_var mu -> same_shape reconstruction data ->
  length reconstruction = length mu ->
  tsum (map (fun p => map (fun q => sq_err (fst q) (snd q))
                          (combine (fst p) (snd p)))
            (combine reconstruction data))
  + kl_coeff *
    (- (1 # 2) *
     tsum (map (fun p => map (fun q => kl_elem exp (fst q) (snd q))
                             (combine (fst p) (snd p)))
               (combine log_var mu)))
  == Qsum (sample_losses exp reconstruction mu log_var data kl_coeff).
Proof.
  intros Hk. revert reconstruction data.
  induction Hk as [|l m ls ms _ _ IH]; intros rs xs Hr Hlen.
  - destruct rs; simpl in Hlen; try discriminate.
    inversion Hr; subst. unfold tsum; simpl. ring.
  - destruct Hr as [|r x rs xs _ Hr]; simpl in Hlen; try discriminate.
    specialize (IH rs xs Hr ltac:(lia)).
    unfold tsum in *. simpl. rewrite <- IH.
    unfold sample_rec, sample_kl. ring.
Qed.

End LossFacts.

(** C2, as the code has it.  On tensors of agreeing shapes [vae_loss] returns
    the sum over the samples of the batch of (the sample's summed squared
    reconstruction error + [kl_coeff] times the sample's KL sum), with
    KL = -0.5 * sum(1 + log_var - mu^2 - exp(log_var)): both sums run over
    every element of the batch, and the final [torch.mean] is taken of that
    single number, so it divides by nothing. *)
Theorem vae_loss_is_batch_total (exp : Q -> Q)
  (reconstruction mu log_var data : matrix) (kl_coeff : Q) :
  same_shape log_var mu -> same_shape reconstruction data ->
  length reconstruction = length mu ->
  exists v, vae_loss exp reconstruction mu log_var data kl_coeff = Ok v /\
            v == Qsum (sample_losses exp reconstruction mu log_var data kl_coeff).
Proof.
  intros Hk Hr Hlen. unfold vae_loss, rbind.
  rewrite (zip_rows_ok _ _ _ Hk), (zip_rows_ok _ _ _ Hr).
  eexists; split; [reflexivity|].
  rewrite torch_mean_scalar. apply loss_regroup; assumption.
Qed.

Lemma vae_loss_is_batch_total_witness :
  exists v, vae_loss exp_series [[1; 2]; [0; 3]] [[0]; [1]] [[0]; [0]]
                     [[0; 0]; [0; 1]] (1 # 2) = Ok v /\
            v == Qsum (sample_losses exp_series [[1; 2]; [0; 3]] [[0]; [1]]
                                     [[0]; [0]] [[0; 0]; [0; 1]] (1 # 2)).
Proof.
  apply (@vae_loss_is_batch_total exp_series).
  - repeat constructor.
  - repeat constructor.
  - reflexivity.
Defined.

(** C2 as stated fails: on a batch of two samples the code returns the total
    of the per-sample losses (here 1), not their mean (here 1/2). *)
Lemma vae_loss_not_batch_mean :
  exists v, vae_loss exp_series [[1]; [0]] [[0]; [0]] [[0]; [0]] [[0]; [0]] 0
            = Ok v /\
            v == 1 /\
            vae_loss_spec exp_series [[1]; [0]] [[0]; [0]] [[0]; [0]]
                          [[0]; [0]] 0 == 1 # 2 /\
            ~ v == vae_loss_spec exp_series [[1]; [0]] [[0]; [0]] [[0]; [0]]
                                 [[0]; [0]] 0.
Proof.
  eexists; split; [reflexivity|]. repeat split; vm_compute; congruence.
Qed.

(** ** The decoder weight discipline *)

Lemma Forall2_zip_with {M A B C} (P : M -> A -> Prop) (P' : M -> B -> Prop)
  (R : M -> C -> Prop) (f : A -> B -> C) :
  (forall m x y, P m x -> P' m y -> R m (f x y)) ->
  forall mk xs ys, Forall2 P mk xs -> Forall2 P' mk ys ->
  exists zs, zip_with f xs ys = Ok zs /\ Forall2 R mk zs.
Proof.
  intros Hf mk xs ys Hx. revert ys.
  induction Hx as [|m x mk xs Hmx _ IH]; intros ys Hy;
    inversion Hy as [|? y0 ? ys0 Hy1 Hy3]; subst.
  - exists []. split; [reflexivity | constructor].
  - destruct (IH _ Hy3) as (zs & Hzs & Hz). simpl. rewrite Hzs.
    eexists; split; [reflexivity|]. constructor; auto.
Qed.

Lemma mrel_zip_rows {M A B C} (P : M -> A -> Prop) (P' : M -> B -> Prop)
  (R : M -> C -> Prop) (f : A -> B -> C) :
  (forall m x y, P m x -> P' m y -> R m (f x y)) ->
  forall mk xs ys, mrel P mk xs -> mrel P' mk ys ->
  exists zs, zip_rows f xs ys = Ok zs /\ mrel R mk zs.
Proof.
  intros Hf mk xs ys Hx. revert ys.
  induction Hx as [|m x mk xs Hmx _ IH]; intros ys Hy;
    inversion Hy as [|? y0 ? ys0 Hy1 Hy3]; subst.
  - exists []. split; [reflexivity | constructor].
  - destruct (Forall2_zip_with _ _ _ _ Hf _ _ _ Hmx Hy1) as (r & Hr & HR).
    destruct (IH _ Hy3) as (zs & Hzs & Hz).
    simpl. rewrite Hr, Hzs. eexists; split; [reflexivity|].
    constructor; auto.
Qed.

Lemma mrel_impl {A B} (P P' : A -> B -> Prop) a b :
  (forall x y, P x y -> P' x y) -> mrel P a b -> mrel P' a b.
Proof.
  intros H Hab. unfold mrel in *.
  induction Hab as [|r r' a b Hr _ IH]; constructor; auto.
  induction Hr; constructor; auto.
Qed.

Lemma mrel_refl_eq {A} (a : list (list A)) : mrel eq a a.
Proof.
  unfold mrel. induction a as [|r a IH]; constructor; auto.
  induction r; constructor; auto.
Qed.

Lemma Forall2_tabulate {A} (f : nat -> Q) (r : list A) (c : vec) (k : nat) :
  Forall2 (fun _ _ => True) r c ->
  Forall2 (fun _ _ => True) r
          (map (fun jc => f (fst jc)) (combine (seq k (length c)) c)).
Proof.
  intros H. revert k. induction H; intros k; simpl; constructor; auto.
Qed.

Lemma mrel_tabulate_from {A} (f : nat -> nat -> Q) (a : list (list A))
  (t : matrix) (k : nat) :
  mrel (fun _ _ => True) a t ->
  mrel (fun _ _ => True) a
       (map (fun ir => map (fun jc => f (fst ir) (fst jc))
                           (combine (seq 0 (length (snd ir))) (snd ir)))
            (combine (seq k (length t)) t)).
Proof.
  intros H. revert k. unfold mrel in *.
  induction H as [|r c a t Hr _ IH]; intros k; simpl; constructor; auto.
  apply (Forall2_tabulate (f k) _ _ 0%nat Hr).
Qed.

Lemma mrel_tabulate_like {A} (f : nat -> nat -> Q) (a : list (list A))
  (t : matrix) :
  mrel (fun _ _ => True) a t -> mrel (fun _ _ => True) a (tabulate_like f t).
Proof. apply mrel_tabulate_from. Qed.

Lemma mrel_map_r {A B C} (P : A -> B -> Prop) (R : A -> C -> Prop)
  (h : B -> C) a b :
  (forall x y, P x y -> R x (h y)) -> mrel P a b -> mrel R a (map (map h) b).
Proof.
  intros H Hab. unfold mrel in *.
  induction Hab as [|r r' a b Hr _ IH]; simpl; constructor; auto.
  induction Hr; simpl; constructor; auto.
Qed.

Lemma clamp0_nonneg (x : Q) : 0 <= clamp0 x.
Proof.
  unfold clamp0. destruct (Qle_bool 0 x) eqn:E.
  - now apply Qle_bool_iff.
  - apply Qle_refl.
Qed.

Lemma clamp0_frozen (m x : Q) : frozen m x -> frozen m (clamp0 x).
Proof.
  unfold frozen, clamp0. intros H Hm.
  destruct (Qle_bool 0 x); [auto | reflexivity].
Qed.

Lemma respects_mask_mrel mk w : respects_mask mk w <-> mrel frozen mk w.
Proof. reflexivity. Qed.

Lemma nonneg_clamp (w : matrix) : nonneg (map (map clamp0) w).
Proof.
  unfold nonneg. induction w as [|r w IH]; simpl; constructor; auto.
  induction r; simpl; constructor; auto using clamp0_nonneg.
Qed.

#[local] Hint Constructors Forall3 Forall2 Forall : core.

Section DecoderFacts.

Variable sqrt : Q -> Q.
Variable lr : Q.

(** Backward pass and gradient mask on one trainable layer. *)
Lemma mask_one_grad_ok (masks : list matrix) (i : nat) (mk : matrix)
  (w : tparam) g :
  nth_error masks i = Some mk ->
  mrel frozen mk (data w) ->
  exists g',
    mask_one_grad masks i (set_grad (set_grad w None) (Some (tabulate_like g (data w))))
    = Ok (set_grad w (Some g')) /\ mrel frozen mk g'.
Proof.
  intros Hn Hw.
  assert (Hs : mrel (fun _ _ => True) mk (tabulate_like g (data w))).
  { apply mrel_tabulate_like. eapply mrel_impl; [|exact Hw]. auto. }
  destruct (@mrel_zip_rows _ _ _ _ (fun _ _ => True) eq frozen Qmult) with
    (mk := mk) (xs := tabulate_like g (data w)) (ys := mk)
    as (g' & Hg & Hfz); auto using mrel_refl_eq.
  { intros m x y _ <- Hm. rewrite Hm. ring. }
  exists g'. unfold mask_one_grad. cbn [grad data set_grad]. rewrite Hn, Hg.
  split; [reflexivity | assumption].
Qed.

(** One AdamW update keeps a masked entry at zero: with a zero gradient and
    a zero first moment the update is the weight decay of zero. *)
Lemma adamw_update_ok (mk : matrix) st (p : tparam) (g : matrix) :
  grad p = Some g ->
  mrel frozen mk (data p) -> mrel frozen mk g -> quiet mk st ->
  exists s' d',
    adamw_update sqrt lr st p = Ok (Some s', set_data p d')
    /\ mrel frozen mk d' /\ quiet mk (Some s').
Proof.
  intros Hgrad Hw Hg Hq.
  set (s := match st with
            | Some s => s
            | None => {| step := 0; exp_avg := zeros_like (data p);
                         exp_avg_sq := zeros_like (data p) |}
            end).
  assert (Hm : mrel frozen mk (exp_avg s) /\ mrel (fun _ _ => True) mk (exp_avg_sq s)).
  { subst s. destruct st as [s|]; [exact Hq|]. simpl. split.
    - unfold zeros_like. eapply mrel_map_r; [|exact Hw]. intros; intro; reflexivity.
    - unfold zeros_like. eapply mrel_map_r; [|exact Hw]. auto. }
  destruct Hm as [Hm Hv].
  destruct (@mrel_zip_rows _ _ _ _ frozen frozen frozen
              (fun m g => m + (1 - beta1) * (g - m))) with
    (mk := mk) (xs := exp_avg s) (ys := g) as (m' & Em & Hm'); auto.
  { intros m x y Hx Hy H0. rewrite (Hx H0), (Hy H0). ring. }
  destruct (@mrel_zip_rows _ _ _ _ (fun _ _ => True) frozen (fun _ _ => True)
              (fun v g => beta2 * v + (1 - beta2) * (g * g))) with
    (mk := mk) (xs := exp_avg_sq s) (ys := g) as (v' & Ev & Hv'); auto.
  set (t := S (step s)).
  destruct (@mrel_zip_rows _ _ _ _ frozen (fun _ _ => True) frozen
              (fun m v => lr / (1 - beta1 ^ Z.of_nat t)
                          * (m / (sqrt v / sqrt (1 - beta2 ^ Z.of_nat t) + adam_eps))))
    with (mk := mk) (xs := m') (ys := v') as (u & Eu & Hu); auto.
  { intros m x y Hx _ H0. rewrite (Hx H0). unfold Qdiv. ring. }
  destruct (@mrel_zip_rows _ _ _ _ frozen frozen frozen
              (fun w u => w * (1 - lr * weight_decay) - u))
    with (mk := mk) (xs := data p) (ys := u) as (d' & Ed & Hd); auto.
  { intros m x y Hx Hy H0. rewrite (Hx H0), (Hy H0). ring. }
  exists {| step := t; exp_avg := m'; exp_avg_sq := v' |}, d'.
  unfold adamw_update. rewrite Hgrad. fold s. fold t.
  rewrite Em. cbn [rbind]. rewrite Ev. cbn [rbind]. rewrite Eu. cbn [rbind].
  rewrite Ed. cbn [rbind]. repeat split; auto.
Qed.

End DecoderFacts.

Section DecoderLoop.

Variable sqrt : Q -> Q.
Variable lr : Q.

(** Backward pass and masking over the layers from index [length pre] on. *)
Lemma mask_loop_ok (g : nat -> nat -> nat -> Q) (mks : list matrix)
  (ws : list tparam) :
  Forall2 (fun mk w => mrel frozen mk (data w) /\ requires_grad w = true) mks ws ->
  forall (pre : list matrix) (k : nat),
  exists ws1,
    for_each (mask_one_grad (pre ++ mks)) (length pre)
      (map (fun kp =>
              if requires_grad (snd kp)
              then set_grad (snd kp) (Some (tabulate_like (g (fst kp)) (data (snd kp))))
              else snd kp)
           (combine (seq k (length (zero_grad ws))) (zero_grad ws)))
    = (ws1, None) /\
    Forall2 (fun mk w1 => mrel frozen mk (data w1) /\ requires_grad w1 = true /\
                          exists g', grad w1 = Some g' /\ mrel frozen mk g')
            mks ws1.
Proof.
  induction 1 as [|mk w mks ws [Hw Hr] _ IH]; intros pre k.
  - exists []. split; [reflexivity | constructor].
  - destruct (mask_one_grad_ok (pre ++ mk :: mks) (length pre) mk w (g k))
      as (g' & Hm & Hg'); auto.
    { rewrite nth_error_app2, Nat.sub_diag by lia. reflexivity. }
    destruct (IH (pre ++ [mk]) (S k)) as (ws1 & Hws1 & Hall).
    rewrite <- app_assoc, length_app in Hws1. simpl in Hws1.
    rewrite Nat.add_1_r in Hws1.
    eexists; split.
    + cbn [zero_grad map length seq combine for_each].
      cbn [snd fst]. 
      replace (requires_grad (set_grad w None)) with true by (symmetry; exact Hr).
      change (data (set_grad w None)) with (data w).
      rewrite Hm.
      match goal with |- (let (t', e) := ?X in _) = _ =>
        replace X with (ws1, @None exn) by (symmetry; exact Hws1) end.
      reflexivity.
    + constructor; auto.
      cbn [data set_grad requires_grad grad]. repeat split; eauto.
Qed.

Lemma step_loop_ok (mks : list matrix) (sts : list (option adam_state))
  (ws1 : list tparam) :
  Forall2 (fun mk w1 => mrel frozen mk (data w1) /\ requires_grad w1 = true /\
                        exists g', grad w1 = Some g' /\ mrel frozen mk g')
          mks ws1 ->
  Forall2 quiet mks sts ->
  exists sts2 ws2,
    step_group sqrt lr sts ws1 = ((sts2, ws2), None) /\
    Forall3 layer_inv mks sts2 ws2.
Proof.
  intros H. revert sts.
  induction H as [|mk w mks ws (Hw & Hr & g' & Hg & Hg') _ IH]; intros sts Hq;
    inversion Hq as [|? st0 ? sts0 Hq1 Hq3]; subst.
  - exists [], []. split; [reflexivity | constructor].
  - destruct (adamw_update_ok sqrt lr mk st0 w g' Hg Hw Hg' Hq1)
      as (s' & d' & Hu & Hd & Hq').
    destruct (IH _ Hq3) as (sts2 & ws2 & Hs & Hall).
    eexists _, _; split.
    + cbn [step_group hd tl]. rewrite Hu, Hs. reflexivity.
    + constructor; auto. unfold layer_inv.
      cbn [data set_data requires_grad]. repeat split; auto; apply Hq'.
Qed.

Lemma clamp_loop_ok (mks : list matrix) (sts : list (option adam_state))
  (ws2 : list tparam) (i : nat) :
  Forall3 layer_inv mks sts ws2 ->
  exists ws3,
    for_each (fun _ w => Ok (set_data w (map (map clamp0) (data w)))) i ws2
    = (ws3, None) /\
    dec_inv mks sts ws3 /\ weights_ok mks ws3.
Proof.
  intros H. revert i.
  induction H as [|mk st w mks sts ws (Hw & Hr & Hq) _ IH]; intros i.
  - exists []. repeat split; constructor.
  - destruct (IH (S i)) as (ws3 & Hws & Hinv & Hok).
    eexists; split; [cbn [for_each]; rewrite Hws; reflexivity|].
    assert (Hc : mrel frozen mk (map (map clamp0) (data w))).
    { eapply mrel_map_r; [|exact Hw]. intros; now apply clamp0_frozen. }
    split; constructor; auto.
    + repeat split; auto.
    + split; [exact Hc | apply nonneg_clamp].
Qed.

Lemma dec_inv_split mks sts ws :
  dec_inv mks sts ws ->
  Forall2 (fun mk w => mrel frozen mk (data w) /\ requires_grad w = true) mks ws
  /\ Forall2 quiet mks sts.
Proof.
  induction 1 as [|mk st w mks sts ws (Hw & Hr & Hq) _ [IH1 IH2]]; split; auto.
Qed.

Lemma mask_gradients_trainable (masks : list matrix) g (w0 : tparam) ws :
  requires_grad w0 = true ->
  mask_gradients masks (backward_group g (zero_grad (w0 :: ws)))
  = for_each (mask_one_grad masks) 0 (backward_group g (zero_grad (w0 :: ws))).
Proof.
  intros Hr0. unfold mask_gradients, backward_group.
  cbn [zero_grad map length seq combine snd fst].
  replace (requires_grad (set_grad w0 None)) with true by (symmetry; exact Hr0).
  cbn [requires_grad set_grad]. rewrite Hr0. reflexivity.
Qed.

(** One iteration on a trainable decoder completes and re-establishes the
    invariant. *)
Lemma decoder_train_step_ok (mks : list matrix) sts ws g :
  dec_inv mks sts ws -> ws <> [] ->
  exists sts' ws',
    decoder_train_step sqrt lr mks (sts, ws) g = Ok (sts', ws') /\
    dec_inv mks sts' ws' /\ weights_ok mks ws' /\ ws' <> [].
Proof.
  intros Hinv Hne. destruct (dec_inv_split _ _ _ Hinv) as [Hws Hsts].
  destruct (mask_loop_ok g mks ws Hws [] 0) as (ws1 & Hm & H1).
  destruct (step_loop_ok mks sts ws1 H1 Hsts) as (sts2 & ws2 & Hs & H2).
  destruct (clamp_loop_ok mks sts2 ws2 0 H2) as (ws3 & Hc & Hinv3 & Hok).
  exists sts2, ws3. unfold decoder_train_step. cbn [fst snd].
  destruct ws as [|w0 ws]; [congruence|].
  inversion Hws as [|mk0 w0' mks' ws' [_ Hr0] Hws' E1 E2]; subst.
  inversion H1 as [|mk0' w1 mks'' ws1' (_ & Hr1 & _) H1' E1 E2]; subst.
  inversion H2 as [|mk0' st2 w2 mks'' sts2' ws2' (_ & Hr2 & _) H2']; subst.
  inversion Hinv3 as [|mk0' st3 w3 mks'' sts3' ws3' _ H3']; subst.
  assert (Hmg : mask_gradients (mk0 :: mks') (backward_group g (zero_grad (w0 :: ws)))
                = (w1 :: ws1', None)).
  { rewrite mask_gradients_trainable by exact Hr0. exact Hm. }
  rewrite Hmg, Hs.
  assert (Hcw : clamp_weights (w2 :: ws2') = (w3 :: ws3', None)).
  { unfold clamp_weights. rewrite Hr2. exact Hc. }
  rewrite Hcw. repeat split; auto. congruence.
Qed.

Lemma decoder_train_trace_ok (mks : list matrix) gs :
  forall sts ws, dec_inv mks sts ws -> ws <> [] ->
  Forall (fun st => weights_ok mks (snd st))
         (decoder_train_trace sqrt lr mks (sts, ws) gs)
  /\ length (decoder_train_trace sqrt lr mks (sts, ws) gs) = length gs.
Proof.
  induction gs as [|g gs IH]; intros sts ws Hinv Hne; simpl.
  - split; auto.
  - destruct (decoder_train_step_ok mks sts ws g Hinv Hne)
      as (sts' & ws' & -> & Hinv' & Hok & Hne').
    destruct (IH _ _ Hinv' Hne') as [IH1 IH2]. simpl. split; auto.
Qed.

(** A frozen layer behind a trainable first layer: its gradient is [None]
    and the masking loop raises. *)
Lemma mask_loop_frozen (g : nat -> nat -> nat -> Q) (masks : list matrix)
  (ws : list tparam) :
  Exists (fun w => requires_grad w = false) ws ->
  forall i k,
  snd (for_each (mask_one_grad masks) i
         (map (fun kp =>
                 if requires_grad (snd kp)
                 then set_grad (snd kp) (Some (tabulate_like (g (fst kp)) (data (snd kp))))
                 else snd kp)
              (combine (seq k (length (zero_grad ws))) (zero_grad ws))))
  <> None.
Proof.
  induction ws as [|w ws IH]; intros Hex i k.
  - inversion Hex.
  - cbn [zero_grad map length seq combine for_each snd fst requires_grad set_grad].
    destruct (requires_grad w) eqn:Hr.
    + match goal with |- context [mask_one_grad masks i ?p] =>
        destruct (mask_one_grad masks i p) end; [|simpl; congruence].
      inversion Hex as [? ? H|? ? H]; subst; [congruence|].
      specialize (IH H (S i) (S k)). unfold zero_grad in IH.
      destruct (for_each _ _ _). simpl in *. exact IH.
    + unfold mask_one_grad. cbn [grad]. simpl. congruence.
Qed.

End DecoderLoop.

Lemma forallb_false_Exists {A} (f : A -> bool) (l : list A) :
  forallb f l = false -> Exists (fun x => f x = false) l.
Proof.
  induction l as [|a l IH]; simpl; intros H; [discriminate|].
  destruct (f a) eqn:E; [right; auto | left; exact E].
Qed.

Lemma fresh_optimizer_quiet (masks : list matrix) (ws : list tparam) :
  Forall2 (fun mk w => respects_mask mk (data w)) masks ws ->
  Forall (fun w => requires_grad w = true) ws ->
  dec_inv masks (fresh_optimizer ws) ws.
Proof.
  induction 1 as [|mk w mks ws Hw _ IH]; intros Hall; simpl.
  - constructor.
  - inversion Hall; subst. constructor.
    + unfold layer_inv, quiet. repeat split; auto.
    + apply IH; auto.
Qed.



(** ** Stepping through a method *)

Lemma bind_get_self {B} (k : COntoVAE -> M B) w :
  bind get_self k w = k (self w) w.
Proof. reflexivity. Qed.

Lemma bind_ret {A B} (a : A) (k : A -> M B) w : bind (ret a) k w = k a w.
Proof. reflexivity. Qed.

Lemma bind_lift {A B} (r : result A) (k : A -> M B) w :
  bind (lift r) k w
  = match r with Ok a => k a w | Raise e => (Raise e, w) end.
Proof. unfold bind, lift. destruct r; reflexivity. Qed.

Lemma bind_raise {A B} (e : exn) (k : A -> M B) w :
  bind (raise e) k w = (Raise e, w).
Proof. reflexivity. Qed.

Lemma bind_modify_self {B} f (k : unit -> M B) w :
  bind (modify_self f) k w = k tt (set_self (f (self w)) w).
Proof. reflexivity. Qed.

Lemma bind_assoc {A B C} (c : M A) (k : A -> M B) (k' : B -> M C) w :
  bind (bind c k) k' w = bind c (fun a => bind (k a) k') w.
Proof.
  unfold bind. destruct (c w) as [[a|e] w1]; [|reflexivity].
  destruct (k a w1) as [[b|e] w2]; reflexivity.
Qed.

Lemma bind_ok {A B} (c : M A) (k : A -> M B) w a w1 :
  c w = (Ok a, w1) -> bind c k w = k a w1.
Proof. unfold bind. intros ->. reflexivity. Qed.

Lemma bind_fail {A B} (c : M A) (k : A -> M B) w e w1 :
  c w = (Raise e, w1) -> bind c k w = (Raise e, w1).
Proof. unfold bind. intros ->. reflexivity. Qed.

Lemma bind_new_dict {B} (k : nat -> M B) w :
  bind new_dict k w = k (length (dicts w)) (set_dicts (dicts w ++ [[]]) w).
Proof. reflexivity. Qed.

Lemma bind_dict_values {B} d (k : list matrix -> M B) w :
  bind (dict_values d) k w = k (map snd (nth d (dicts w) [])) w.
Proof. reflexivity. Qed.

Lemma bind_draw {B} (k : nat -> M B) w :
  bind draw k w = k (rng w) (set_rng (S (rng w)) w).
Proof. reflexivity. Qed.

Lemma with_hooks_twice hs nh hs' nh' w :
  with_hooks hs nh (with_hooks hs' nh' w) = with_hooks hs nh w.
Proof. reflexivity. Qed.

Lemma with_hooks_id w :
  with_hooks (forward_hooks (self w)) (next_handle w) w = w.
Proof. destruct w as [m ? ? ? ? ?]. destruct m. reflexivity. Qed.

Lemma attach_loop_eq (layers : list nat) (d : nat) :
  forall (hooks : list (string * nat)) (w : World),
  attach_loop layers d hooks w
  = (Ok (attach_dict (next_handle w) layers hooks),
     with_hooks (forward_hooks (self w) ++ new_hooks (next_handle w) d layers)
                (next_handle w + length layers) w).
Proof.
  induction layers as [|i rest IH]; intros hooks w.
  - cbn [attach_loop ret attach_dict new_hooks length].
    rewrite app_nil_r, Nat.add_0_r, with_hooks_id. reflexivity.
  - cbn [attach_loop]. unfold bind at 1. cbn [register_forward_hook].
    rewrite IH. cbn [next_handle set_next_handle attach_dict new_hooks].
    f_equal. unfold with_hooks.
    cbn [self set_self set_next_handle forward_hooks set_forward_hooks length].
    rewrite <- app_assoc. cbn [app].
    replace (S (next_handle w) + length rest)%nat
      with (next_handle w + S (length rest))%nat by lia.
    reflexivity.
Qed.

Lemma filter_filter {A} (f g : A -> bool) (l : list A) :
  filter g (filter f l) = filter (fun x => f x && g x) l.
Proof.
  induction l as [|a l IH]; simpl; [reflexivity|].
  destruct (f a); simpl; [destruct (g a)|]; rewrite IH; reflexivity.
Qed.

Lemma filter_ext_eq {A} (f g : A -> bool) (l : list A) :
  (forall x, f x = g x) -> filter f l = filter g l.
Proof. intros H. induction l as [|a l IH]; simpl; rewrite ?H, ?IH; reflexivity. Qed.

Lemma set_self_hooks_id w :
  set_self (set_forward_hooks (forward_hooks (self w)) (self w)) w = w.
Proof. destruct w as [m ? ? ? ? ?]. destruct m. reflexivity. Qed.

Lemma filter_true {A} (l : list A) : filter (fun _ => true) l = l.
Proof. induction l as [|a l IH]; simpl; [|rewrite IH]; reflexivity. Qed.

(** Removing the handles of a local dictionary leaves the other hooks. *)
Lemma remove_hooks_eq (hooks : list (string * nat)) :
  forall w,
  remove_hooks hooks w
  = (Ok tt,
     set_self (set_forward_hooks
                 (without_handles (map snd hooks) (forward_hooks (self w)))
                 (self w)) w).
Proof.
  induction hooks as [|[key h] rest IH]; intros w.
  - cbn [remove_hooks ret map]. unfold without_handles. cbn [existsb negb].
    rewrite filter_true, set_self_hooks_id. reflexivity.
  - cbn [remove_hooks]. unfold bind, remove_handle, modify_self.
    rewrite IH. f_equal.
    cbn [self set_self forward_hooks set_forward_hooks].
    unfold without_handles. rewrite filter_filter.
    rewrite (filter_ext_eq
               (fun x => negb (Nat.eqb (handle_id x) h)
                         && negb (existsb (Nat.eqb (handle_id x)) (map snd rest)))
               (fun k => negb (existsb (Nat.eqb (handle_id k))
                                       (map snd ((key, h) :: rest))))).
    + reflexivity.
    + intros x. cbn [map snd existsb]. rewrite negb_orb. reflexivity.
Qed.

(** ** Hook handles *)

Lemma py_str_inj (a b : nat) : py_str a = py_str b -> a = b.
Proof.
  unfold py_str. intros H.
  apply (f_equal NilEmpty.uint_of_string) in H.
  rewrite !NilEmpty.usu in H. injection H as H.
  rewrite <- (DecimalNat.Unsigned.of_to a), <- (DecimalNat.Unsigned.of_to b).
  now rewrite H.
Qed.

Lemma dict_get_set {V} (k k' : string) (v : V) d :
  dict_get k (dict_set k' v d)
  = if String.eqb k k' then Some v else dict_get k d.
Proof.
  induction d as [|[k0 v0] d IH]; simpl.
  - reflexivity.
  - destruct (String.eqb k' k0) eqn:E; simpl.
    + apply String.eqb_eq in E; subst k0.
      destruct (String.eqb k k'); reflexivity.
    + rewrite IH. destruct (String.eqb k k0) eqn:E0; [|reflexivity].
      apply String.eqb_eq in E0; subst k0.
      rewrite String.eqb_sym, E. reflexivity.
Qed.

Lemma dict_set_absent_values {V} (k : string) (v : V) d :
  dict_get k d = None -> map snd (dict_set k v d) = map snd d ++ [v].
Proof.
  induction d as [|[k0 v0] d IH]; simpl; intros H; [reflexivity|].
  destruct (String.eqb k k0); [discriminate|]. simpl. now rewrite IH.
Qed.

Lemma attach_dict_values (layers : list nat) :
  forall nh hooks,
  NoDup layers ->
  (forall j, In j layers -> dict_get (py_str j) hooks = None) ->
  map snd (attach_dict nh layers hooks) = map snd hooks ++ seq nh (length layers).
Proof.
  induction layers as [|i rest IH]; intros nh hooks Hnd Habs; simpl.
  - now rewrite app_nil_r.
  - inversion Hnd as [|? ? Hni Hnd']; subst.
    rewrite IH; auto.
    + rewrite dict_set_absent_values by (apply Habs; now left).
      rewrite <- app_assoc. reflexivity.
    + intros j Hj. rewrite dict_get_set.
      destruct (String.eqb (py_str j) (py_str i)) eqn:E.
      * apply String.eqb_eq, py_str_inj in E. subst. contradiction.
      * apply Habs. now right.
Qed.

Lemma new_hooks_handles nh d layers :
  map handle_id (new_hooks nh d layers) = seq nh (length layers).
Proof.
  revert nh. induction layers as [|i rest IH]; intros nh; simpl;
    [|rewrite IH]; reflexivity.
Qed.

Lemma without_handles_app hs a b :
  without_handles hs (a ++ b) = without_handles hs a ++ without_handles hs b.
Proof. unfold without_handles. apply filter_app. Qed.

Lemma existsb_seq_false (x nh k : nat) :
  (x < nh)%nat -> existsb (Nat.eqb x) (seq nh k) = false.
Proof.
  intros Hx. destruct (existsb (Nat.eqb x) (seq nh k)) eqn:E; [|reflexivity].
  apply existsb_exists in E as (j & Hj & Hxj).
  apply in_seq in Hj. apply Nat.eqb_eq in Hxj. lia.
Qed.

Lemma existsb_seq_true (x nh k : nat) :
  (nh <= x < nh + k)%nat -> existsb (Nat.eqb x) (seq nh k) = true.
Proof.
  intros Hx. apply existsb_exists. exists x. split.
  - apply in_seq. lia.
  - apply Nat.eqb_refl.
Qed.

Lemma without_handles_old nh k (old : list hook) :
  Forall (fun h => handle_id h < nh)%nat old ->
  without_handles (seq nh k) old = old.
Proof.
  unfold without_handles. induction 1 as [|h old Hh _ IH]; simpl; [reflexivity|].
  rewrite existsb_seq_false by exact Hh. simpl. now rewrite IH.
Qed.

Lemma without_handles_new_gen d layers :
  forall nh' nh k, (nh <= nh')%nat -> (nh' + length layers <= nh + k)%nat ->
  without_handles (seq nh k) (new_hooks nh' d layers) = [].
Proof.
  unfold without_handles.
  induction layers as [|i rest IH]; intros nh' nh k H1 H2; simpl in *;
    [reflexivity|].
  rewrite existsb_seq_true by lia. simpl. apply IH; lia.
Qed.

Lemma without_handles_new nh d layers :
  without_handles (seq nh (length layers)) (new_hooks nh d layers) = [].
Proof. apply without_handles_new_gen; lia. Qed.

(** ** The forward pass, step by step *)

Section ForwardFacts.

Variable exp : Q -> Q.
Variable randn : nat -> nat -> nat -> Q.
Variable Encoder_forward :
  bool -> nat -> list tparam -> matrix -> result (matrix * matrix).
Variable OntoDecoder_forward :
  bool -> nat -> list tparam -> list tparam -> Attrs -> matrix ->
  option (list nat) -> list (nat * matrix) * result matrix.
Variable classifier_forward : list tparam -> matrix -> result matrix.

#[local] Abbreviation forward_ :=
  (forward exp randn Encoder_forward OntoDecoder_forward classifier_forward).

Lemma bind_call_encoder {B} x (k : matrix * matrix -> M B) w :
  bind (call_encoder Encoder_forward x) k w
  = match Encoder_forward (training (self w)) (rng w) (encoder_params (self w)) x with
    | Ok a => k a (set_rng (S (rng w)) w)
    | Raise e => (Raise e, set_rng (S (rng w)) w)
    end.
Proof.
  unfold call_encoder. rewrite bind_assoc, bind_get_self, bind_assoc, bind_draw.
  rewrite bind_lift. reflexivity.
Qed.

Lemma bind_reparameterize {B} mu lv (k : matrix -> M B) w :
  bind (reparameterize exp randn mu lv) k w
  = match sample exp randn (rng w) mu lv with
    | Ok z => k z (set_rng (S (rng w)) w)
    | Raise e => (Raise e, set_rng (S (rng w)) w)
    end.
Proof.
  unfold reparameterize. rewrite bind_assoc, bind_draw, bind_lift. reflexivity.
Qed.

Lemma bind_attach_hooks {B} d hooks (k : list (string * nat) -> M B) w :
  bind (_attach_hooks d hooks) k w
  = k (attach_dict (next_handle w)
                   (seq 0 (length (decoder_weights (self w)) - 1)) hooks)
      (with_hooks (forward_hooks (self w)
                   ++ new_hooks (next_handle w) d
                        (seq 0 (length (decoder_weights (self w)) - 1)))
                  (next_handle w + (length (decoder_weights (self w)) - 1)) w).
Proof.
  unfold _attach_hooks. rewrite bind_assoc, bind_get_self.
  unfold bind. rewrite attach_loop_eq, length_seq. reflexivity.
Qed.

Lemma bind_call_decoder {B} z batch (k : matrix -> M B) w :
  bind (call_decoder OntoDecoder_forward z batch) k w
  = let er := OntoDecoder_forward (training (self w)) (rng w)
                (decoder_weights (self w)) (decoder_rest (self w))
                (attrs (self w)) z batch in
    let w' := set_dicts (fold_left (fire_event (forward_hooks (self w)))
                                   (fst er) (dicts w))
                        (set_rng (S (rng w)) w) in
    match snd er with
    | Ok r => k r w'
    | Raise e => (Raise e, w')
    end.
Proof.
  unfold call_decoder. rewrite bind_assoc, bind_get_self, bind_assoc, bind_draw.
  cbn [self set_rng rng]. 
  destruct (OntoDecoder_forward _ _ _ _ _ _ _) as [events r].
  unfold bind. cbn [fst snd]. destruct r; reflexivity.
Qed.

Lemma bind_call_classifier {B} act (k : matrix -> M B) w :
  bind (call_classifier classifier_forward act) k w
  = match classifier (self w) with
    | Some ps =>
        match classifier_forward ps act with
        | Ok out => k out w
        | Raise e => (Raise e, w)
        end
    | None =>
        (Raise (AttributeError "'COntoVAE' object has no attribute 'classifier'"), w)
    end.
Proof.
  unfold call_classifier. rewrite bind_assoc, bind_get_self.
  destruct (classifier (self w)); [apply bind_lift | reflexivity].
Qed.

(** The state in which the decoder of a pass with labels has run: three
    uses of the random generator, one new dictionary, the hooks of the pass
    registered, and the dictionaries as the hooks left them. *)
Lemma forward_labels_run w x batch ls x1 mu log_var z :
  labels (attrs (self w)) = Some ls ->
  attach_batch (self w) none_has_no_to x batch = Ok x1 ->
  Encoder_forward (training (self w)) (rng w) (encoder_params (self w)) x1
  = Ok (mu, log_var) ->
  sample exp randn (S (rng w)) mu log_var = Ok z ->
  let k := (length (decoder_weights (self w)) - 1)%nat in
  let layers := seq 0 k in
  let hooks' := forward_hooks (self w)
                ++ new_hooks (next_handle w) (length (dicts w)) layers in
  let er := OntoDecoder_forward (training (self w)) (S (S (rng w)))
              (decoder_weights (self w)) (decoder_rest (self w))
              (attrs (self w)) z batch in
  let ds := fold_left (fire_event hooks') (fst er) (dicts w ++ [[]]) in
  let w4 := set_dicts ds
              (set_rng (S (S (S (rng w))))
                 (with_hooks hooks' (next_handle w + k) w)) in
  forward_ x batch w
  = match snd er with
    | Raise e => (Raise e, w4)
    | Ok reconstruction =>
        match pathway_activities (neuronnum (attrs (self w))) z
                (map snd (nth (length (dicts w)) ds [])) with
        | Raise e => (Raise e, w4)
        | Ok act =>
            match classifier (self w) with
            | None =>
                (Raise (AttributeError "'COntoVAE' object has no attribute 'classifier'"), w4)
            | Some ps =>
                match classifier_forward ps act with
                | Raise e => (Raise e, w4)
                | Ok output =>
                    (Ok (reconstruction, mu, log_var, Some (act, output)),
                     set_self
                       (set_forward_hooks
                          (without_handles
                             (map snd (attach_dict (next_handle w) layers []))
                             hooks')
                          (self w4)) w4)
                end
            end
        end
    end.
Proof.
  intros Hl Ha He Hs k layers hooks' er ds w4.
  unfold forward. rewrite bind_get_self, bind_lift, Ha.
  rewrite bind_call_encoder, He. rewrite bind_reparameterize.
  cbn [rng set_rng]. rewrite Hs, Hl.
  rewrite bind_new_dict, bind_attach_hooks, bind_call_decoder.
  cbn [self set_self set_dicts set_rng dicts rng next_handle with_hooks
       set_next_handle forward_hooks set_forward_hooks decoder_weights
       decoder_rest attrs training].
  fold k. fold layers. fold hooks'. fold er. fold ds.
  destruct (snd er) as [reconstruction|e]; [|reflexivity].
  rewrite bind_dict_values, bind_lift.
  cbn [dicts set_dicts].
  destruct (pathway_activities _ _ _) as [act|e]; [|reflexivity].
  rewrite bind_call_classifier.
  match goal with |- context [classifier (self ?W)] =>
    change (classifier (self W)) with (classifier (self w)) end.
  destruct (classifier (self w)) as [ps|]; [|reflexivity].
  destruct (classifier_forward ps act) as [output|e]; [|reflexivity].
  unfold bind. rewrite remove_hooks_eq. reflexivity.
Qed.

(** Before the decoder runs, a pass can only fail in the encoder stage, and
    then the model object is as it was. *)
Lemma forward_cases x batch w :
  (exists e w', forward_ x batch w = (Raise e, w') /\ self w' = self w)
  \/ (exists x1 mu log_var z,
        attach_batch (self w) none_has_no_to x batch = Ok x1 /\
        Encoder_forward (training (self w)) (rng w) (encoder_params (self w)) x1
        = Ok (mu, log_var) /\
        sample exp randn (S (rng w)) mu log_var = Ok z).
Proof.
  destruct (attach_batch (self w) none_has_no_to x batch) as [x1|e] eqn:Ha.
  - destruct (Encoder_forward (training (self w)) (rng w)
                (encoder_params (self w)) x1) as [[mu log_var]|e] eqn:He.
    + destruct (sample exp randn (S (rng w)) mu log_var) as [z|e] eqn:Hs.
      * right. exists x1, mu, log_var, z. auto.
      * left. exists e, (set_rng (S (S (rng w))) w). unfold forward.
        rewrite bind_get_self, bind_lift, Ha, bind_call_encoder, He.
        rewrite bind_reparameterize. cbn [rng set_rng]. rewrite Hs. auto.
    + left. exists e, (set_rng (S (rng w)) w). unfold forward.
      rewrite bind_get_self, bind_lift, Ha, bind_call_encoder, He. auto.
  - left. exists e, w. unfold forward.
    rewrite bind_get_self, bind_lift, Ha. auto.
Qed.

(** A model with labels and without classifier cannot finish a pass. *)
Lemma forward_without_classifier x batch w ls :
  labels (attrs (self w)) = Some ls ->
  classifier (self w) = None ->
  exists e, fst (forward_ x batch w) = Raise e.
Proof.
  intros Hl Hc.
  destruct (forward_cases x batch w)
    as [(e & w' & -> & _)|(x1 & mu & lv & z & Ha & He & Hs)];
    [simpl; eauto|].
  rewrite (forward_labels_run w x batch ls x1 mu lv z Hl Ha He Hs), Hc.
  cbv zeta.
  destruct (snd (OntoDecoder_forward _ _ _ _ _ _ _)); [|simpl; eauto].
  destruct (pathway_activities _ _ _); simpl; eauto.
Qed.

Lemma attach_dict_handles nh k :
  map snd (attach_dict nh (seq 0 k) []) = seq nh k.
Proof.
  rewrite attach_dict_values.
  - rewrite length_seq. reflexivity.
  - apply seq_NoDup.
  - reflexivity.
Qed.

(** The hooks a pass with labels leaves on the model, once its encoder stage
    is through: those it found when it returns, those and its own when it
    raises. *)
Lemma forward_labels_hooks w x batch ls x1 mu log_var z :
  labels (attrs (self w)) = Some ls ->
  Forall (fun h => handle_id h < next_handle w)%nat (forward_hooks (self w)) ->
  attach_batch (self w) none_has_no_to x batch = Ok x1 ->
  Encoder_forward (training (self w)) (rng w) (encoder_params (self w)) x1
  = Ok (mu, log_var) ->
  sample exp randn (S (rng w)) mu log_var = Ok z ->
  forward_hooks (self (snd (forward_ x batch w)))
  = if is_ok (fst (forward_ x batch w))
    then forward_hooks (self w)
    else forward_hooks (self w)
         ++ new_hooks (next_handle w) (length (dicts w))
                      (seq 0 (length (decoder_weights (self w)) - 1)).
Proof.
  intros Hl Hwf Ha He Hs.
  rewrite (forward_labels_run w x batch ls x1 mu log_var z Hl Ha He Hs).
  cbv zeta.
  destruct (snd (OntoDecoder_forward _ _ _ _ _ _ _)); [|reflexivity].
  destruct (pathway_activities _ _ _); [|reflexivity].
  destruct (classifier (self w)); [|reflexivity].
  destruct (classifier_forward _ _); [|reflexivity].
  cbn [fst snd is_ok self set_self forward_hooks set_forward_hooks].
  rewrite attach_dict_handles, without_handles_app.
  rewrite without_handles_old by exact Hwf.
  rewrite without_handles_new_gen by (rewrite ?length_seq; lia).
  apply app_nil_r.
Qed.

Lemma encoder_stage_ok w x batch mu log_var z :
  encoder_stage exp randn Encoder_forward (self w) (rng w) x batch
  = Ok (mu, log_var, z) ->
  exists x1,
    attach_batch (self w) none_has_no_to x batch = Ok x1 /\
    Encoder_forward (training (self w)) (rng w) (encoder_params (self w)) x1
    = Ok (mu, log_var) /\
    sample exp randn (S (rng w)) mu log_var = Ok z.
Proof.
  unfold encoder_stage, rbind. intros H.
  destruct (attach_batch _ _ _ _) as [x1|]; [|discriminate].
  destruct (Encoder_forward _ _ _ _) as [[mu' lv']|] eqn:He; [|discriminate].
  cbn [fst snd] in H.
  destruct (sample _ _ _ _ _) as [z'|] eqn:Hs; [|discriminate].
  injection H as -> -> ->. exists x1. auto.
Qed.

Lemma encoder_stage_fail w x batch e :
  encoder_stage exp randn Encoder_forward (self w) (rng w) x batch = Raise e ->
  exists w', forward_ x batch w = (Raise e, w') /\ self w' = self w.
Proof.
  unfold encoder_stage, rbind, forward. intros H.
  rewrite bind_get_self, bind_lift.
  destruct (attach_batch _ _ _ _) as [x1|e1].
  - rewrite bind_call_encoder.
    destruct (Encoder_forward _ _ _ _) as [[mu lv]|e2].
    + rewrite bind_reparameterize. cbn [rng set_rng fst snd] in *.
      destruct (sample _ _ _ _ _) as [z|e3]; [discriminate|].
      injection H as ->. eauto.
    + injection H as ->. eauto.
  - injection H as ->. eauto.
Qed.

(** C5, as the code has it.  In a forward pass with labels the hooks are
    attached after the encoder stage, right before the decoder call, and
    they are detached after the classifier call, on the normal path only: a
    pass that returns leaves on the model exactly the hooks it found; a pass
    that fails in the encoder stage has attached none; a pass whose decoder
    call, aggregation or classifier call raises leaves its own hooks
    registered next to the ones it found. *)
Theorem forward_hook_scope w x batch ls :
  labels (attrs (self w)) = Some ls ->
  Forall (fun h => handle_id h < next_handle w)%nat (forward_hooks (self w)) ->
  forward_hooks (self (snd (forward_ x batch w)))
  = if is_ok (fst (forward_ x batch w)) then forward_hooks (self w)
    else if is_ok (encoder_stage exp randn Encoder_forward (self w) (rng w)
                                 x batch)
         then forward_hooks (self w)
              ++ new_hooks (next_handle w) (length (dicts w))
                           (seq 0 (length (decoder_weights (self w)) - 1))
         else forward_hooks (self w).
Proof.
  intros Hl Hwf.
  destruct (encoder_stage exp randn Encoder_forward (self w) (rng w) x batch)
    as [[[mu lv] z]|e] eqn:Hst.
  - destruct (encoder_stage_ok _ _ _ _ _ _ Hst) as (x1 & Ha & He & Hs).
    rewrite (forward_labels_hooks w x batch ls x1 mu lv z Hl Hwf Ha He Hs).
    reflexivity.
  - destruct (encoder_stage_fail _ _ _ _ Hst) as (w' & Hf & Hself).
    rewrite Hf. cbn [fst snd is_ok]. now rewrite Hself.
Qed.

Lemma raises_bind_l {A B} (c : M A) (k : A -> M B) P :
  always_raises c P -> always_raises (bind c k) P.
Proof.
  intros H w HP. destruct (H w HP) as [e He]. exists e.
  unfold bind. destruct (c w) as [[a|e'] w1]; simpl in *; congruence.
Qed.

Lemma raises_bind_r {A B} (c : M A) (k : A -> M B) P :
  keeps c P -> (forall a, always_raises (k a) P) -> always_raises (bind c k) P.
Proof.
  intros Hk Hr w HP. specialize (Hk w HP). unfold bind.
  destruct (c w) as [[a|e] w1]; simpl in *; [apply (Hr a w1 Hk) | eauto].
Qed.

Lemma keeps_lift {A} (r : result A) P : keeps (lift r) P.
Proof. intros w HP. exact HP. Qed.

Lemma keeps_get_self P : keeps get_self P.
Proof. intros w HP. exact HP. Qed.

Lemma keeps_eval_headless ls : keeps eval (headless ls).
Proof. intros w HP. exact HP. Qed.

Lemma keeps_new_dict_headless ls : keeps new_dict (headless ls).
Proof. intros w HP. exact HP. Qed.

Lemma keeps_attach_hooks_headless ls d hooks :
  keeps (_attach_hooks d hooks) (headless ls).
Proof.
  intros w HP. unfold _attach_hooks, bind, get_self.
  rewrite attach_loop_eq. exact HP.
Qed.

Lemma keeps_get_embedding_headless ls x batch :
  keeps (get_embedding exp randn Encoder_forward x batch) (headless ls).
Proof.
  intros w HP. unfold get_embedding.
  rewrite bind_get_self, bind_lift.
  destruct (attach_batch _ _ _ _); [|exact HP].
  unfold eval. rewrite bind_modify_self, bind_call_encoder.
  destruct (Encoder_forward _ _ _ _) as [[mu lv]|e]; [|exact HP].
  unfold reparameterize, bind, draw, lift. exact HP.
Qed.

Lemma forward_always_raises_headless ls x batch :
  always_raises (forward_ x batch) (headless ls).
Proof. intros w [Hl Hc]. eapply forward_without_classifier; eauto. Qed.

Lemma pass_data_always_raises_headless ls data_ batch output :
  always_raises
    (_pass_data exp randn Encoder_forward OntoDecoder_forward
                classifier_forward data_ batch output)
    (headless ls).
Proof.
  unfold _pass_data.
  apply raises_bind_r; [apply keeps_eval_headless | intros _].
  apply raises_bind_r; [apply keeps_get_embedding_headless | intros z].
  apply raises_bind_r; [apply keeps_get_self | intros m].
  apply raises_bind_r; [apply keeps_lift | intros z'].
  apply raises_bind_r; [apply keeps_new_dict_headless | intros d].
  apply raises_bind_r; [apply keeps_attach_hooks_headless | intros hooks].
  apply raises_bind_l. apply forward_always_raises_headless.
Qed.

End ForwardFacts.

(** ** The training entry point *)

Lemma take_rows_ok {A} (idx : list nat) (l : list A) :
  Forall (fun i => i < length l)%nat idx -> exists r, take_rows idx l = Ok r.
Proof.
  induction 1 as [|i idx Hi _ [r IH]]; simpl.
  - eauto.
  - destruct (nth_error l i) eqn:E.
    + rewrite IH. eauto.
    + apply nth_error_None in E. lia.
Qed.

Lemma Forall_firstn_skipn {A} (P : A -> Prop) (n : nat) (l : list A) :
  Forall P l -> Forall P (firstn n l) /\ Forall P (skipn n l).
Proof.
  intros H. rewrite <- (firstn_skipn n l) in H.
  apply Forall_app in H. exact H.
Qed.

Lemma bind_array_read {B} r (k : matrix -> M B) w :
  bind (array_read r) k w
  = match nth_error (arrays w) r with
    | Some a => k a w
    | None => (Raise (RuntimeError "dangling array reference"), w)
    end.
Proof. unfold bind, array_read. destruct (nth_error (arrays w) r); reflexivity. Qed.

Section TrainFacts.

Variable exp : Q -> Q.
Variable sqrt : Q -> Q.
Variable randn : nat -> nat -> nat -> Q.
Variable Encoder_forward :
  bool -> nat -> list tparam -> matrix -> result (matrix * matrix).
Variable OntoDecoder_forward :
  bool -> nat -> list tparam -> list tparam -> Attrs -> matrix ->
  option (list nat) -> list (nat * matrix) * result matrix.
Variable classifier_forward : list tparam -> matrix -> result matrix.
Variable permutation : nat -> list nat.
Variable loader : bool -> nat -> nat -> minibatch -> list minibatch.
Variable cross_entropy : matrix -> list Z -> result Q.
Variable argsort0 : matrix -> matrix.
Variable autograd :
  COntoVAE -> nat -> minibatch -> Q -> Q -> Q -> nat -> nat -> nat -> nat -> Q.

#[local] Abbreviation train_model_ :=
  (train_model exp sqrt randn Encoder_forward OntoDecoder_forward
               classifier_forward permutation loader cross_entropy argsort0
               autograd).

(** With labels and an untrained VAE, [train_model] raises and leaves the
    state as it found it. *)
Lemma train_model_untrained_raises w modelpath_ lr kl_coeff clf_coeff
  prior_coeff batch_size epochs ls :
  labels (attrs (self w)) = Some ls ->
  VAE_trained (self w) = false ->
  exists e,
    train_model_ modelpath_ lr kl_coeff clf_coeff prior_coeff batch_size epochs w
    = (Raise e, w).
Proof.
  intros Hl Hv. unfold train_model.
  rewrite bind_get_self, bind_array_read.
  destruct (nth_error (arrays w) (X (attrs (self w)))) as [Xarr|]; [|eauto].
  repeat (rewrite bind_lift;
          match goal with
          | |- context [match ?r with Ok _ => _ | Raise _ => _ end] =>
              destruct r; [|eauto]
          end).
  rewrite Hl, Hv. cbn [negb]. rewrite bind_raise. eauto.
Qed.

Lemma train_model_untrained_message w modelpath_ lr kl_coeff clf_coeff
  prior_coeff batch_size epochs ls Xarr :
  labels (attrs (self w)) = Some ls ->
  VAE_trained (self w) = false ->
  nth_error (arrays w) (X (attrs (self w))) = Some Xarr ->
  Forall (fun i => i < n_rows Xarr /\ i < length (y (attrs (self w)))
                   /\ i < length (batch_info (attrs (self w))))%nat
         (permutation (n_rows Xarr)) ->
  train_model_ modelpath_ lr kl_coeff clf_coeff prior_coeff batch_size epochs w
  = (Raise (ValueError "Please pretrain the VAE part of the model."), w).
Proof.
  intros Hl Hv HX Hperm. unfold train_model.
  rewrite bind_get_self, bind_array_read, HX.
  set (ind := permutation (n_rows Xarr)) in *.
  set (cut := round_08 (length ind)).
  destruct (Forall_firstn_skipn _ cut ind Hperm) as [Hf Hs].
  assert (Hsplit : forall idx,
            Forall (fun i => i < n_rows Xarr /\ i < length (y (attrs (self w)))
                             /\ i < length (batch_info (attrs (self w))))%nat idx ->
            (exists r, take_rows idx Xarr = Ok r) /\
            (exists r, take_rows idx (y (attrs (self w))) = Ok r) /\
            (exists r, take_rows idx (batch_info (attrs (self w))) = Ok r)).
  { intros idx H. repeat split; apply take_rows_ok;
      (eapply Forall_impl; [|exact H]); cbv beta; unfold n_rows; intros; lia. }
  destruct (Hsplit _ Hf) as ([r1 E1] & [r2 E2] & [r3 E3]).
  destruct (Hsplit _ Hs) as ([r4 E4] & [r5 E5] & [r6 E6]).
  rewrite bind_lift, E1, bind_lift, E2, bind_lift, E3.
  rewrite bind_lift, E4, bind_lift, E5, bind_lift, E6.
  rewrite Hl, Hv. cbn [negb]. rewrite bind_raise. reflexivity.
Qed.

(** Training a model with labels and without classifier head raises. *)
Lemma train_model_headless_raises w modelpath_ lr kl_coeff clf_coeff
  prior_coeff batch_size epochs ls :
  headless ls w ->
  exists e,
    fst (train_model_ modelpath_ lr kl_coeff clf_coeff prior_coeff batch_size
                      epochs w) = Raise e.
Proof.
  intros HP. pose proof HP as [Hl Hc]. unfold train_model.
  rewrite bind_get_self, bind_array_read.
  destruct (nth_error (arrays w) (X (attrs (self w)))) as [Xarr|];
    [|simpl; eauto].
  repeat (rewrite bind_lift;
          match goal with
          | |- context [match ?r with Ok _ => _ | Raise _ => _ end] =>
              destruct r; [|simpl; eauto]
          end).
  rewrite Hl. destruct (VAE_trained (self w)); cbn [negb].
  - rewrite bind_assoc.
    match goal with
    | |- context [bind (_pass_data ?a ?b ?c ?d ?e ?x ?bt ?o) ?k w] =>
        destruct (raises_bind_l (_pass_data a b c d e x bt o) k (headless ls)
                    (pass_data_always_raises_headless a b c d e ls x bt o) w HP)
          as [e0 He0]
    end.
    exists e0. exact He0.
  - rewrite bind_raise. simpl. eauto.
Qed.

(** C6.  For a model constructed with labels whose [VAE_trained] flag is
    false, [train_model] raises before any training step: the state it
    leaves is the state it was called in (no parameter has changed, no
    checkpoint is written, no flag is set), so the call is never a silent
    no-op; and whenever the train/validation split itself goes through, the
    exception is the [ValueError] with the message 'Please pretrain the VAE
    part of the model.'. *)
Theorem train_model_requires_pretrained_vae w modelpath_ lr kl_coeff
  clf_coeff prior_coeff batch_size epochs ls :
  labels (attrs (self w)) = Some ls ->
  VAE_trained (self w) = false ->
  (exists e,
     train_model_ modelpath_ lr kl_coeff clf_coeff prior_coeff batch_size epochs w
     = (Raise e, w)) /\
  (forall Xarr,
     nth_error (arrays w) (X (attrs (self w))) = Some Xarr ->
     Forall (fun i => i < n_rows Xarr /\ i < length (y (attrs (self w)))
                      /\ i < length (batch_info (attrs (self w))))%nat
            (permutation (n_rows Xarr)) ->
     train_model_ modelpath_ lr kl_coeff clf_coeff prior_coeff batch_size epochs w
     = (Raise (ValueError "Please pretrain the VAE part of the model."), w)).
Proof.
  intros Hl Hv. split.
  - eapply train_model_untrained_raises; eauto.
  - intros Xarr HX Hperm. eapply train_model_untrained_message; eauto.
Qed.

End TrainFacts.

(** C4, as the code has it.  At the end of every epoch a checkpoint is
    written if and only if the validation loss of the epoch is strictly less
    than the best validation loss so far, and exactly in that case
    [val_loss_min] is updated (to that loss).  The trained-state flags are
    set at the end of every epoch, whether or not the loss improved:
    [VAE_trained] becomes true, and [clf_trained] becomes true when the model
    has labels. *)
Theorem epoch_end_checkpoint (modelpath_ : string) (epoch : nat)
  (o : optimizer) (v : pyfloat) (train_param : list (string * Q)) (w : World) :
  fst (epoch_end modelpath_ epoch o v train_param w) = Ok tt /\
  (files (snd (epoch_end modelpath_ epoch o v train_param w))
   = if pf_lt v (val_loss_min (self w))
     then (modelpath_,
           {| ck_epoch := epoch;
              ck_model_state_dict := state_dict (self w);
              ck_optimizer_state_dict := optimizer_state_dict o;
              ck_loss := v;
              ck_classifier_trained :=
                match labels (attrs (self w)) with Some _ => true | None => false end;
              ck_n_classes := n_classes (attrs (self w));
              ck_batch_corrected := Nat.ltb 0 (n_batch (attrs (self w)));
              ck_n_batch := n_batch (attrs (self w)) |}) :: files w
     else files w) /\
  (val_loss_min (self (snd (epoch_end modelpath_ epoch o v train_param w)))
   = if pf_lt v (val_loss_min (self w)) then v else val_loss_min (self w)) /\
  VAE_trained (self (snd (epoch_end modelpath_ epoch o v train_param w))) = true /\
  clf_trained (self (snd (epoch_end modelpath_ epoch o v train_param w)))
  = match labels (attrs (self w)) with
    | Some _ => true
    | None => clf_trained (self w)
    end.
Proof.
  unfold epoch_end. rewrite bind_get_self.
  destruct (pf_lt v (val_loss_min (self w)));
    destruct (labels (attrs (self w))); cbn; repeat split; reflexivity.
Qed.

Lemma train_model_requires_pretrained_vae_witness :
  (exists e,
     toy_train_model "best.pt" (1 # 10000) (1 # 10000) 100000 (1 # 10) 128%nat 2%nat
                     (boot toy_labelled toy_arrays [])
     = (Raise e, boot toy_labelled toy_arrays [])) /\
  (forall Xarr,
     nth_error (arrays (boot toy_labelled toy_arrays []))
               (X (attrs (self (boot toy_labelled toy_arrays [])))) = Some Xarr ->
     Forall (fun i => i < n_rows Xarr
                      /\ i < length (y (attrs (self (boot toy_labelled toy_arrays []))))
                      /\ i < length (batch_info (attrs (self (boot toy_labelled toy_arrays [])))))%nat
            (seq 0 (n_rows Xarr)) ->
     toy_train_model "best.pt" (1 # 10000) (1 # 10000) 100000 (1 # 10) 128%nat 2%nat
                     (boot toy_labelled toy_arrays [])
     = (Raise (ValueError "Please pretrain the VAE part of the model."),
        boot toy_labelled toy_arrays [])).
Proof.
  apply (train_model_requires_pretrained_vae exp_series sqrt_fix toy_randn
           (toy_encoder 4) (toy_decoder [6; 3]%nat) toy_classifier
           (fun n => seq 0 n)
           (fun (_ : bool) (_ _ : nat) (mb : minibatch) => [mb])
           (fun (_ : matrix) (_ : list Z) => Ok 0)
           (fun a : matrix => a)
           (fun _ _ _ _ _ _ _ _ _ _ => 0)
           (boot toy_labelled toy_arrays []) "best.pt" (1 # 10000) (1 # 10000)
           100000 (1 # 10) 128%nat 2%nat [0%Z; 1%Z]).
  - reflexivity.
  - reflexivity.
Defined.

(** C4 as stated fails: a validation loss that is not below the best one
    (here NaN, and +inf, against the initial [float('inf')]) writes no
    checkpoint and leaves [val_loss_min], yet the trained-state flag is
    set. *)
Lemma epoch_end_sets_flags_without_improvement :
  let w := boot toy_plain toy_arrays [] in
  let o := new_optimizer (1 # 10000) toy_plain in
  (pf_lt NaN (val_loss_min (self w)) = false /\
   files (snd (epoch_end "best.pt" 0 o NaN [] w)) = files w /\
   val_loss_min (self (snd (epoch_end "best.pt" 0 o NaN [] w))) = val_loss_min (self w) /\
   VAE_trained (self w) = false /\
   VAE_trained (self (snd (epoch_end "best.pt" 0 o NaN [] w))) = true) /\
  (pf_lt PInf (val_loss_min (self w)) = false /\
   files (snd (epoch_end "best.pt" 0 o PInf [] w)) = files w /\
   VAE_trained (self (snd (epoch_end "best.pt" 0 o PInf [] w))) = true).
Proof. repeat split; reflexivity. Qed.

(** ** Construction *)

Lemma load_state_dict_attrs sd m :
  attrs (fst (load_state_dict sd m)) = attrs m /\
  forward_hooks (fst (load_state_dict sd m)) = forward_hooks m /\
  VAE_trained (fst (load_state_dict sd m)) = VAE_trained m /\
  clf_trained (fst (load_state_dict sd m)) = clf_trained m /\
  val_loss_min (fst (load_state_dict sd m)) = val_loss_min m /\
  training (fst (load_state_dict sd m)) = training m /\
  (classifier (fst (load_state_dict sd m)) = None <-> classifier m = None).
Proof.
  unfold load_state_dict.
  destruct (load_group sd (encoder_params m)) as [enc e1].
  destruct (load_group sd (decoder_weights m)) as [dec e2].
  destruct (load_group sd (decoder_rest m)) as [rest e3].
  destruct (classifier m) as [ps|].
  - destruct (load_group sd ps) as [c e4]. cbn. repeat split; congruence.
  - cbn. repeat split; congruence.
Qed.

Section InitFacts.

Variable Encoder_new : nat -> nat -> list nat -> Q -> Q -> list tparam.
Variable OntoDecoder_new :
  nat -> list nat -> list matrix -> nat -> nat -> option matrix -> nat ->
  list tparam * list matrix * list tparam.
Variable simple_classifier_new : nat -> nat -> list tparam.

#[local] Abbreviation init_ :=
  (init Encoder_new OntoDecoder_new simple_classifier_new).

(** What [__init__] decides about the labels and the classifier. *)
Lemma init_classifier ontobj dataset top_ bottom_ nn dr zdr labels_ batches_
  modelpath_ arrays_ files_ m :
  init_ ontobj dataset top_ bottom_ nn dr zdr labels_ batches_ modelpath_
        arrays_ files_ = Ok m ->
  labels (attrs m) = labels_ /\
  forward_hooks m = [] /\
  (classifier m = None <-> (n_classes (attrs m) <= 1)%nat) /\
  (exists Xarr,
     nth_error arrays_ (X (attrs m)) = Some Xarr /\
     let n0 := count_distinct_Z
                 (match labels_ with Some l => l | None => repeat 0%Z (n_rows Xarr) end) in
     n_classes (attrs m)
     = match modelpath_ with
       | None => n0
       | Some path =>
           match torch_load path files_ with
           | Ok ck => if ck_classifier_trained ck then ck_n_classes ck else n0
           | Raise _ => n0
           end
       end).
Proof.
  unfold init, rbind, dict_item. intros H.
  destruct (dict_get (thresh_key top_ bottom_) (o_genes ontobj)) as [genes_|];
    [|discriminate].
  destruct (dict_get (thresh_key top_ bottom_) (o_masks ontobj)) as [masks_|];
    [|discriminate].
  destruct masks_ as [|m0 masks_]; [discriminate|].
  destruct (dict_get (thresh_key top_ bottom_) (o_data ontobj)) as [datasets|];
    [|discriminate].
  destruct (dict_get dataset datasets) as [X_|]; [|discriminate].
  destruct (nth_error arrays_ X_) as [Xarr|] eqn:EX; [|discriminate].
  assert (Hlt : forall n, (if Nat.ltb 1 n
                           then Some (simple_classifier_new
                                        (sum_nat (removelast (shape1 m0 :: map (@length (list Q)) (m0 :: masks_)))) n)
                           else None) = None <-> (n <= 1)%nat).
  { intros n. destruct (Nat.ltb 1 n) eqn:E.
    - apply Nat.ltb_lt in E. split; [discriminate | lia].
    - apply Nat.ltb_ge in E. split; auto. }
  destruct modelpath_ as [path|].
  - destruct (torch_load path files_) as [ck|e] eqn:EL; [|discriminate].
    cbv beta iota zeta in H.
    match type of H with
    | context [OntoDecoder_new ?a ?b ?c ?d ?e ?f ?g] =>
        destruct (OntoDecoder_new a b c d e f g) as [[dec_w dec_masks] dec_rest]
    end.
    match type of H with
    | match load_state_dict ?sd ?m1 with _ => _ end = _ =>
        pose proof (load_state_dict_attrs sd m1) as (Ha & Hh & _ & _ & _ & _ & Hc);
        destruct (load_state_dict sd m1) as [m' [e|]]; [discriminate|]
    end.
    injection H as <-. cbn [fst] in *. rewrite Ha, Hh, Hc. cbn.
    repeat split; try apply Hlt.
    exists Xarr. split; [exact EX | reflexivity].
  - cbv beta iota zeta in H.
    match type of H with
    | context [OntoDecoder_new ?a ?b ?c ?d ?e ?f ?g] =>
        destruct (OntoDecoder_new a b c d e f g) as [[dec_w dec_masks] dec_rest]
    end.
    injection H as <-. cbn.
    repeat split; try apply Hlt.
    exists Xarr. split; [exact EX | reflexivity].
Qed.

End InitFacts.

(** ** A model whose labels have one class *)

(** C9, as the code has it.  A model constructed with a labels array of
    exactly one distinct class, and not from a checkpoint of a trained
    classifier that carries more than one class, has no classifier head (the
    head is created only when [n_classes] exceeds 1); yet [forward] takes
    the branch for labels and calls [self.classifier], so every forward call
    and every training call on such a model raises. *)
Theorem one_class_model_has_no_classifier
  (Encoder_new : nat -> nat -> list nat -> Q -> Q -> list tparam)
  (OntoDecoder_new :
     nat -> list nat -> list matrix -> nat -> nat -> option matrix -> nat ->
     list tparam * list matrix * list tparam)
  (simple_classifier_new : nat -> nat -> list tparam)
  (exp sqrt : Q -> Q) (randn : nat -> nat -> nat -> Q)
  (Encoder_forward :
     bool -> nat -> list tparam -> matrix -> result (matrix * matrix))
  (OntoDecoder_forward :
     bool -> nat -> list tparam -> list tparam -> Attrs -> matrix ->
     option (list nat) -> list (nat * matrix) * result matrix)
  (classifier_forward : list tparam -> matrix -> result matrix)
  (permutation : nat -> list nat)
  (loader : bool -> nat -> nat -> minibatch -> list minibatch)
  (cross_entropy : matrix -> list Z -> result Q)
  (argsort0 : matrix -> matrix)
  (autograd :
     COntoVAE -> nat -> minibatch -> Q -> Q -> Q -> nat -> nat -> nat -> nat -> Q)
  (ontobj : Ontobj) (dataset : string) (top_ bottom_ nn : nat) (dr zdr : Q)
  (ls : list Z) (batches_ : option (list nat)) (modelpath_ : option string)
  (arrays_ : list matrix) (files_ : list (string * Checkpoint))
  (m : COntoVAE) :
  init Encoder_new OntoDecoder_new simple_classifier_new ontobj dataset
       top_ bottom_ nn dr zdr (Some ls) batches_ modelpath_ arrays_ files_
  = Ok m ->
  count_distinct_Z ls = 1%nat ->
  (forall path ck,
     modelpath_ = Some path -> torch_load path files_ = Ok ck ->
     ck_classifier_trained ck = true -> (ck_n_classes ck <= 1)%nat) ->
  classifier m = None /\
  forall w, self w = m ->
    (forall x batch,
       exists e,
         fst (forward exp randn Encoder_forward OntoDecoder_forward
                      classifier_forward x batch w) = Raise e) /\
    (forall path lr kl_coeff clf_coeff prior_coeff batch_size epochs,
       exists e,
         fst (train_model exp sqrt randn Encoder_forward OntoDecoder_forward
                          classifier_forward permutation loader cross_entropy
                          argsort0 autograd path lr kl_coeff clf_coeff
                          prior_coeff batch_size epochs w) = Raise e).
Proof.
  intros Hinit Hone Hck.
  destruct (init_classifier _ _ _ _ _ _ _ _ _ _ _ _ _ _ _ _ Hinit)
    as (Hl & _ & Hc & Xarr & _ & Hn).
  cbv zeta in Hn.
  assert (Hnone : classifier m = None).
  { apply Hc. rewrite Hn, Hone. destruct modelpath_ as [path|]; [|lia].
    destruct (torch_load path files_) as [ck|] eqn:EL; [|lia].
    destruct (ck_classifier_trained ck) eqn:ET; [|lia].
    eapply Hck; eauto. }
  split; [exact Hnone|].
  intros w <-. split.
  - intros x batch. eapply forward_without_classifier; eauto.
  - intros. eapply train_model_headless_raises. split; eauto.
Qed.

Lemma one_class_model_has_no_classifier_witness :
  classifier toy_one_class = None /\
  forall w, self w = toy_one_class ->
    (forall x batch,
       exists e,
         fst (forward exp_series toy_randn (toy_encoder 4)
                      (toy_decoder [6; 3]%nat) toy_classifier x batch w)
         = Raise e) /\
    (forall path lr kl_coeff clf_coeff prior_coeff batch_size epochs,
       exists e,
         fst (toy_train_model path lr kl_coeff clf_coeff prior_coeff
                              batch_size epochs w) = Raise e).
Proof.
  apply (one_class_model_has_no_classifier
           toy_Encoder_new toy_OntoDecoder_new toy_classifier_new
           exp_series sqrt_fix toy_randn (toy_encoder 4)
           (toy_decoder [6; 3]%nat) toy_classifier (fun n => seq 0 n)
           (fun (_ : bool) (_ _ : nat) (mb : minibatch) => [mb])
           (fun (_ : matrix) (_ : list Z) => Ok 0)
           (fun a : matrix => a)
           (fun _ _ _ _ _ _ _ _ _ _ => 0)
           toy_onto "train" 1000%nat 30%nat 2%nat (1 # 5) (1 # 2)
           [7%Z; 7%Z] None None toy_arrays []).
  - reflexivity.
  - reflexivity.
  - intros path ck H. discriminate H.
Defined.

(** C9 as stated fails for a model built from a checkpoint: the labels have
    one class, the checkpoint of a trained classifier carries two, so the
    classifier head is created and the forward pass returns. *)
Lemma one_class_labels_with_checkpoint_get_classifier :
  count_distinct_Z [7%Z; 7%Z] = 1%nat /\
  match toy_init toy_onto "train" 1000 30 2 (1 # 5) (1 # 2)
                 (Some [7%Z; 7%Z]) None (Some "pre.pt") toy_arrays
                 [("pre.pt", toy_checkpoint)] with
  | Ok m =>
      classifier m <> None /\
      is_ok (fst (toy_forward toy_x None (boot m toy_arrays []))) = true
  | Raise _ => False
  end.
Proof.
  split; [reflexivity|]. vm_compute. split; [discriminate | reflexivity].
Qed.

(** ** The pathway activity vector *)

Lemma chunks_go_spec (n : nat) :
  (0 < n)%nat ->
  forall (T : nat) (row : vec) (fuel : nat),
  length row = (T * n)%nat -> (T <= fuel)%nat ->
  length (chunks_go fuel n row) = T /\
  Forall (fun c => length c = n) (chunks_go fuel n row) /\
  forall k, (k < T)%nat ->
            nth k (chunks_go fuel n row) [] = firstn n (skipn (k * n) row).
Proof.
  intros Hn. induction T as [|T IH]; intros row fuel Hlen Hfuel.
  - destruct row; [|discriminate]. destruct fuel; simpl; repeat split; auto; lia.
  - destruct fuel as [|fuel]; [lia|].
    destruct row as [|a row]; [simpl in Hlen; lia|].
    cbn [chunks_go].
    assert (Hsk : length (skipn n (a :: row)) = (T * n)%nat)
      by (rewrite length_skipn, Hlen; simpl; lia).
    destruct (IH (skipn n (a :: row)) fuel Hsk ltac:(lia)) as (H1 & H2 & H3).
    repeat split.
    + simpl. now rewrite H1.
    + constructor; [|exact H2]. rewrite length_firstn, Hlen. simpl. lia.
    + intros [|k] Hk.
      * reflexivity.
      * cbn [nth]. rewrite H3 by lia. rewrite skipn_skipn.
        replace (k * n + n)%nat with (S k * n)%nat by (simpl; lia). reflexivity.
Qed.

Lemma stackable_same_length (n : nat) (cs : list vec) :
  cs <> [] -> Forall (fun c => length c = n) cs -> stackable cs = true.
Proof.
  intros Hne H. destruct cs as [|c cs]; [congruence|].
  inversion H as [|? ? Hc Hcs]; subst. simpl.
  apply forallb_forall. intros c' Hin.
  rewrite Forall_forall in Hcs. rewrite (Hcs c' Hin). apply Nat.eqb_refl.
Qed.

(** A row of [T] groups of [n] columns becomes the row of the [T] group
    means. *)
Lemma split_mean_row_spec (n T : nat) (row : vec) :
  (0 < n)%nat -> (0 < T)%nat -> length row = (T * n)%nat ->
  exists r, split_mean_row n row = Ok r /\ length r = T /\
            forall k, (k < T)%nat ->
                      nth k r 0 = chunk_mean (firstn n (skipn (k * n) row)).
Proof.
  intros Hn HT Hlen.
  destruct (chunks_go_spec n Hn T row (length row) Hlen ltac:(nia))
    as (H1 & H2 & H3).
  exists (map chunk_mean (chunks_go (length row) n row)).
  unfold split_mean_row, torch_split, rbind.
  destruct row as [|a row]; [simpl in Hlen; nia|].
  destruct n as [|n]; [lia|].
  rewrite (stackable_same_length (S n)); auto.
  - repeat split.
    + now rewrite length_map.
    + intros k Hk. rewrite <- H3 by exact Hk.
      change 0 with (chunk_mean []) at 1. apply map_nth.
  - intros Hc. rewrite Hc in H1. simpl in H1. lia.
Qed.

Lemma rmap_spec {A B} (f : A -> result B) (P : nat -> A -> B -> Prop)
  (l : list A) :
  forall i0,
  (forall i a, nth_error l i = Some a -> exists b, f a = Ok b /\ P (i0 + i)%nat a b) ->
  exists r, rmap f l = Ok r /\ length r = length l /\
            forall i a, nth_error l i = Some a ->
                        exists b, nth_error r i = Some b /\ P (i0 + i)%nat a b.
Proof.
  induction l as [|a l IH]; intros i0 H.
  - exists []. repeat split; auto. intros [|i] a Hi; discriminate.
  - destruct (H 0%nat a eq_refl) as (b & Hb & HP).
    destruct (IH (S i0)) as (r & Hr & Hlen & Hnth).
    { intros i a' Hi. destruct (H (S i) a' Hi) as (b' & Hb' & HP').
      exists b'. split; auto. now replace (S i0 + i)%nat with (i0 + S i)%nat by lia. }
    exists (b :: r). simpl. rewrite Hb, Hr.
    split; [reflexivity|]. split; [now rewrite Hlen|].
    * intros [|i] a' Hi.
      -- injection Hi as <-. exists b. auto.
      -- destruct (Hnth i a' Hi) as (b' & Hb' & HP').
         exists b'. split; auto.
         now replace (i0 + S i)%nat with (S i0 + i)%nat by lia.
Qed.

Lemma zip_with_nth_error {A B C} (f : A -> B -> C) (l : list A) (l' : list B) r :
  zip_with f l l' = Ok r ->
  forall i a b, nth_error l i = Some a -> nth_error l' i = Some b ->
                nth_error r i = Some (f a b).
Proof.
  revert l' r. induction l as [|x l IH]; intros [|y l'] r H; simpl in H;
    try discriminate.
  - intros [|i]; discriminate.
  - destruct (zip_with f l l') as [r'|] eqn:E; [|discriminate].
    injection H as <-. intros [|i] a b Ha Hb; simpl in *.
    + congruence.
    + eapply IH; eauto.
Qed.

Lemma nth_hstack (a c : matrix) :
  length a = length c ->
  forall b, (b < length a)%nat ->
  nth b (map (fun p : vec * vec => fst p ++ snd p) (combine a c)) []
  = nth b a [] ++ nth b c [].
Proof.
  revert c. induction a as [|r a IH]; intros [|r' c] Hlen b Hb; simpl in *;
    try lia; try discriminate.
  destruct b as [|b]; [reflexivity|]. apply IH; lia.
Qed.

(** Tensors of [B] rows side by side. *)
Lemma cat_dim1_spec (B : nat) (vals : list matrix) :
  vals <> [] -> Forall (fun o => length o = B) vals ->
  exists c, cat_dim1 vals = Ok c /\ length c = B /\
            forall b, (b < B)%nat -> nth b c [] = join_rows vals b.
Proof.
  induction vals as [|o rest IH]; intros Hne Hall; [congruence|].
  inversion Hall as [|? ? Ho Hrest]; subst.
  destruct rest as [|o' rest'].
  - exists o. simpl. repeat split; auto.
    intros b _. unfold join_rows. simpl. now rewrite app_nil_r.
  - destruct IH as (c & Hc & Hlen & Hnth); [congruence | exact Hrest |].
    cbn [cat_dim1] in *. rewrite Hc. unfold hstack.
    rewrite zip_with_ok by congruence.
    eexists; split; [reflexivity|]. split.
    + rewrite length_map, length_combine. lia.
    + intros b Hb. rewrite nth_hstack by lia.
      rewrite Hnth by exact Hb. reflexivity.
Qed.

Lemma length_join_rows (n : nat) (ts : list nat) (vals : list matrix) (b : nat) :
  Forall2 (fun t o => (b < length o)%nat /\
                      Forall (fun row => length row = (t * n)%nat) o) ts vals ->
  length (join_rows vals b) = (sum_nat ts * n)%nat.
Proof.
  unfold join_rows. induction 1 as [|t o ts vals [Hb Ho] _ IH]; simpl.
  - reflexivity.
  - rewrite length_app, IH.
    rewrite Forall_forall in Ho. rewrite (Ho (nth b o [])) by (apply nth_In; lia).
    lia.
Qed.

(** The aggregation of lines 230-232: from the latent sample and the
    captured outputs, all of [B] rows, each row of the result holds the mean
    of every group of [n] columns of the latent row followed by the captured
    rows, in this order. *)
Lemma pathway_activities_spec (n t0 : nat) (ts : list nat) (z : matrix)
  (vals : list matrix) :
  (0 < n)%nat -> (0 < t0 + sum_nat ts)%nat -> vals <> [] ->
  Forall (fun row => length row = (t0 * n)%nat) z ->
  Forall2 (fun t o => length o = length z /\
                      Forall (fun row => length row = (t * n)%nat) o) ts vals ->
  exists act,
    pathway_activities n z vals = Ok act /\
    length act = length z /\
    forall b, (b < length z)%nat ->
      length (nth b act []) = (t0 + sum_nat ts)%nat /\
      forall k, (k < t0 + sum_nat ts)%nat ->
        nth k (nth b act []) 0
        = chunk_mean (firstn n (skipn (k * n) (nth b z [] ++ join_rows vals b))).
Proof.
  intros Hn HT Hne Hz Hvals.
  assert (HB : Forall (fun o => length o = length z) vals).
  { clear - Hvals. induction Hvals as [|t o ts vals [H _] _ IH]; constructor; auto. }
  destruct (cat_dim1_spec (length z) vals Hne HB) as (c & Hc & Hclen & Hcnth).
  unfold pathway_activities, rbind. rewrite Hc. unfold hstack.
  rewrite zip_with_ok by congruence.
  set (rows := map (fun p : vec * vec => fst p ++ snd p) (combine z c)).
  assert (Hrows : forall b row, nth_error rows b = Some row ->
                    (b < length z)%nat /\ row = nth b z [] ++ join_rows vals b).
  { intros b row Hb.
    assert (Hlt : (b < length z)%nat).
    { assert (H : (b < length rows)%nat)
        by (apply nth_error_Some; congruence).
      unfold rows in H. rewrite length_map, length_combine in H. lia. }
    split; [exact Hlt|].
    apply nth_error_nth with (d := []) in Hb. rewrite <- Hb. unfold rows.
    rewrite nth_hstack by lia. now rewrite Hcnth. }
  assert (Hwidth : forall b, (b < length z)%nat ->
                     length (nth b z [] ++ join_rows vals b)
                     = ((t0 + sum_nat ts) * n)%nat).
  { intros b Hb. rewrite length_app.
    rewrite Forall_forall in Hz. rewrite (Hz (nth b z [])) by (apply nth_In; lia).
    rewrite (length_join_rows n ts); [lia|].
    eapply Forall2_impl; [|exact Hvals]. cbv beta. intros t o [Ho Hw].
    split; [lia | exact Hw]. }
  destruct (rmap_spec (split_mean_row n)
              (fun b row r =>
                 length r = (t0 + sum_nat ts)%nat /\
                 forall k, (k < t0 + sum_nat ts)%nat ->
                   nth k r 0
                   = chunk_mean (firstn n (skipn (k * n)
                                                 (nth b z [] ++ join_rows vals b))))
              rows 0%nat) as (act & Hact & Hlen & Hnth).
  { intros b row Hb. destruct (Hrows b row Hb) as [Hlt ->].
    destruct (split_mean_row_spec n (t0 + sum_nat ts) _ Hn HT (Hwidth b Hlt))
      as (r & Hr & Hrl & Hrk).
    exists r. auto. }
  assert (Hrl : length rows = length z)
    by (unfold rows; rewrite length_map, length_combine; lia).
  exists act. cbv beta iota. unfold split_mean.
  split; [exact Hact|]. split; [lia|].
  intros b Hb.
  destruct (nth_error rows b) as [row|] eqn:Hrow;
    [|apply nth_error_None in Hrow;
      assert (length rows <= b)%nat by exact Hrow; lia].
  destruct (Hnth b row Hrow) as (r & Hr & Hrlen & Hrk). simpl in Hrk.
  apply nth_error_nth with (d := []) in Hr. rewrite Hr. auto.
Qed.

(** *** What the hooks capture *)

Lemma length_list_update {A} (i : nat) (v : A) (l : list A) :
  length (list_update i v l) = length l.
Proof.
  revert i. induction l as [|a l IH]; intros [|i]; simpl; auto.
Qed.

Lemma nth_list_update {A} (i j : nat) (v d : A) (l : list A) :
  (i < length l)%nat ->
  nth j (list_update i v l) d = if Nat.eqb i j then v else nth j l d.
Proof.
  revert i j. induction l as [|a l IH]; intros i j Hi; simpl in Hi; [lia|].
  destruct i as [|i], j as [|j]; simpl; auto.
  apply IH. lia.
Qed.

Lemma idict_set_twice {V} (k : nat) (v : V) (d : list (nat * V)) :
  idict_set k v (idict_set k v d) = idict_set k v d.
Proof.
  induction d as [|[k' v'] d IH]; simpl.
  - now rewrite Nat.eqb_refl.
  - destruct (Nat.eqb k k') eqn:E; simpl.
    + now rewrite Nat.eqb_refl.
    + now rewrite E, IH.
Qed.

Lemma idict_set_new {V} (k : nat) (v : V) (d : list (nat * V)) :
  Forall (fun kv => fst kv < k)%nat d -> idict_set k v d = d ++ [(k, v)].
Proof.
  induction 1 as [|[k' v'] d Hk _ IH]; simpl; [reflexivity|].
  simpl in Hk. replace (Nat.eqb k k') with false
    by (symmetry; apply Nat.eqb_neq; lia).
  now rewrite IH.
Qed.

Lemma fire_hook_at (d i : nat) (out : matrix) (ds : list (list (nat * matrix)))
  (h : hook) :
  (d < length ds)%nat ->
  length (fire_hook i out ds h) = length ds /\
  nth d (fire_hook i out ds h) []
  = if (Nat.eqb (hook_layer h) i && Nat.eqb (hook_dict h) d)%bool
    then idict_set i out (nth d ds [])
    else nth d ds [].
Proof.
  intros Hd. unfold fire_hook.
  destruct (Nat.eqb (hook_layer h) i); [|auto].
  destruct (nth_error ds (hook_dict h)) as [cur|] eqn:E.
  - split; [apply length_list_update|].
    rewrite nth_list_update by (apply nth_error_Some; congruence).
    cbn [andb]. destruct (Nat.eqb (hook_dict h) d) eqn:Ed; [|reflexivity].
    apply Nat.eqb_eq in Ed. subst d.
    now rewrite (nth_error_nth _ _ _ E).
  - split; [reflexivity|]. cbn [andb].
    destruct (Nat.eqb (hook_dict h) d) eqn:Ed; [|reflexivity].
    apply Nat.eqb_eq in Ed. apply nth_error_None in E. lia.
Qed.

Lemma fire_hooks_at (d i : nat) (out : matrix) (hs : list hook) :
  forall ds, (d < length ds)%nat ->
  length (fold_left (fire_hook i out) hs ds) = length ds /\
  nth d (fold_left (fire_hook i out) hs ds) []
  = if existsb (fun h => Nat.eqb (hook_layer h) i && Nat.eqb (hook_dict h) d)%bool hs
    then idict_set i out (nth d ds [])
    else nth d ds [].
Proof.
  induction hs as [|h hs IH]; intros ds Hd; simpl; [auto|].
  destruct (fire_hook_at d i out ds h Hd) as [Hl Hn].
  destruct (IH (fire_hook i out ds h) ltac:(lia)) as [Hl' Hn'].
  split; [lia|]. rewrite Hn', Hn.
  destruct (Nat.eqb (hook_layer h) i && Nat.eqb (hook_dict h) d)%bool; simpl;
    [|reflexivity].
  destruct (existsb _ hs); [apply idict_set_twice | reflexivity].
Qed.

Lemma existsb_old_hooks (d i : nat) (old : list hook) :
  Forall (fun h => hook_dict h < d)%nat old ->
  existsb (fun h => Nat.eqb (hook_layer h) i && Nat.eqb (hook_dict h) d)%bool old
  = false.
Proof.
  induction 1 as [|h old Hh _ IH]; simpl; [reflexivity|].
  rewrite IH. replace (Nat.eqb (hook_dict h) d) with false
    by (symmetry; apply Nat.eqb_neq; lia).
  now rewrite andb_false_r.
Qed.

Lemma existsb_new_hooks (d i : nat) (layers : list nat) :
  forall nh,
  existsb (fun h => Nat.eqb (hook_layer h) i && Nat.eqb (hook_dict h) d)%bool
          (new_hooks nh d layers)
  = existsb (Nat.eqb i) layers.
Proof.
  induction layers as [|j layers IH]; intros nh; simpl; [reflexivity|].
  rewrite IH, Nat.eqb_refl, andb_true_r, (Nat.eqb_sym j i). reflexivity.
Qed.

Lemma existsb_pass_hooks (d i k nh : nat) (old : list hook) :
  Forall (fun h => hook_dict h < d)%nat old ->
  existsb (fun h => Nat.eqb (hook_layer h) i && Nat.eqb (hook_dict h) d)%bool
          (old ++ new_hooks nh d (seq 0 k))
  = Nat.ltb i k.
Proof.
  intros Hold. rewrite existsb_app, existsb_old_hooks, existsb_new_hooks by auto.
  simpl. destruct (Nat.ltb i k) eqn:E.
  - apply existsb_seq_true. apply Nat.ltb_lt in E. lia.
  - apply Nat.ltb_ge in E.
    destruct (existsb (Nat.eqb i) (seq 0 k)) eqn:E'; [|reflexivity].
    apply existsb_exists in E' as (j & Hj & Hij).
    apply in_seq in Hj. apply Nat.eqb_eq in Hij. lia.
Qed.

(** The dictionary of the pass after the decoder has called its blocks in
    order. *)
Lemma fire_events_at (d k nh : nat) (old : list hook) (outs : list matrix) :
  Forall (fun h => hook_dict h < d)%nat old ->
  forall a ds, (d < length ds)%nat ->
  nth d (fold_left (fire_event (old ++ new_hooks nh d (seq 0 k)))
                   (combine (seq a (length outs)) outs) ds) []
  = capture k a outs (nth d ds []).
Proof.
  intros Hold. induction outs as [|o outs IH]; intros a ds Hd; simpl;
    [reflexivity|].
  unfold fire_event at 2. cbn [fst snd].
  destruct (fire_hooks_at d a o (old ++ new_hooks nh d (seq 0 k)) ds Hd)
    as [Hl Hn].
  rewrite IH by lia. rewrite Hn, existsb_pass_hooks by exact Hold.
  reflexivity.
Qed.

Lemma capture_values (k : nat) (outs : list matrix) :
  forall a cur,
  Forall (fun kv => fst kv < a)%nat cur ->
  map snd (capture k a outs cur) = map snd cur ++ firstn (k - a) outs.
Proof.
  induction outs as [|o outs IH]; intros a cur Hcur; simpl.
  - now rewrite firstn_nil, app_nil_r.
  - destruct (Nat.ltb a k) eqn:E.
    + apply Nat.ltb_lt in E. rewrite idict_set_new by exact Hcur.
      rewrite IH.
      * rewrite map_app, <- app_assoc. simpl.
        replace (k - a)%nat with (S (k - S a)) by lia. reflexivity.
      * apply Forall_app. split.
        -- eapply Forall_impl; [|exact Hcur]. simpl. intros; lia.
        -- constructor; [simpl; lia | constructor].
    + apply Nat.ltb_ge in E. rewrite IH.
      * replace (k - a)%nat with 0%nat by lia.
        replace (k - S a)%nat with 0%nat by lia. reflexivity.
      * eapply Forall_impl; [|exact Hcur]. simpl. intros; lia.
Qed.

(** With the decoder calling its [L] blocks in order, the hooks of a pass
    capture the outputs of all blocks but the last, in this order. *)
Lemma captured_outputs (w : World) (nh : nat) (outs : list matrix) :
  hooks_wf w ->
  map snd
      (nth (length (dicts w))
           (fold_left
              (fire_event (forward_hooks (self w)
                           ++ new_hooks nh (length (dicts w))
                                (seq 0 (length outs - 1))))
              (combine (seq 0 (length outs)) outs) (dicts w ++ [[]])) [])
  = removelast outs.
Proof.
  intros Hwf.
  rewrite fire_events_at.
  - rewrite app_nth2, Nat.sub_diag by lia. cbn [nth].
    rewrite capture_values by constructor. cbn [map app].
    rewrite Nat.sub_0_r, removelast_firstn_len.
    now rewrite Nat.sub_1_r.
  - eapply Forall_impl; [|exact Hwf]. cbv beta. intros h [_ H]. exact H.
  - rewrite length_app. simpl. lia.
Qed.

Section ActivityFacts.

Variable exp : Q -> Q.
Variable randn : nat -> nat -> nat -> Q.
Variable Encoder_forward :
  bool -> nat -> list tparam -> matrix -> result (matrix * matrix).
Variable OntoDecoder_forward :
  bool -> nat -> list tparam -> list tparam -> Attrs -> matrix ->
  option (list nat) -> list (nat * matrix) * result matrix.
Variable classifier_forward : list tparam -> matrix -> result matrix.


End ActivityFacts.


(** ** The scope of the hooks *)

Lemma forward_hook_scope_witness :
  forward_hooks (self (snd (toy_forward toy_x None toy_world)))
  = if is_ok (fst (toy_forward toy_x None toy_world))
    then forward_hooks (self toy_world)
    else if is_ok (encoder_stage exp_series toy_randn (toy_encoder 4)
                                 (self toy_world) (rng toy_world) toy_x None)
         then forward_hooks (self toy_world)
              ++ new_hooks (next_handle toy_world) (length (dicts toy_world))
                           (seq 0 (length (decoder_weights (self toy_world)) - 1))
         else forward_hooks (self toy_world).
Proof.
  apply (forward_hook_scope exp_series toy_randn (toy_encoder 4)
           (toy_decoder [6; 3]%nat) toy_classifier toy_world toy_x None
           [0%Z; 1%Z]).
  - reflexivity.
  - constructor.
Defined.

(** C5 as stated fails: the hooks are not released when the decoder call or
    the classifier call raises.  A pass whose decoder raises leaves its hook
    on the first decoder block, and so does a pass on a model without
    classifier head; the hook is still registered, and still fires, in the
    next pass on the same model. *)
Lemma forward_leaves_hooks_when_call_raises :
  let failing := forward exp_series toy_randn (toy_encoder 4) failing_decoder
                         toy_classifier toy_x None toy_world in
  let headless_ := toy_forward toy_x None (boot toy_one_class toy_arrays []) in
  let next := toy_forward toy_x None (snd failing) in
  (forward_hooks (self toy_world) = [] /\
   is_ok (fst failing) = false /\
   forward_hooks (self (snd failing))
   = [{| handle_id := 0; hook_layer := 0; hook_dict := 0 |}]) /\
  (is_ok (fst headless_) = false /\
   forward_hooks (self (snd headless_))
   = [{| handle_id := 0; hook_layer := 0; hook_dict := 0 |}]) /\
  (is_ok (fst next) = true /\
   forward_hooks (self (snd next))
   = [{| handle_id := 0; hook_layer := 0; hook_dict := 0 |}] /\
   nth 0 (dicts (snd next)) [] <> nth 0 (dicts (snd failing)) []).
Proof.
  vm_compute. repeat split; try reflexivity. discriminate.
Qed.

(** ** A missing batch covariate *)

Lemma hstack_zeros (x : matrix) (n : nat) :
  hstack x (zeros (n_rows x) n) = Ok (map (fun row => row ++ repeat 0 n) x).
Proof.
  unfold hstack, zeros, n_rows. induction x as [|row x IH]; simpl.
  - reflexivity.
  - now rewrite IH.
Qed.

Section BatchFacts.

Variable exp : Q -> Q.
Variable randn : nat -> nat -> nat -> Q.
Variable Encoder_forward :
  bool -> nat -> list tparam -> matrix -> result (matrix * matrix).
Variable OntoDecoder_forward :
  bool -> nat -> list tparam -> list tparam -> Attrs -> matrix ->
  option (list nat) -> list (nat * matrix) * result matrix.
Variable classifier_forward : list tparam -> matrix -> result matrix.

(** A pass without labels is the encoder stage followed by the decoder. *)
Lemma forward_plain_run w x batch x1 mu log_var z :
  labels (attrs (self w)) = None ->
  attach_batch (self w) none_has_no_to x batch = Ok x1 ->
  Encoder_forward (training (self w)) (rng w) (encoder_params (self w)) x1
  = Ok (mu, log_var) ->
  sample exp randn (S (rng w)) mu log_var = Ok z ->
  let er := OntoDecoder_forward (training (self w)) (S (S (rng w)))
              (decoder_weights (self w)) (decoder_rest (self w))
              (attrs (self w)) z batch in
  let w' := set_dicts (fold_left (fire_event (forward_hooks (self w)))
                                 (fst er) (dicts w))
                      (set_rng (S (S (S (rng w)))) w) in
  forward exp randn Encoder_forward OntoDecoder_forward classifier_forward
          x batch w
  = match snd er with
    | Ok reconstruction => (Ok (reconstruction, mu, log_var, None), w')
    | Raise e => (Raise e, w')
    end.
Proof.
  intros Hl Ha He Hs er w'. unfold forward.
  rewrite bind_get_self, bind_lift, Ha, bind_call_encoder, He.
  rewrite bind_reparameterize. cbn [rng set_rng]. rewrite Hs, Hl.
  rewrite bind_call_decoder. cbv zeta.
  cbn [self set_self set_rng rng dicts training decoder_weights decoder_rest
       attrs forward_hooks].
  fold er. destruct (snd er); reflexivity.
Qed.

(** C7, as the code has it.  In a model configured with batch correction
    ([n_batch > 0]) a call without batch covariate is not an error: the
    input gets [n_batch] zero columns in place of the one-hot batch code,
    and [get_embedding] and [forward] go on with the encoder, the sampler
    and the decoder on that input. *)
Theorem missing_batch_is_zero_padded (w : World) (x : matrix) (e : exn) :
  (0 < n_batch (attrs (self w)))%nat ->
  attach_batch (self w) e x None
  = Ok (map (fun row => row ++ repeat 0 (n_batch (attrs (self w)))) x) /\
  (forall mu log_var,
     Encoder_forward false (rng w) (encoder_params (self w))
       (map (fun row => row ++ repeat 0 (n_batch (attrs (self w)))) x)
     = Ok (mu, log_var) ->
     fst (get_embedding exp randn Encoder_forward x None w)
     = sample exp randn (S (rng w)) mu log_var) /\
  (forall mu log_var z,
     labels (attrs (self w)) = None ->
     Encoder_forward (training (self w)) (rng w) (encoder_params (self w))
       (map (fun row => row ++ repeat 0 (n_batch (attrs (self w)))) x)
     = Ok (mu, log_var) ->
     sample exp randn (S (rng w)) mu log_var = Ok z ->
     fst (forward exp randn Encoder_forward OntoDecoder_forward
                  classifier_forward x None w)
     = match snd (OntoDecoder_forward (training (self w)) (S (S (rng w)))
                    (decoder_weights (self w)) (decoder_rest (self w))
                    (attrs (self w)) z None) with
       | Ok reconstruction => Ok (reconstruction, mu, log_var, None)
       | Raise e' => Raise e'
       end).
Proof.
  intros Hn.
  assert (Hpad : forall e', attach_batch (self w) e' x None
                 = Ok (map (fun row => row ++ repeat 0 (n_batch (attrs (self w)))) x)).
  { intros e'. unfold attach_batch, rbind.
    replace (Nat.ltb 0 (n_batch (attrs (self w)))) with true
      by (symmetry; apply Nat.ltb_lt; exact Hn).
    apply hstack_zeros. }
  split; [apply Hpad|]. split.
  - intros mu log_var He. unfold get_embedding.
    rewrite bind_get_self, bind_lift, Hpad. unfold eval.
    rewrite bind_modify_self, bind_call_encoder.
    cbn [self set_self training set_training rng encoder_params].
    rewrite He. unfold reparameterize, bind, draw, lift. reflexivity.
  - intros mu log_var z Hl He Hs.
    rewrite (forward_plain_run w x None _ mu log_var z Hl (Hpad _) He Hs).
    cbv zeta. destruct (snd (OntoDecoder_forward _ _ _ _ _ _ _)); reflexivity.
Qed.

End BatchFacts.

Lemma missing_batch_is_zero_padded_witness :
  let w := boot toy_batched toy_arrays [] in
  attach_batch (self w) none_has_no_to toy_x None
  = Ok (map (fun row => row ++ repeat 0 (n_batch (attrs (self w)))) toy_x) /\
  (forall mu log_var,
     toy_encoder 4 false (rng w) (encoder_params (self w))
       (map (fun row => row ++ repeat 0 (n_batch (attrs (self w)))) toy_x)
     = Ok (mu, log_var) ->
     fst (get_embedding exp_series toy_randn (toy_encoder 4) toy_x None w)
     = sample exp_series toy_randn (S (rng w)) mu log_var) /\
  (forall mu log_var z,
     labels (attrs (self w)) = None ->
     toy_encoder 4 (training (self w)) (rng w) (encoder_params (self w))
       (map (fun row => row ++ repeat 0 (n_batch (attrs (self w)))) toy_x)
     = Ok (mu, log_var) ->
     sample exp_series toy_randn (S (rng w)) mu log_var = Ok z ->
     fst (toy_forward toy_x None w)
     = match snd (toy_decoder [6; 3]%nat (training (self w)) (S (S (rng w)))
                    (decoder_weights (self w)) (decoder_rest (self w))
                    (attrs (self w)) z None) with
       | Ok reconstruction => Ok (reconstruction, mu, log_var, None)
       | Raise e' => Raise e'
       end).
Proof.
  apply (missing_batch_is_zero_padded exp_series toy_randn (toy_encoder 4)
           (toy_decoder [6; 3]%nat) toy_classifier
           (boot toy_batched toy_arrays []) toy_x none_has_no_to).
  vm_compute. lia.
Defined.

(** C7 as stated fails: on a model with two batches, whose encoder takes
    the three genes and the two batch columns (and rejects the bare input),
    [get_embedding] and [forward] called without batch return normally. *)
Lemma missing_batch_does_not_abort :
  let w := boot toy_batched toy_arrays [] in
  n_batch (attrs (self w)) = 2%nat /\
  is_ok (toy_encoder 4 false 0 (encoder_params (self w)) toy_x) = false /\
  is_ok (fst (get_embedding exp_series toy_randn (toy_encoder 4) toy_x None w))
  = true /\
  is_ok (fst (toy_forward toy_x None w)) = true.
Proof. vm_compute. repeat split; reflexivity. Qed.

(** ** Perturbation *)

Tactic Notation "mstep" constr(c) constr(w) "as" ident(a) ident(e) ident(w') :=
  let E := fresh "E" in
  destruct (c w) as [[a|e] w'] eqn:E;
  [rewrite !(bind_ok _ _ _ _ _ E) | rewrite !(bind_fail _ _ _ _ _ E)].

Section PerturbationFacts.

Variable exp : Q -> Q.
Variable randn : nat -> nat -> nat -> Q.
Variable Encoder_forward :
  bool -> nat -> list tparam -> matrix -> result (matrix * matrix).
Variable OntoDecoder_forward :
  bool -> nat -> list tparam -> list tparam -> Attrs -> matrix ->
  option (list nat) -> list (nat * matrix) * result matrix.
Variable classifier_forward : list tparam -> matrix -> result matrix.

#[local] Abbreviation perturbation_ :=
  (perturbation exp randn Encoder_forward OntoDecoder_forward
                classifier_forward).
#[local] Abbreviation pass_data_ :=
  (_pass_data exp randn Encoder_forward OntoDecoder_forward
              classifier_forward).


End PerturbationFacts.

(** *** Methods that do not touch the arrays *)

Lemma blind_ret {A} (a : A) : arrays_blind (ret a).
Proof. intros x w. reflexivity. Qed.

Lemma blind_lift {A} (r : result A) : arrays_blind (lift r).
Proof. intros x w. reflexivity. Qed.

Lemma blind_raise {A} (e : exn) : arrays_blind (@raise A e).
Proof. intros x w. reflexivity. Qed.

Lemma blind_get_self : arrays_blind get_self.
Proof. intros x w. reflexivity. Qed.

Lemma blind_modify_self f : arrays_blind (modify_self f).
Proof. intros x w. reflexivity. Qed.

Lemma blind_draw : arrays_blind draw.
Proof. intros x w. reflexivity. Qed.

Lemma blind_new_dict : arrays_blind new_dict.
Proof. intros x w. reflexivity. Qed.

Lemma blind_dict_values d : arrays_blind (dict_values d).
Proof. intros x w. reflexivity. Qed.

Lemma blind_register i d : arrays_blind (register_forward_hook i d).
Proof. intros x w. reflexivity. Qed.

Lemma blind_bind {A B} (c : M A) (k : A -> M B) :
  arrays_blind c -> (forall a, arrays_blind (k a)) -> arrays_blind (bind c k).
Proof.
  intros Hc Hk x w. unfold bind. rewrite Hc.
  destruct (c w) as [[a|e] w1]; cbn [fst snd]; [apply Hk | reflexivity].
Qed.

Lemma blind_attach_loop layers d : forall hooks,
  arrays_blind (attach_loop layers d hooks).
Proof.
  induction layers as [|i rest IH]; intros hooks; cbn [attach_loop].
  - apply blind_ret.
  - apply blind_bind; [apply blind_register | intros; apply IH].
Qed.

Lemma blind_remove_hooks hooks : arrays_blind (remove_hooks hooks).
Proof.
  induction hooks as [|[key h] rest IH]; cbn [remove_hooks].
  - apply blind_ret.
  - apply blind_bind; [apply blind_modify_self | intros; apply IH].
Qed.

Lemma set_arrays_id w : set_arrays (arrays w) w = w.
Proof. destruct w. reflexivity. Qed.

Lemma blind_arrays {A} (c : M A) w :
  arrays_blind c -> arrays (snd (c w)) = arrays w.
Proof.
  intros H. rewrite <- (set_arrays_id w) at 1. rewrite H. reflexivity.
Qed.

Section Blind.

Variable exp : Q -> Q.
Variable randn : nat -> nat -> nat -> Q.
Variable Encoder_forward :
  bool -> nat -> list tparam -> matrix -> result (matrix * matrix).
Variable OntoDecoder_forward :
  bool -> nat -> list tparam -> list tparam -> Attrs -> matrix ->
  option (list nat) -> list (nat * matrix) * result matrix.
Variable classifier_forward : list tparam -> matrix -> result matrix.

Lemma blind_call_encoder x : arrays_blind (call_encoder Encoder_forward x).
Proof.
  unfold call_encoder.
  apply blind_bind; [apply blind_get_self | intros m].
  apply blind_bind; [apply blind_draw | intros s]. apply blind_lift.
Qed.

Lemma blind_reparameterize mu lv : arrays_blind (reparameterize exp randn mu lv).
Proof.
  unfold reparameterize.
  apply blind_bind; [apply blind_draw | intros s]. apply blind_lift.
Qed.

Lemma blind_call_decoder z batch :
  arrays_blind (call_decoder OntoDecoder_forward z batch).
Proof.
  unfold call_decoder.
  apply blind_bind; [apply blind_get_self | intros m].
  apply blind_bind; [apply blind_draw | intros s].
  destruct (OntoDecoder_forward _ _ _ _ _ _ _) as [events r].
  intros x w. reflexivity.
Qed.

Lemma blind_call_classifier act :
  arrays_blind (call_classifier classifier_forward act).
Proof.
  unfold call_classifier.
  apply blind_bind; [apply blind_get_self | intros m].
  destruct (classifier m); [apply blind_lift | apply blind_raise].
Qed.

Lemma blind_attach_hooks d hooks : arrays_blind (_attach_hooks d hooks).
Proof.
  unfold _attach_hooks.
  apply blind_bind; [apply blind_get_self | intros m]. apply blind_attach_loop.
Qed.

Lemma blind_get_embedding x batch :
  arrays_blind (get_embedding exp randn Encoder_forward x batch).
Proof.
  unfold get_embedding, eval.
  apply blind_bind; [apply blind_get_self | intros m].
  apply blind_bind; [apply blind_lift | intros x1].
  apply blind_bind; [apply blind_modify_self | intros _].
  apply blind_bind; [apply blind_call_encoder | intros [mu lv]].
  apply blind_reparameterize.
Qed.

Lemma blind_forward x batch :
  arrays_blind (forward exp randn Encoder_forward OntoDecoder_forward
                        classifier_forward x batch).
Proof.
  unfold forward.
  apply blind_bind; [apply blind_get_self | intros m].
  apply blind_bind; [apply blind_lift | intros x1].
  apply blind_bind; [apply blind_call_encoder | intros [mu lv]].
  apply blind_bind; [apply blind_reparameterize | intros z].
  destruct (labels (attrs m)).
  - apply blind_bind; [apply blind_new_dict | intros d].
    apply blind_bind; [apply blind_attach_hooks | intros hooks].
    apply blind_bind; [apply blind_call_decoder | intros r].
    apply blind_bind; [apply blind_dict_values | intros vals].
    apply blind_bind; [apply blind_lift | intros act].
    apply blind_bind; [apply blind_call_classifier | intros out].
    apply blind_bind; [apply blind_remove_hooks | intros _].
    apply blind_ret.
  - apply blind_bind; [apply blind_call_decoder | intros r]. apply blind_ret.
Qed.

Lemma blind_pass_data data_ batch output :
  arrays_blind (_pass_data exp randn Encoder_forward OntoDecoder_forward
                           classifier_forward data_ batch output).
Proof.
  unfold _pass_data, eval.
  apply blind_bind; [apply blind_modify_self | intros _].
  apply blind_bind; [apply blind_get_embedding | intros z].
  apply blind_bind; [apply blind_get_self | intros m].
  apply blind_bind; [apply blind_lift | intros z'].
  apply blind_bind; [apply blind_new_dict | intros d].
  apply blind_bind; [apply blind_attach_hooks | intros hooks].
  apply blind_bind; [apply blind_forward | intros [[[r ?] ?] ?]].
  apply blind_bind; [apply blind_dict_values | intros vals].
  apply blind_bind; [apply blind_lift | intros act].
  apply blind_bind; [apply blind_lift | intros act'].
  apply blind_bind; [apply blind_remove_hooks | intros _].
  destruct (String.eqb output "act").
  - apply blind_bind; [apply blind_lift | intros]. apply blind_ret.
  - destruct (String.eqb output "rec"); apply blind_ret.
Qed.

End Blind.

(** *** What a query leaves on the model *)

Lemma set_forward_hooks_id m : set_forward_hooks (forward_hooks m) m = m.
Proof. destruct m. reflexivity. Qed.

Lemma pass_hooks_removed (old : list hook) (nh k d : nat) :
  Forall (fun h => handle_id h < nh)%nat old ->
  without_handles (map snd (attach_dict nh (seq 0 k) []))
                  (old ++ new_hooks nh d (seq 0 k))
  = old.
Proof.
  intros Hwf. rewrite attach_dict_handles, without_handles_app.
  rewrite without_handles_old by exact Hwf.
  rewrite without_handles_new_gen by (rewrite ?length_seq; lia).
  apply app_nil_r.
Qed.

Lemma pass_hooks_wf (old : list hook) (nh k d : nat) :
  Forall (fun h => handle_id h < nh)%nat old ->
  Forall (fun h => handle_id h < nh + k)%nat (old ++ new_hooks nh d (seq 0 k)).
Proof.
  intros Hwf. apply Forall_app. split.
  - eapply Forall_impl; [|exact Hwf]. cbv beta. intros; lia.
  - assert (H : forall layers n0, (nh <= n0)%nat ->
                (n0 + length layers <= nh + k)%nat ->
                Forall (fun h => handle_id h < nh + k)%nat (new_hooks n0 d layers)).
    { induction layers as [|i rest IH]; intros n0 H1 H2; simpl in *;
        constructor; [simpl; lia | apply IH; lia]. }
    apply H; rewrite ?length_seq; lia.
Qed.

Section QueryFacts.

Variable exp : Q -> Q.
Variable randn : nat -> nat -> nat -> Q.
Variable Encoder_forward :
  bool -> nat -> list tparam -> matrix -> result (matrix * matrix).
Variable OntoDecoder_forward :
  bool -> nat -> list tparam -> list tparam -> Attrs -> matrix ->
  option (list nat) -> list (nat * matrix) * result matrix.
Variable classifier_forward : list tparam -> matrix -> result matrix.

#[local] Abbreviation forward_ :=
  (forward exp randn Encoder_forward OntoDecoder_forward classifier_forward).
#[local] Abbreviation pass_data_ :=
  (_pass_data exp randn Encoder_forward OntoDecoder_forward
              classifier_forward).
#[local] Abbreviation get_embedding_ :=
  (get_embedding exp randn Encoder_forward).

(** A pass that returns leaves the model object as it found it. *)
Lemma forward_ok_self w x batch r w' :
  Forall (fun h => handle_id h < next_handle w)%nat (forward_hooks (self w)) ->
  forward_ x batch w = (Ok r, w') ->
  self w' = self w.
Proof.
  intros Hwf Hf.
  destruct (encoder_stage exp randn Encoder_forward (self w) (rng w) x batch)
    as [[[mu lv] z]|e] eqn:Hst.
  - destruct (encoder_stage_ok _ _ _ _ _ _ _ _ _ Hst) as (x1 & Ha & He & Hs).
    destruct (labels (attrs (self w))) as [ls|] eqn:Hl.
    + rewrite (forward_labels_run _ _ _ _ _ w x batch ls x1 mu lv z Hl Ha He Hs)
        in Hf.
      cbv zeta in Hf.
      destruct (snd (OntoDecoder_forward _ _ _ _ _ _ _)); [|discriminate].
      destruct (pathway_activities _ _ _); [|discriminate].
      destruct (classifier (self w)); [|discriminate].
      destruct (classifier_forward _ _); [|discriminate].
      injection Hf as _ <-.
      cbn [self set_self set_dicts set_rng with_hooks set_next_handle
           forward_hooks set_forward_hooks].
      rewrite pass_hooks_removed by exact Hwf.
      change (set_forward_hooks ?h (set_forward_hooks ?h' ?m))
        with (set_forward_hooks h m).
      apply set_forward_hooks_id.
    + rewrite (forward_plain_run _ _ _ _ _ w x batch x1 mu lv z Hl Ha He Hs)
        in Hf.
      cbv zeta in Hf.
      destruct (snd (OntoDecoder_forward _ _ _ _ _ _ _)); [|discriminate].
      injection Hf as _ <-. reflexivity.
  - destruct (encoder_stage_fail exp randn Encoder_forward OntoDecoder_forward
                classifier_forward _ _ _ _ Hst) as (w0 & Hf0 & _).
    rewrite Hf0 in Hf. discriminate.
Qed.

(** [get_embedding] switches to evaluation mode and changes nothing else on
    the model. *)
Lemma get_embedding_ok_self w x batch z w' :
  get_embedding_ x batch w = (Ok z, w') ->
  self w' = set_training false (self w) /\
  next_handle w' = next_handle w /\ dicts w' = dicts w /\ files w' = files w.
Proof.
  unfold get_embedding, eval.
  rewrite bind_get_self, bind_lift.
  destruct (attach_batch _ _ _ _); [|discriminate].
  rewrite bind_modify_self, bind_call_encoder.
  destruct (Encoder_forward _ _ _ _) as [[mu lv]|]; [|discriminate].
  unfold reparameterize. rewrite bind_draw, <- (bind_ret tt (fun _ => lift _)).
  unfold bind, ret, lift.
  destruct (sample _ _ _ _ _); [|discriminate].
  intros H. injection H as _ <-. repeat split.
Qed.

(** [_pass_data], when it returns, leaves the model in evaluation mode and
    otherwise as it found it. *)
Lemma pass_data_ok_self w data_ batch output r w' :
  Forall (fun h => handle_id h < next_handle w)%nat (forward_hooks (self w)) ->
  pass_data_ data_ batch output w = (Ok r, w') ->
  self w' = set_training false (self w) /\ files w' = files w.
Proof.
  intros Hwf. unfold _pass_data, eval. rewrite bind_modify_self.
  set (w0 := set_self (set_training false (self w)) w).
  destruct (get_embedding_ data_ batch w0) as [[z|e] w1] eqn:E1.
  2:{ rewrite (bind_fail _ _ _ _ _ E1). discriminate. }
  rewrite (bind_ok _ _ _ _ _ E1).
  destruct (get_embedding_ok_self _ _ _ _ _ E1) as (Hs1 & Hn1 & Hd1 & Hf1).
  rewrite bind_get_self, bind_lift.
  destruct (np_split_mean _ z) as [z'|]; [|discriminate].
  rewrite bind_new_dict, bind_attach_hooks.
  set (k := (length (decoder_weights (self (set_dicts (dicts w1 ++ [[]]) w1))) - 1)%nat).
  set (hooks' := forward_hooks (self (set_dicts (dicts w1 ++ [[]]) w1))
                 ++ new_hooks (next_handle (set_dicts (dicts w1 ++ [[]]) w1))
                      (length (dicts w1)) (seq 0 k)).
  set (w3 := with_hooks hooks' _ _).
  destruct (forward_ data_ batch w3) as [[[[[rec ?] ?] ?]|e] w4] eqn:E2.
  2:{ rewrite (bind_fail _ _ _ _ _ E2). discriminate. }
  rewrite (bind_ok _ _ _ _ _ E2).
  assert (Hold : Forall (fun h => handle_id h < next_handle w1)%nat
                        (forward_hooks (self w1))).
  { rewrite Hs1, Hn1. exact Hwf. }
  assert (Hs4 : self w4 = self w3).
  { eapply forward_ok_self; [|exact E2].
    subst w3 hooks'. cbn [self next_handle with_hooks set_self set_next_handle
                          set_dicts forward_hooks set_forward_hooks].
    apply pass_hooks_wf. exact Hold. }
  assert (Hf4 : files w4 = files w).
  { pose proof (blind_forward exp randn Encoder_forward OntoDecoder_forward
                  classifier_forward data_ batch) as Hb.
    assert (Hfiles : forall wa, files (snd (forward_ data_ batch wa)) = files wa).
    { clear. intros wa. unfold forward.
      rewrite bind_get_self, bind_lift.
      destruct (attach_batch _ _ _ _); [|reflexivity].
      rewrite bind_call_encoder.
      destruct (Encoder_forward _ _ _ _) as [[mu lv]|]; [|reflexivity].
      rewrite bind_reparameterize.
      destruct (sample _ _ _ _ _); [|reflexivity].
      destruct (labels (attrs (self wa))).
      - rewrite bind_new_dict, bind_attach_hooks, bind_call_decoder. cbv zeta.
        destruct (snd (OntoDecoder_forward _ _ _ _ _ _ _)); [|reflexivity].
        rewrite bind_dict_values, bind_lift.
        destruct (pathway_activities _ _ _); [|reflexivity].
        rewrite bind_call_classifier.
        match goal with |- context [classifier (self ?W)] =>
          destruct (classifier (self W)) end; [|reflexivity].
        destruct (classifier_forward _ _); [|reflexivity].
        unfold bind. rewrite remove_hooks_eq. reflexivity.
      - rewrite bind_call_decoder. cbv zeta.
        destruct (snd (OntoDecoder_forward _ _ _ _ _ _ _)); reflexivity. }
    specialize (Hfiles w3). rewrite E2 in Hfiles. cbn [snd] in Hfiles.
    rewrite Hfiles. subst w3. cbn [files with_hooks set_next_handle set_self set_dicts].
    rewrite Hf1. reflexivity. }
  rewrite bind_dict_values, bind_lift.
  destruct (cat_dim1 _) as [act|]; [|discriminate].
  rewrite bind_lift.
  destruct (np_split_mean _ act) as [act'|]; [|discriminate].
  unfold bind at 1. rewrite remove_hooks_eq.
  assert (Hfin : self (set_self
                         (set_forward_hooks
                            (without_handles
                               (map snd (attach_dict (next_handle (set_dicts (dicts w1 ++ [[]]) w1))
                                                     (seq 0 (length (decoder_weights (self (set_dicts (dicts w1 ++ [[]]) w1))) - 1)) []))
                               (forward_hooks (self w4))) (self w4)) w4)
                 = set_training false (self w)).
  { cbn [self set_self]. rewrite Hs4. subst w3 hooks' k.
    cbn [self set_self with_hooks set_next_handle set_dicts forward_hooks
         set_forward_hooks next_handle decoder_weights].
    rewrite pass_hooks_removed by exact Hold.
    change (set_forward_hooks ?h (set_forward_hooks ?h' ?m))
      with (set_forward_hooks h m).
    rewrite set_forward_hooks_id. rewrite Hs1. reflexivity. }
  destruct (String.eqb output "act").
  - rewrite bind_lift. destruct (hstack z' act'); [|discriminate].
    unfold ret. intros H. injection H as _ <-.
    split; [exact Hfin | exact Hf4].
  - destruct (String.eqb output "rec"); unfold ret; intros H;
      injection H as _ <-; (split; [exact Hfin | exact Hf4]).
Qed.

End QueryFacts.

(** *** Perturbation against the ordinary reconstruction *)

Lemma nth_error_list_update {A} (i : nat) (v : A) (l : list A) :
  (i < length l)%nat -> nth_error (list_update i v l) i = Some v.
Proof.
  revert i. induction l as [|a l IH]; intros [|i] Hi; simpl in *; try lia.
  - reflexivity.
  - apply IH. lia.
Qed.

Lemma list_update_last {A} (l : list A) (a v : A) :
  list_update (length l) v (l ++ [a]) = l ++ [v].
Proof. induction l as [|b l IH]; simpl; [|rewrite IH]; reflexivity. Qed.

Lemma nth_error_last {A} (l : list A) (a : A) :
  nth_error (l ++ [a]) (length l) = Some a.
Proof. rewrite nth_error_app2, Nat.sub_diag by lia. reflexivity. Qed.

Lemma array_write_ret r a W :
  bind (array_write r a) (fun _ => ret tt) W
  = (Ok tt, set_arrays (list_update r a (arrays W)) W).
Proof. reflexivity. Qed.

Section Consistency.

Variable exp : Q -> Q.
Variable randn : nat -> nat -> nat -> Q.
Variable Encoder_forward :
  bool -> nat -> list tparam -> matrix -> result (matrix * matrix).
Variable OntoDecoder_forward :
  bool -> nat -> list tparam -> list tparam -> Attrs -> matrix ->
  option (list nat) -> list (nat * matrix) * result matrix.
Variable classifier_forward : list tparam -> matrix -> result matrix.

#[local] Abbreviation perturbation_ :=
  (perturbation exp randn Encoder_forward OntoDecoder_forward
                classifier_forward).
#[local] Abbreviation pass_data_ :=
  (_pass_data exp randn Encoder_forward OntoDecoder_forward
              classifier_forward).
#[local] Abbreviation get_reconstructed_values_ :=
  (get_reconstructed_values exp randn Encoder_forward OntoDecoder_forward
                            classifier_forward).

(** The gene filter of both paths on the value [_pass_data] returned. *)
Lemma perturbation_genes_run (ontobj : Ontobj) (dataset G : string) (V : Q)
  (batch : option (list nat)) (rec_genes : option (list string)) (w : World)
  (r idx : nat) (D D' : matrix) :
  String.eqb (ontology (attrs (self w))) (description ontobj) = true ->
  dataset_ref (self w) ontobj dataset = Ok r ->
  nth_error (arrays w) r = Some D ->
  list_index G (genes (attrs (self w))) = Ok idx ->
  set_col idx V D = Ok D' ->
  perturbation_ ontobj dataset [G] [V] batch "genes" None rec_genes w
  = (match fst (pass_data_ D' batch "rec" w) with
     | Raise e => Raise e
     | Ok res =>
         match rec_genes with
         | None => Ok res
         | Some gs =>
             (let! rec := subscript_none res in
              let! rec := subset_genes (self w) ontobj gs rec in
              Ok (Some rec))%res
         end
     end,
     set_arrays (arrays w ++ [D']) (snd (pass_data_ D' batch "rec" w))).
Proof.
  intros Hon Href HD Hidx Hcol. unfold perturbation.
  change (String.eqb "genes" "terms") with false.
  change (String.eqb "genes" " genes") with false.
  change (String.eqb "genes" "genes") with true.
  cbv iota. rewrite bind_get_self, Hon. cbn [negb].
  rewrite bind_lift, Href.
  unfold bind at 1. unfold array_copy at 1. rewrite HD.
  rewrite bind_lift. cbn [rmap]. rewrite Hidx.
  unfold bind at 1. cbn [perturb_loop nth_error].
  rewrite bind_array_read. cbn [arrays set_arrays].
  rewrite nth_error_last, bind_lift, Hcol.
  rewrite array_write_ret.
  cbn [arrays set_arrays]. rewrite list_update_last.
  rewrite bind_array_read. cbn [arrays set_arrays]. rewrite nth_error_last.
  rewrite bind_ret, bind_assoc.
  change (set_arrays ?a (set_arrays ?b ?w0)) with (set_arrays a w0).
  unfold bind at 1.
  rewrite (blind_pass_data exp randn Encoder_forward OntoDecoder_forward
             classifier_forward D' batch "rec" (arrays w ++ [D']) w).
  destruct (pass_data_ D' batch "rec" w) as [[res|e] w1]; cbn [fst snd];
    [|reflexivity].
  rewrite !bind_ret.
  destruct rec_genes as [gs|].
  - rewrite bind_assoc, bind_lift. cbn [unbound_res].
    rewrite bind_assoc, bind_lift.
    destruct (subscript_none res) as [rec|]; cbn [rbind]; [|reflexivity].
    rewrite bind_assoc, bind_lift.
    destruct (subset_genes _ _ _ _); cbn [rbind]; [|reflexivity].
    rewrite !bind_ret. reflexivity.
  - rewrite bind_ret. reflexivity.
Qed.

Lemma reconstructed_values_run (ontobj : Ontobj) (dataset : string)
  (batch : option (list nat)) (rec_genes : option (list string)) (w : World)
  (r : nat) (D' : matrix) :
  String.eqb (ontology (attrs (self w))) (description ontobj) = true ->
  dataset_ref (self w) ontobj dataset = Ok r ->
  nth_error (arrays w) r = Some D' ->
  get_reconstructed_values_ ontobj dataset batch rec_genes w
  = (match fst (pass_data_ D' batch "rec" w) with
     | Raise e => Raise e
     | Ok res =>
         match rec_genes with
         | None => Ok res
         | Some gs =>
             (let! rec := subscript_none res in
              let! rec := subset_genes (self w) ontobj gs rec in
              Ok (Some rec))%res
         end
     end,
     set_arrays (arrays w ++ [D']) (snd (pass_data_ D' batch "rec" w))).
Proof.
  intros Hon Href HD. unfold get_reconstructed_values.
  rewrite bind_get_self, Hon. cbn [negb].
  rewrite bind_lift, Href.
  unfold bind at 1. unfold array_copy at 1. rewrite HD.
  rewrite bind_array_read. cbn [arrays set_arrays]. rewrite nth_error_last.
  unfold bind at 1.
  rewrite (blind_pass_data exp randn Encoder_forward OntoDecoder_forward
             classifier_forward D' batch "rec" (arrays w ++ [D']) w).
  destruct (pass_data_ D' batch "rec" w) as [[res|e] w1]; cbn [fst snd];
    [|reflexivity].
  destruct rec_genes as [gs|].
  - rewrite bind_lift.
    destruct (subscript_none res) as [rec|]; cbn [rbind]; [|reflexivity].
    rewrite bind_lift.
    destruct (subset_genes _ _ _ _); cbn [rbind]; reflexivity.
  - reflexivity.
Qed.

(** C8, as the code has it.  For a gene [G] of the model's gene list and a
    value [V], with the random generator in the same state, [perturbation]
    with [genes=[G]], [values=[V]], [output='genes'] and no terms returns
    what the ordinary reconstruction path returns on the dataset whose
    column [G] has been set to [V] by hand.  The perturbation works on a
    copy: every array that existed before the call, the ontology object's
    stored dataset among them, is unchanged after it.  When it returns, the
    model object is as before (parameters, training-state flags, hooks)
    except that it is left in evaluation mode. *)
Theorem perturbation_consistency (ontobj : Ontobj) (dataset G : string)
  (V : Q) (batch : option (list nat)) (rec_genes : option (list string))
  (w : World) (r idx : nat) (D D' : matrix) :
  dataset_ref (self w) ontobj dataset = Ok r ->
  nth_error (arrays w) r = Some D ->
  list_index G (genes (attrs (self w))) = Ok idx ->
  set_col idx V D = Ok D' ->
  Forall (fun h => handle_id h < next_handle w)%nat (forward_hooks (self w)) ->
  fst (perturbation_ ontobj dataset [G] [V] batch "genes" None rec_genes w)
  = fst (get_reconstructed_values_ ontobj dataset batch rec_genes
           (set_arrays (list_update r D' (arrays w)) w)) /\
  (forall r0 a,
     nth_error (arrays w) r0 = Some a ->
     nth_error
       (arrays (snd (perturbation_ ontobj dataset [G] [V] batch "genes" None
                                   rec_genes w))) r0 = Some a) /\
  (is_ok (fst (perturbation_ ontobj dataset [G] [V] batch "genes" None
                             rec_genes w)) = true ->
   self (snd (perturbation_ ontobj dataset [G] [V] batch "genes" None
                            rec_genes w))
   = set_training false (self w)).
Proof.
  intros Href HD Hidx Hcol Hwf.
  destruct (String.eqb (ontology (attrs (self w))) (description ontobj)) eqn:Hon.
  - rewrite (perturbation_genes_run ontobj dataset G V batch rec_genes w r idx
               D D' Hon Href HD Hidx Hcol).
    assert (Hr : (r < length (arrays w))%nat)
      by (apply nth_error_Some; congruence).
    rewrite (reconstructed_values_run ontobj dataset batch rec_genes
               (set_arrays (list_update r D' (arrays w)) w) r D' Hon Href
               (nth_error_list_update r D' (arrays w) Hr)).
    rewrite (blind_pass_data exp randn Encoder_forward OntoDecoder_forward
               classifier_forward D' batch "rec").
    cbn [fst snd self set_arrays arrays]. repeat split.
    + intros r0 a Ha. rewrite nth_error_app1; [exact Ha|].
      apply nth_error_Some. congruence.
    + intros Hok.
      destruct (pass_data_ D' batch "rec" w) as [[res|e] w1] eqn:Ep;
        cbn [fst snd] in *; [|discriminate].
      apply (pass_data_ok_self exp randn Encoder_forward OntoDecoder_forward
               classifier_forward w D' batch "rec" res w1 Hwf Ep).
  - unfold perturbation, get_reconstructed_values.
    rewrite !bind_get_self. cbn [self set_arrays]. rewrite Hon. cbn [negb].
    unfold raise. cbn [fst snd is_ok]. repeat split.
    + intros r0 a Ha. exact Ha.
    + discriminate.
Qed.

End Consistency.

Lemma perturbation_consistency_witness :
  fst (perturbation exp_series toy_randn (toy_encoder 4) (toy_decoder [6; 3]%nat)
         toy_classifier toy_onto "train" ["g2"] [9] None "genes" None None
         (boot toy_plain toy_arrays []))
  = fst (get_reconstructed_values exp_series toy_randn (toy_encoder 4)
           (toy_decoder [6; 3]%nat) toy_classifier toy_onto "train" None None
           (set_arrays (list_update 0 [[1; 9; 3]; [4; 9; 6]]
                                    (arrays (boot toy_plain toy_arrays [])))
                       (boot toy_plain toy_arrays []))) /\
  (forall r0 a,
     nth_error (arrays (boot toy_plain toy_arrays [])) r0 = Some a ->
     nth_error
       (arrays (snd (perturbation exp_series toy_randn (toy_encoder 4)
                       (toy_decoder [6; 3]%nat) toy_classifier toy_onto "train"
                       ["g2"] [9] None "genes" None None
                       (boot toy_plain toy_arrays [])))) r0 = Some a) /\
  (is_ok (fst (perturbation exp_series toy_randn (toy_encoder 4)
                 (toy_decoder [6; 3]%nat) toy_classifier toy_onto "train"
                 ["g2"] [9] None "genes" None None
                 (boot toy_plain toy_arrays []))) = true ->
   self (snd (perturbation exp_series toy_randn (toy_encoder 4)
                (toy_decoder [6; 3]%nat) toy_classifier toy_onto "train"
                ["g2"] [9] None "genes" None None
                (boot toy_plain toy_arrays [])))
   = set_training false (self (boot toy_plain toy_arrays []))).
Proof.
  apply (perturbation_consistency exp_series toy_randn (toy_encoder 4)
           (toy_decoder [6; 3]%nat) toy_classifier toy_onto "train" "g2" 9
           None None (boot toy_plain toy_arrays []) 0%nat 1%nat toy_x
           [[1; 9; 3]; [4; 9; 6]]).
  - reflexivity.
  - reflexivity.
  - reflexivity.
  - reflexivity.
  - constructor.
Defined.

(** C8 as stated fails in its last clause: the perturbation changes the
    state of the model, which is in training mode after construction and in
    evaluation mode after the call. *)
Lemma perturbation_switches_to_eval :
  training (self (boot toy_plain toy_arrays [])) = true /\
  is_ok (fst (perturbation exp_series toy_randn (toy_encoder 4)
                (toy_decoder [6; 3]%nat) toy_classifier toy_onto "train"
                ["g2"] [9] None "genes" None None
                (boot toy_plain toy_arrays []))) = true /\
  training (self (snd (perturbation exp_series toy_randn (toy_encoder 4)
                         (toy_decoder [6; 3]%nat) toy_classifier toy_onto
                         "train" ["g2"] [9] None "genes" None None
                         (boot toy_plain toy_arrays []))))
  = false /\
  self (snd (perturbation exp_series toy_randn (toy_encoder 4)
               (toy_decoder [6; 3]%nat) toy_classifier toy_onto "train"
               ["g2"] [9] None "genes" None None
               (boot toy_plain toy_arrays [])))
  <> self (boot toy_plain toy_arrays []).
Proof.
  vm_compute. repeat split; try reflexivity. discriminate.
Qed.

(** ** More on construction *)

Section InitMore.

Variable Encoder_new : nat -> nat -> list nat -> Q -> Q -> list tparam.
Variable OntoDecoder_new :
  nat -> list nat -> list matrix -> nat -> nat -> option matrix -> nat ->
  list tparam * list matrix * list tparam.
Variable simple_classifier_new : nat -> nat -> list tparam.

#[local] Abbreviation init_ :=
  (init Encoder_new OntoDecoder_new simple_classifier_new).

(** What [__init__] leaves on a model built without checkpoint. *)
Lemma init_fresh ontobj dataset top_ bottom_ nn dr zdr labels_ batches_
  arrays_ files_ m :
  init_ ontobj dataset top_ bottom_ nn dr zdr labels_ batches_ None
        arrays_ files_ = Ok m ->
  VAE_trained m = false /\ clf_trained m = false /\ val_loss_min m = PInf /\
  training m = true /\
  labels (attrs m) = labels_ /\ batches (attrs m) = batches_ /\
  one_hot (attrs m)
  = match batches_ with
    | Some b => Some (eye (count_distinct b))
    | None => None
    end /\
  n_batch (attrs m)
  = match batches_ with Some b => count_distinct b | None => O end /\
  ontology (attrs m) = description ontobj /\
  top (attrs m) = top_ /\ bottom (attrs m) = bottom_ /\
  neuronnum (attrs m) = nn /\
  dict_get (thresh_key top_ bottom_) (o_genes ontobj) = Some (genes (attrs m)) /\
  exists Xarr,
    nth_error arrays_ (X (attrs m)) = Some Xarr /\
    y (attrs m) = match labels_ with
                  | Some l => l
                  | None => repeat 0%Z (n_rows Xarr)
                  end /\
    n_classes (attrs m) = count_distinct_Z (y (attrs m)).
Proof.
  unfold init, rbind, dict_item. intros H.
  destruct (dict_get (thresh_key top_ bottom_) (o_genes ontobj)) as [genes_|];
    [|discriminate].
  destruct (dict_get (thresh_key top_ bottom_) (o_masks ontobj)) as [masks_|];
    [|discriminate].
  destruct masks_ as [|m0 masks_]; [discriminate|].
  destruct (dict_get (thresh_key top_ bottom_) (o_data ontobj)) as [datasets|];
    [|discriminate].
  destruct (dict_get dataset datasets) as [X_|]; [|discriminate].
  destruct (nth_error arrays_ X_) as [Xarr|] eqn:EX; [|discriminate].
  cbv beta iota zeta in H.
  match type of H with
  | context [OntoDecoder_new ?a ?b ?c ?d ?e ?f ?g] =>
      destruct (OntoDecoder_new a b c d e f g) as [[dec_w dec_masks] dec_rest]
  end.
  injection H as <-. cbn.
  repeat split; try (destruct batches_; reflexivity).
  exists Xarr. repeat split. exact EX.
Qed.

End InitMore.

(** ** More on the loss *)

Lemma Qsquare_nonneg (c : Q) : 0 <= c * c.
Proof.
  destruct (Qlt_le_dec c 0) as [H|H].
  - setoid_replace (c * c) with ((- c) * (- c)) by ring.
    apply Qmult_le_0_compat; lra.
  - now apply Qmult_le_0_compat.
Qed.

Lemma Qsum_nonneg (l : list Q) : Forall (fun x => 0 <= x) l -> 0 <= Qsum l.
Proof.
  induction 1 as [|x l Hx _ IH]; simpl; [apply Qle_refl|].
  replace 0 with (0 + 0) by reflexivity. now apply Qplus_le_compat.
Qed.

Lemma Qsum_nonpos (l : list Q) : Forall (fun x => x <= 0) l -> Qsum l <= 0.
Proof.
  induction 1 as [|x l Hx _ IH]; simpl; [apply Qle_refl|].
  replace 0 with (0 + 0) by reflexivity. now apply Qplus_le_compat.
Qed.

Lemma tsum_nonneg (t : matrix) :
  Forall (Forall (fun x => 0 <= x)) t -> 0 <= tsum t.
Proof.
  intros H. apply Qsum_nonneg. apply Forall_map.
  eapply Forall_impl; [|exact H]. apply Qsum_nonneg.
Qed.

Lemma tsum_nonpos (t : matrix) :
  Forall (Forall (fun x => x <= 0)) t -> tsum t <= 0.
Proof.
  intros H. apply Qsum_nonpos. apply Forall_map.
  eapply Forall_impl; [|exact H]. apply Qsum_nonpos.
Qed.

Lemma zip_with_all {A B C} (P : C -> Prop) (f : A -> B -> C) :
  (forall a b, P (f a b)) ->
  forall l l' r, zip_with f l l' = Ok r -> Forall P r.
Proof.
  intros Hf l. induction l as [|a l IH]; intros [|b l'] r H; simpl in H;
    try discriminate.
  - injection H as <-. constructor.
  - destruct (zip_with f l l') as [t|] eqn:E; [|discriminate].
    injection H as <-. constructor; [apply Hf | eapply IH; eauto].
Qed.

Lemma zip_rows_all {A B C} (P : C -> Prop) (f : A -> B -> C) :
  (forall a b, P (f a b)) ->
  forall m m' r, zip_rows f m m' = Ok r -> Forall (Forall P) r.
Proof.
  intros Hf m. induction m as [|a m IH]; intros [|b m'] r H; simpl in H;
    try discriminate.
  - injection H as <-. constructor.
  - destruct (zip_with f a b) as [x|] eqn:E; [|discriminate].
    destruct (zip_rows f m m') as [t|] eqn:E'; [|discriminate].
    injection H as <-. constructor;
      [eapply zip_with_all; eauto | eapply IH; eauto].
Qed.

(** The loss of [vae_loss], lines 311-316, is never negative: the summand
    of the KL term is at most 0 for an exponential that lies above its
    tangent at 0, as the real one does, and the reconstruction term is a sum
    of squares. *)
Theorem vae_loss_nonneg (exp : Q -> Q)
  (reconstruction mu log_var data : matrix) (kl_coeff v : Q) :
  (forall l, 1 + l <= exp l) ->
  0 <= kl_coeff ->
  vae_loss exp reconstruction mu log_var data kl_coeff = Ok v ->
  0 <= v.
Proof.
  intros Hexp Hk. unfold vae_loss, rbind.
  destruct (zip_rows (kl_elem exp) log_var mu) as [t|] eqn:Et; [|discriminate].
  destruct (zip_rows sq_err reconstruction data) as [d|] eqn:Ed; [|discriminate].
  intros H. injection H as <-. rewrite torch_mean_scalar.
  assert (Hd : 0 <= tsum d).
  { apply tsum_nonneg. eapply zip_rows_all; [|exact Ed].
    intros a b. unfold sq_err. apply Qsquare_nonneg. }
  assert (Ht : tsum t <= 0).
  { apply tsum_nonpos. eapply zip_rows_all; [|exact Et].
    intros l m. unfold kl_elem. specialize (Hexp l).
    pose proof (Qsquare_nonneg m). lra. }
  assert (Hkl : 0 <= kl_coeff * (- (1 # 2) * tsum t)).
  { apply Qmult_le_0_compat; [exact Hk | lra]. }
  lra.
Qed.

Lemma vae_loss_nonneg_witness :
  exists v, vae_loss (fun l => 1 + l + l * l) [[1; 2]; [0; 3]] [[0]; [1]]
                     [[0]; [2]] [[0; 0]; [0; 1]] (1 # 2) = Ok v /\ 0 <= v.
Proof.
  eexists. split; [reflexivity|].
  apply (vae_loss_nonneg (fun l => 1 + l + l * l) [[1; 2]; [0; 3]] [[0]; [1]]
                         [[0]; [2]] [[0; 0]; [0; 1]] (1 # 2)).
  - intros l. pose proof (Qsquare_nonneg l). lra.
  - vm_compute. discriminate.
  - reflexivity.
Defined.

(** At the prior the KL term of [vae_loss] vanishes: with [mu] and
    [log_var] zero everywhere the loss is the summed squared reconstruction
    error, whatever [kl_coeff] is. *)
Theorem vae_loss_at_prior (exp : Q -> Q)
  (reconstruction mu log_var data : matrix) (kl_coeff v : Q) :
  exp 0 == 1 ->
  Forall (Forall (fun x => x = 0)) mu ->
  Forall (Forall (fun x => x = 0)) log_var ->
  vae_loss exp reconstruction mu log_var data kl_coeff = Ok v ->
  exists d, zip_rows sq_err reconstruction data = Ok d /\ v == tsum d.
Proof.
  intros Hexp Hmu Hlv. unfold vae_loss, rbind.
  destruct (zip_rows (kl_elem exp) log_var mu) as [t|] eqn:Et; [|discriminate].
  destruct (zip_rows sq_err reconstruction data) as [d|] eqn:Ed; [|discriminate].
  intros H. injection H as <-. exists d. split; [reflexivity|].
  rewrite torch_mean_scalar.
  assert (Ht : tsum t == 0).
  { clear Ed. revert mu t Hmu Et.
    induction Hlv as [|l ls Hl _ IH]; intros [|m ms] t Hmu Et; simpl in Et;
      try discriminate.
    - injection Et as <-. reflexivity.
    - destruct (zip_with (kl_elem exp) l m) as [x|] eqn:Ex; [|discriminate].
      destruct (zip_rows (kl_elem exp) ls ms) as [t'|] eqn:Et'; [|discriminate].
      injection Et as <-. inversion Hmu as [|? ? Hm Hms]; subst.
      unfold tsum. simpl. fold (tsum t'). rewrite (IH ms t' Hms Et').
      assert (Hx : Qsum x == 0).
      { clear - Hexp Hl Hm Ex. revert m x Hm Ex.
        induction Hl as [|a l Ha _ IHl]; intros [|b m] x Hm Ex; simpl in Ex;
          try discriminate.
        - injection Ex as <-. reflexivity.
        - destruct (zip_with (kl_elem exp) l m) as [x'|] eqn:Ex'; [|discriminate].
          injection Ex as <-. inversion Hm as [|? ? Hb Hm']; subst.
          simpl. rewrite (IHl m x' Hm' Ex'). unfold kl_elem.
          rewrite Hexp. ring. }
      rewrite Hx. ring. }
  rewrite Ht. ring.
Qed.

Lemma vae_loss_at_prior_witness :
  exists v, vae_loss exp_series [[1; 2]; [0; 3]] (zeros 2 1) (zeros 2 1)
                     [[0; 0]; [0; 1]] (1 # 2) = Ok v /\
  exists d, zip_rows sq_err [[1; 2]; [0; 3]] [[0; 0]; [0; 1]] = Ok d /\
            v == tsum d.
Proof.
  eexists. split; [reflexivity|].
  apply (vae_loss_at_prior exp_series [[1; 2]; [0; 3]] (zeros 2 1) (zeros 2 1)
                            [[0; 0]; [0; 1]] (1 # 2)).
  - reflexivity.
  - repeat constructor.
  - repeat constructor.
  - reflexivity.
Defined.

(** ** The batch code *)

Lemma nth_error_eye (n k : nat) :
  (k < n)%nat -> nth_error (eye n) k = Some (one_hot_code n k).
Proof.
  intros Hk. unfold eye.
  rewrite nth_error_map.
  rewrite (nth_error_nth' (seq 0 n) O) by (rewrite length_seq; exact Hk).
  rewrite seq_nth by exact Hk. reflexivity.
Qed.

Lemma nth_error_eye_out (n k : nat) :
  (n <= k)%nat -> nth_error (eye n) k = None.
Proof.
  intros Hk. apply nth_error_None. unfold eye.
  rewrite length_map, length_seq. exact Hk.
Qed.

Lemma take_rows_eye (n : nat) (b : list nat) :
  Forall (fun k => (k < n)%nat) b ->
  take_rows b (eye n) = Ok (map (one_hot_code n) b).
Proof.
  induction 1 as [|k b Hk _ IH]; simpl; [reflexivity|].
  rewrite (nth_error_eye n k Hk), IH. reflexivity.
Qed.

Lemma take_rows_eye_out (n k : nat) (b : list nat) :
  In k b -> (n <= k)%nat ->
  take_rows b (eye n) = Raise (IndexError "index is out of bounds for axis 0").
Proof.
  intros Hin Hk. induction b as [|k' b IH]; [contradiction|].
  simpl. destruct (nth_error (eye n) k') as [row|] eqn:E; [|reflexivity].
  destruct Hin as [->|Hin].
  - rewrite (nth_error_eye_out n k Hk) in E. discriminate.
  - rewrite (IH Hin). reflexivity.
Qed.

Lemma combine_map_r {A B C D} (f : A -> C -> D) (g : B -> C) (l : list A)
  (l' : list B) :
  map (fun p => f (fst p) (snd p)) (combine l (map g l'))
  = map (fun p => f (fst p) (g (snd p))) (combine l l').
Proof.
  revert l'. induction l as [|a l IH]; intros [|b l']; simpl;
    [reflexivity..|]. now rewrite IH.
Qed.

(** With batch labels, [forward] and [get_embedding] (lines 203-207 and
    179-183) extend every sample by the one-hot code of its batch: the row
    of [self.one_hot = torch.eye(n_batch)] selected by its label. *)
Theorem attach_batch_one_hot (m : COntoVAE) (e : exn) (x : matrix)
  (b : list nat) (n : nat) :
  one_hot (attrs m) = Some (eye n) ->
  length x = length b ->
  Forall (fun k => (k < n)%nat) b ->
  attach_batch m e x (Some b)
  = Ok (map (fun p => fst p ++ one_hot_code n (snd p)) (combine x b)).
Proof.
  intros Hoh Hlen Hb. unfold attach_batch, rbind. rewrite Hoh.
  rewrite (take_rows_eye n b Hb). unfold hstack.
  rewrite zip_with_ok by (rewrite length_map; exact Hlen).
  rewrite (combine_map_r (@app Q) (one_hot_code n)). reflexivity.
Qed.

Lemma attach_batch_one_hot_witness :
  attach_batch toy_batched none_has_no_to toy_x (Some [1%nat; 0%nat])
  = Ok [[1; 2; 3; 0; 1]; [4; 5; 6; 1; 0]].
Proof.
  apply (attach_batch_one_hot toy_batched none_has_no_to toy_x
                              [1%nat; 0%nat] 2).
  - reflexivity.
  - reflexivity.
  - repeat constructor.
Defined.

(** The batch labels index the rows of [torch.eye(n_batch)]: a label that is
    not below the number of batches makes the pass raise an [IndexError],
    also when the labels given at construction were, like [1, 2], not
    numbered from 0. *)
Theorem attach_batch_label_out_of_range (m : COntoVAE) (e : exn) (x : matrix)
  (b : list nat) (n k : nat) :
  one_hot (attrs m) = Some (eye n) ->
  In k b -> (n <= k)%nat ->
  exists msg, attach_batch m e x (Some b) = Raise (IndexError msg).
Proof.
  intros Hoh Hin Hk. unfold attach_batch, rbind. rewrite Hoh.
  rewrite (take_rows_eye_out n k b Hin Hk). eauto.
Qed.

Lemma attach_batch_label_out_of_range_witness :
  exists msg,
    attach_batch
      (or_blank (toy_init toy_onto "train" 1000 30 2 (1 # 5) (1 # 2)
                          None (Some [1%nat; 2%nat]) None toy_arrays []))
      none_has_no_to toy_x (Some [1%nat; 2%nat])
    = Raise (IndexError msg).
Proof.
  apply (attach_batch_label_out_of_range _ none_has_no_to toy_x
                                         [1%nat; 2%nat] 2 2).
  - reflexivity.
  - simpl. auto.
  - lia.
Defined.

Section BatchMore.

Variable exp : Q -> Q.
Variable randn : nat -> nat -> nat -> Q.
Variable Encoder_forward :
  bool -> nat -> list tparam -> matrix -> result (matrix * matrix).
Variable OntoDecoder_forward :
  bool -> nat -> list tparam -> list tparam -> Attrs -> matrix ->
  option (list nat) -> list (nat * matrix) * result matrix.
Variable classifier_forward : list tparam -> matrix -> result matrix.

(** A model that holds no one-hot table (it was built without batches and
    not from a batch-corrected checkpoint) rejects batch labels: [forward]
    and [get_embedding] raise the [AttributeError] of [None.to('cpu')]
    before anything is run or changed, and [get_classification], which
    subscripts the table directly, never returns either. *)
Theorem batch_without_one_hot (w : World) (x : matrix) (b : list nat) :
  one_hot (attrs (self w)) = None ->
  forward exp randn Encoder_forward OntoDecoder_forward classifier_forward
          x (Some b) w
  = (Raise (AttributeError "'NoneType' object has no attribute 'to'"), w) /\
  get_embedding exp randn Encoder_forward x (Some b) w
  = (Raise (AttributeError "'NoneType' object has no attribute 'to'"), w) /\
  forall ontobj dataset,
    exists e,
      fst (get_classification exp randn Encoder_forward OntoDecoder_forward
                              classifier_forward ontobj dataset (Some b) w)
      = Raise e.
Proof.
  intros Hoh.
  assert (Ha : forall e0 x0,
             attach_batch (self w) e0 x0 (Some b) = Raise e0).
  { intros e0 x0. unfold attach_batch, rbind. now rewrite Hoh. }
  repeat split.
  - unfold forward. rewrite bind_get_self, bind_lift, Ha. reflexivity.
  - unfold get_embedding. rewrite bind_get_self, bind_lift, Ha. reflexivity.
  - intros ontobj dataset. unfold get_classification.
    rewrite bind_get_self.
    destruct (negb (String.eqb (ontology (attrs (self w))) (description ontobj)));
      [simpl; eauto|].
    rewrite bind_lift.
    destruct (dataset_ref (self w) ontobj dataset) as [r|e0]; [|simpl; eauto].
    unfold bind at 1, array_copy.
    destruct (nth_error (arrays w) r) as [a|]; [|simpl; eauto].
    rewrite bind_array_read. cbn [arrays set_arrays].
    destruct (nth_error (arrays w ++ [a]) (length (arrays w))) as [a'|];
      [|simpl; eauto].
    rewrite bind_lift.
    change (self (set_arrays (arrays w ++ [a]) w)) with (self w).
    rewrite Ha. simpl. eauto.
Qed.

End BatchMore.

Lemma batch_without_one_hot_witness :
  toy_forward toy_x (Some [0%nat; 1%nat]) (boot toy_plain toy_arrays [])
  = (Raise (AttributeError "'NoneType' object has no attribute 'to'"),
     boot toy_plain toy_arrays []).
Proof.
  apply (batch_without_one_hot exp_series toy_randn (toy_encoder 4)
           (toy_decoder [6; 3]%nat) toy_classifier
           (boot toy_plain toy_arrays []) toy_x [0%nat; 1%nat]).
  reflexivity.
Defined.

(** ** The two computations of the pathway activities *)

Lemma chunks_go_enough (n : nat) :
  (0 < n)%nat ->
  forall (f f' : nat) (row : vec),
  (length row <= f)%nat -> (length row <= f')%nat ->
  chunks_go f n row = chunks_go f' n row.
Proof.
  intros Hn. induction f as [|f IH]; intros f' row Hf Hf'.
  - destruct row; [|simpl in Hf; lia]. destruct f'; reflexivity.
  - destruct row as [|a row]; [destruct f'; reflexivity|].
    destruct f' as [|f']; [simpl in Hf'; lia|].
    cbn [chunks_go]. f_equal.
    apply IH; rewrite length_skipn; cbn [length] in *; lia.
Qed.

Lemma chunks_go_app (n : nat) :
  (0 < n)%nat ->
  forall (T : nat) (r1 r2 : vec),
  length r1 = (T * n)%nat ->
  chunks_go (length (r1 ++ r2)) n (r1 ++ r2)
  = chunks_go (length r1) n r1 ++ chunks_go (length r2) n r2.
Proof.
  intros Hn. induction T as [|T IH]; intros r1 r2 Hlen.
  - destruct r1; [reflexivity | discriminate].
  - destruct r1 as [|a r1]; [simpl in Hlen; lia|].
    assert (Hge : (n <= length (a :: r1))%nat) by (rewrite Hlen; simpl; lia).
    cbn [app length]. cbn [chunks_go].
    change (a :: r1 ++ r2) with ((a :: r1) ++ r2).
    rewrite firstn_app, skipn_app.
    replace (n - length (a :: r1))%nat with O by lia.
    rewrite firstn_O, skipn_O, app_nil_r. cbn [app]. f_equal.
    assert (Hsk : length (skipn n (a :: r1)) = (T * n)%nat).
    { rewrite length_skipn, Hlen. simpl. lia. }
    rewrite (chunks_go_enough n Hn (length (r1 ++ r2))
               (length (skipn n (a :: r1) ++ r2)))
      by (rewrite !length_app, ?length_skipn; cbn [length]; lia).
    rewrite (IH _ r2 Hsk). f_equal.
    apply chunks_go_enough; [exact Hn | lia | rewrite length_skipn; cbn [length]; lia].
Qed.

Lemma multiple_of (n len : nat) :
  (0 < n)%nat -> Nat.modulo len n = O -> len = ((len / n) * n)%nat.
Proof.
  intros Hn Hm. pose proof (Nat.div_mod_eq len n) as H. rewrite Hm in H. lia.
Qed.

(** One row: the chunk means of the joined row are the chunk means of its
    two parts. *)
Lemma split_mean_row_app (n : nat) (r1 r2 : vec) :
  (0 < n)%nat ->
  r1 <> [] -> Nat.modulo (length r1) n = O ->
  r2 <> [] -> Nat.modulo (length r2) n = O ->
  exists m1 m2,
    np_split_mean_row n r1 = Ok m1 /\ np_split_mean_row n r2 = Ok m2 /\
    split_mean_row n (r1 ++ r2) = Ok (m1 ++ m2).
Proof.
  intros Hn Hne1 Hm1 Hne2 Hm2.
  exists (map chunk_mean (chunks_go (length r1) n r1)),
         (map chunk_mean (chunks_go (length r2) n r2)).
  destruct n as [|n']; [lia|].
  repeat split.
  - unfold np_split_mean_row. destruct r1; [congruence|].
    rewrite Hm1. reflexivity.
  - unfold np_split_mean_row. destruct r2; [congruence|].
    rewrite Hm2. reflexivity.
  - pose proof (multiple_of (S n') (length r1) Hn Hm1) as H1.
    pose proof (multiple_of (S n') (length r2) Hn Hm2) as H2.
    unfold split_mean_row, torch_split, rbind.
    destruct (r1 ++ r2) as [|a t] eqn:E.
    { destruct r1; [congruence | discriminate]. }
    rewrite <- E.
    destruct (chunks_go_spec (S n') Hn (length r1 / S n' + length r2 / S n')
                (r1 ++ r2) (length (r1 ++ r2))) as (HT & Hall & _).
    { rewrite length_app. lia. }
    { rewrite length_app. nia. }
    rewrite (stackable_same_length (S n')).
    + rewrite (chunks_go_app (S n') Hn _ r1 r2 H1), map_app. reflexivity.
    + intros Hnil. rewrite Hnil in HT. simpl in HT.
      destruct r1; [congruence|]. simpl in H1.
      destruct (S (length r1) / S n')%nat; simpl in *; lia.
    + exact Hall.
Qed.

(** The pathway activities are computed twice in the file: by [forward]
    with [torch.split] on the joined tensor (lines 230-232) and by
    [_pass_data] with [np.split] on the latent part and on the captured part
    before joining them (lines 606, 622-623 and 631).  On the same latent
    sample and the same captured outputs, with widths that are multiples of
    [neuronnum], the two give the same matrix. *)
Theorem activities_agree (n : nat) (z c : matrix) (vals : list matrix) :
  (0 < n)%nat ->
  cat_dim1 vals = Ok c ->
  length z = length c ->
  Forall (fun row => row <> [] /\ Nat.modulo (length row) n = O) z ->
  Forall (fun row => row <> [] /\ Nat.modulo (length row) n = O) c ->
  exists z' act',
    np_split_mean n z = Ok z' /\ np_split_mean n c = Ok act' /\
    pathway_activities n z vals = hstack z' act' /\
    is_ok (hstack z' act') = true.
Proof.
  intros Hn Hcat Hlen Hz Hc.
  unfold pathway_activities, rbind. rewrite Hcat. unfold hstack at 1.
  rewrite (zip_with_ok _ _ _ Hlen). unfold split_mean, np_split_mean.
  destruct n as [|n']; [lia|].
  clear Hcat. revert c Hlen Hc.
  induction Hz as [|r1 z [Hne1 Hm1] _ IH]; intros [|r2 c] Hlen Hc;
    try discriminate.
  - exists [], []. repeat split.
  - inversion Hc as [|? ? [Hne2 Hm2] Hc']; subst.
    destruct (IH c ltac:(simpl in Hlen; lia) Hc') as (z' & a' & E1 & E2 & E3 & E4).
    destruct (split_mean_row_app (S n') r1 r2 Hn Hne1 Hm1 Hne2 Hm2)
      as (m1 & m2 & F1 & F2 & F3).
    exists (m1 :: z'), (m2 :: a').
    cbn [rmap combine map fst snd]. rewrite F1, F2, F3, E1, E2, E3.
    unfold hstack in *. cbn [zip_with].
    destruct (zip_with (@app Q) z' a'); [|discriminate].
    repeat split.
Qed.

Lemma activities_agree_witness :
  exists z' act',
    np_split_mean 2 toy_z = Ok z' /\
    np_split_mean 2 (map (fun row => repeat (Qsum row) 6) toy_z) = Ok act' /\
    pathway_activities 2 toy_z [map (fun row => repeat (Qsum row) 6) toy_z]
    = hstack z' act' /\
    is_ok (hstack z' act') = true.
Proof.
  apply (activities_agree 2 toy_z (map (fun row => repeat (Qsum row) 6) toy_z)
                          [map (fun row => repeat (Qsum row) 6) toy_z]).
  - lia.
  - reflexivity.
  - reflexivity.
  - repeat constructor; discriminate.
  - repeat constructor; discriminate.
Defined.

(** ** The classification query *)

Lemma bind_array_copy {B} r (k : nat -> M B) w :
  bind (array_copy r) k w
  = match nth_error (arrays w) r with
    | Some a => k (length (arrays w)) (set_arrays (arrays w ++ [a]) w)
    | None => (Raise (RuntimeError "dangling array reference"), w)
    end.
Proof.
  unfold bind, array_copy. destruct (nth_error (arrays w) r); reflexivity.
Qed.

Section ClassificationFacts.

Variable exp : Q -> Q.
Variable randn : nat -> nat -> nat -> Q.
Variable Encoder_forward :
  bool -> nat -> list tparam -> matrix -> result (matrix * matrix).
Variable OntoDecoder_forward :
  bool -> nat -> list tparam -> list tparam -> Attrs -> matrix ->
  option (list nat) -> list (nat * matrix) * result matrix.
Variable classifier_forward : list tparam -> matrix -> result matrix.

#[local] Abbreviation get_classification_ :=
  (get_classification exp randn Encoder_forward OntoDecoder_forward
                      classifier_forward).

(** [get_classification], lines 241-300, when it returns: the hooks it
    attached are gone, the model is in evaluation mode and otherwise as it
    was, no checkpoint was written, and the dataset was read from a copy
    that is the only new array. *)
Theorem get_classification_restores_model (w : World) (ontobj : Ontobj)
  (dataset : string) (batch : option (list nat)) (y_pred : list nat)
  (w' : World) :
  Forall (fun h => handle_id h < next_handle w)%nat (forward_hooks (self w)) ->
  get_classification_ ontobj dataset batch w = (Ok y_pred, w') ->
  self w' = set_training false (self w) /\
  files w' = files w /\
  exists copy, arrays w' = arrays w ++ [copy].
Proof.
  intros Hwf. unfold get_classification, eval.
  rewrite bind_get_self.
  destruct (negb (String.eqb (ontology (attrs (self w))) (description ontobj)));
    [discriminate|].
  rewrite bind_lift.
  destruct (dataset_ref (self w) ontobj dataset) as [r|]; [|discriminate].
  rewrite bind_array_copy.
  destruct (nth_error (arrays w) r) as [a|]; [|discriminate].
  rewrite bind_array_read. cbn [arrays set_arrays]. rewrite nth_error_last.
  rewrite bind_lift.
  destruct (attach_batch _ _ _ _) as [x1|]; [|discriminate].
  rewrite bind_modify_self, bind_call_encoder.
  destruct (Encoder_forward _ _ _ _) as [[mu lv]|]; [|discriminate].
  rewrite bind_reparameterize.
  destruct (sample _ _ _ _ _) as [z|]; [|discriminate].
  rewrite bind_new_dict, bind_attach_hooks, bind_call_decoder. cbv zeta.
  destruct (snd (OntoDecoder_forward _ _ _ _ _ _ _)); [|discriminate].
  rewrite bind_dict_values, bind_lift.
  destruct (pathway_activities _ _ _); [|discriminate].
  rewrite bind_call_classifier.
  match goal with |- context [classifier (self ?W)] =>
    destruct (classifier (self W)) end; [|discriminate].
  destruct (classifier_forward _ _); [|discriminate].
  unfold bind at 1. rewrite remove_hooks_eq. unfold lift.
  destruct (rmap argmax_row _); [|discriminate].
  intros H. injection H as _ <-.
  cbn [self set_self files set_files set_dicts set_rng with_hooks
       set_next_handle set_arrays arrays next_handle dicts forward_hooks
       set_forward_hooks set_training decoder_weights].
  rewrite pass_hooks_removed by exact Hwf.
  repeat split. exists a. reflexivity.
Qed.

(** [get_classification] calls [self.classifier] whatever the model was
    built with: on a model without classifier head, such as every model
    built without labels and without checkpoint, it never returns. *)
Theorem get_classification_needs_classifier (w : World) (ontobj : Ontobj)
  (dataset : string) (batch : option (list nat)) :
  classifier (self w) = None ->
  exists e, fst (get_classification_ ontobj dataset batch w) = Raise e.
Proof.
  intros Hc. unfold get_classification, eval.
  rewrite bind_get_self.
  destruct (negb (String.eqb (ontology (attrs (self w))) (description ontobj)));
    [eexists; reflexivity|].
  cbv beta iota. rewrite bind_lift.
  destruct (dataset_ref (self w) ontobj dataset) as [r|]; [|eexists; reflexivity].
  rewrite bind_array_copy.
  destruct (nth_error (arrays w) r) as [a|]; [|eexists; reflexivity].
  rewrite bind_array_read. cbn [arrays set_arrays]. rewrite nth_error_last.
  rewrite bind_lift.
  destruct (attach_batch _ _ _ _) as [x1|]; [|eexists; reflexivity].
  rewrite bind_modify_self, bind_call_encoder.
  destruct (Encoder_forward _ _ _ _) as [[mu lv]|]; [|eexists; reflexivity].
  rewrite bind_reparameterize.
  destruct (sample _ _ _ _ _) as [z|]; [|eexists; reflexivity].
  rewrite bind_new_dict, bind_attach_hooks, bind_call_decoder. cbv zeta.
  destruct (snd (OntoDecoder_forward _ _ _ _ _ _ _)); [|eexists; reflexivity].
  rewrite bind_dict_values, bind_lift.
  destruct (pathway_activities _ _ _); [|eexists; reflexivity].
  rewrite bind_call_classifier.
  match goal with |- context [classifier (self ?W)] =>
    change (classifier (self W)) with (classifier (self w)) end.
  rewrite Hc. cbn [fst]. eauto.
Qed.

End ClassificationFacts.

Lemma get_classification_restores_model_witness :
  exists y_pred w',
    get_classification exp_series toy_randn (toy_encoder 4)
                       (toy_decoder [6; 3]%nat) toy_classifier
                       toy_onto "train" None toy_world = (Ok y_pred, w') /\
    self w' = set_training false (self toy_world) /\
    files w' = files toy_world /\
    exists copy, arrays w' = arrays toy_world ++ [copy].
Proof.
  eexists. eexists. split; [vm_compute; reflexivity|].
  eapply (get_classification_restores_model exp_series toy_randn
            (toy_encoder 4) (toy_decoder [6; 3]%nat) toy_classifier
            toy_world toy_onto "train" None).
  - constructor.
  - vm_compute. reflexivity.
Defined.

Lemma get_classification_needs_classifier_witness :
  exists e,
    fst (get_classification exp_series toy_randn (toy_encoder 4)
                            (toy_decoder [6; 3]%nat) toy_classifier
                            toy_onto "train" None
                            (boot toy_plain toy_arrays [])) = Raise e.
Proof.
  apply (get_classification_needs_classifier exp_series toy_randn
           (toy_encoder 4) (toy_decoder [6; 3]%nat) toy_classifier
           (boot toy_plain toy_arrays []) toy_onto "train" None).
  reflexivity.
Defined.

(** ** Checkpoints: saving and loading *)

Lemma dict_get_named_data (ps : list tparam) (p : tparam) :
  NoDup (map pname ps) -> In p ps ->
  dict_get (pname p) (named_data ps) = Some (data p).
Proof.
  induction ps as [|q ps IH]; intros Hnd Hin; [contradiction|].
  inversion Hnd as [|? ? Hq Hnd']; subst. cbn [named_data map dict_get].
  destruct Hin as [->|Hin].
  - now rewrite String.eqb_refl.
  - destruct (String.eqb (pname p) (pname q)) eqn:E.
    + apply String.eqb_eq in E. exfalso. apply Hq. rewrite <- E.
      now apply in_map.
    + now apply IH.
Qed.

Lemma load_group_like (sd : list (string * matrix)) (ps ps' : list tparam) :
  Forall2 like_param ps ps' ->
  (forall p, In p ps -> dict_get (pname p) sd = Some (data p)) ->
  named_data (fst (load_group sd ps')) = named_data ps /\
  snd (load_group sd ps') = false.
Proof.
  unfold load_group. cbn [fst snd].
  induction 1 as [|p p' ps ps' [Hn Hs] _ IH]; intros Hsd; [split; reflexivity|].
  destruct IH as [IH1 IH2]; [intros q Hq; apply Hsd; now right|].
  assert (Hp : load_param sd p' = (set_data p' (data p), false)).
  { unfold load_param. rewrite Hn, (Hsd p) by now left. now rewrite Hs. }
  cbn [map existsb named_data] in *. rewrite Hp, IH2. cbn [fst snd orb].
  split; [|reflexivity]. f_equal; [|exact IH1].
  cbn [set_data pname data]. now rewrite Hn.
Qed.

Lemma state_dict_groups (m : COntoVAE) :
  state_dict m
  = named_data (encoder_params m) ++ named_data (decoder_weights m)
    ++ named_data (decoder_rest m)
    ++ named_data (match classifier m with Some ps => ps | None => [] end).
Proof. unfold state_dict, parameters, named_data. now rewrite !map_app. Qed.

(** Loading the state dictionary of [m] into a model of the same
    architecture gives that model the parameter values of [m]. *)
Lemma load_state_dict_like (m m' : COntoVAE) :
  NoDup (map pname (parameters m)) ->
  same_architecture m m' ->
  snd (load_state_dict (state_dict m) m') = None /\
  state_dict (fst (load_state_dict (state_dict m) m')) = state_dict m.
Proof.
  intros Hnd (He & Hd & Hr & Hc).
  assert (Hget : forall p, In p (parameters m) ->
                           dict_get (pname p) (state_dict m) = Some (data p)).
  { intros p Hp. now apply dict_get_named_data. }
  unfold parameters in Hget.
  destruct (load_group_like (state_dict m) _ _ He) as [E1 E1'].
  { intros p Hp. apply Hget. apply in_or_app. now left. }
  destruct (load_group_like (state_dict m) _ _ Hd) as [E2 E2'].
  { intros p Hp. apply Hget. apply in_or_app. right. apply in_or_app. now left. }
  destruct (load_group_like (state_dict m) _ _ Hr) as [E3 E3'].
  { intros p Hp. apply Hget. apply in_or_app. right. apply in_or_app. right.
    apply in_or_app. now left. }
  unfold load_state_dict.
  destruct (load_group (state_dict m) (encoder_params m')) as [enc e1].
  destruct (load_group (state_dict m) (decoder_weights m')) as [dec e2].
  destruct (load_group (state_dict m) (decoder_rest m')) as [rest e3].
  cbn [fst snd] in *. subst e1 e2 e3.
  destruct (classifier m) as [ps|] eqn:Ecm, (classifier m') as [ps'|];
    try contradiction.
  - destruct (load_group_like (state_dict m) _ _ Hc) as [E4 E4'].
    { intros p Hp. apply Hget. apply in_or_app. right. apply in_or_app. right.
      apply in_or_app. now right. }
    destruct (load_group (state_dict m) ps') as [c e4].
    cbn [fst snd orb] in *. subst e4. split; [reflexivity|].
    rewrite !state_dict_groups. cbn [encoder_params decoder_weights decoder_rest
                                     classifier set_params].
    rewrite Ecm. congruence.
  - cbn [fst snd orb]. split; [reflexivity|].
    rewrite !state_dict_groups. cbn [encoder_params decoder_weights decoder_rest
                                     classifier set_params].
    rewrite Ecm. congruence.
Qed.

(** The files after the end of an epoch. *)
Lemma epoch_end_files (modelpath_ : string) (epoch : nat) (o : optimizer)
  (v : pyfloat) (train_param : list (string * Q)) (w : World) :
  fst (epoch_end modelpath_ epoch o v train_param w) = Ok tt /\
  files (snd (epoch_end modelpath_ epoch o v train_param w))
  = if pf_lt v (val_loss_min (self w))
    then (modelpath_,
          {| ck_epoch := epoch;
             ck_model_state_dict := state_dict (self w);
             ck_optimizer_state_dict := optimizer_state_dict o;
             ck_loss := v;
             ck_classifier_trained :=
               match labels (attrs (self w)) with Some _ => true | None => false end;
             ck_n_classes := n_classes (attrs (self w));
             ck_batch_corrected := Nat.ltb 0 (n_batch (attrs (self w)));
             ck_n_batch := n_batch (attrs (self w)) |}) :: files w
    else files w.
Proof.
  unfold epoch_end. rewrite bind_get_self.
  destruct (pf_lt v (val_loss_min (self w)));
    destruct (labels (attrs (self w))); cbn; split; reflexivity.
Qed.

(** The checkpoint written at the end of an epoch with a new best
    validation loss (lines 546-558) brings the parameters back: as long as
    no other file has been written, [load_model] of that path (lines
    784-793), on a model of the same architecture, returns and leaves the
    model with the state dictionary that was saved and with [VAE_trained]
    set; it also restores the best loss, unless the loading model has labels
    and the saved one had none. *)
Theorem checkpoint_round_trip (modelpath_ : string) (epoch : nat)
  (o : optimizer) (v : pyfloat) (train_param : list (string * Q))
  (w w2 : World) :
  pf_lt v (val_loss_min (self w)) = true ->
  NoDup (map pname (parameters (self w))) ->
  files w2 = files (snd (epoch_end modelpath_ epoch o v train_param w)) ->
  same_architecture (self w) (self w2) ->
  exists w3,
    load_model modelpath_ w2 = (Ok tt, w3) /\
    state_dict (self w3) = state_dict (self w) /\
    VAE_trained (self w3) = true /\
    ((labels (attrs (self w)) = None -> labels (attrs (self w2)) = None) ->
     val_loss_min (self w3) = v).
Proof.
  intros Hlt Hnd Hfiles Harch.
  destruct (epoch_end_files modelpath_ epoch o v train_param w) as [_ Hf].
  rewrite Hlt in Hf. rewrite Hf in Hfiles. clear Hf.
  destruct (load_state_dict_like (self w) (self w2) Hnd Harch) as [Hnone Hsd].
  destruct (load_state_dict_attrs (state_dict (self w)) (self w2))
    as (Ha & _).
  unfold load_model, torch_load. rewrite Hfiles.
  cbn [dict_get]. rewrite String.eqb_refl. cbn [ck_model_state_dict].
  destruct (load_state_dict (state_dict (self w)) (self w2)) as [m1 err].
  cbn [fst snd] in *. subst err.
  eexists. split; [reflexivity|].
  cbn [self set_self ck_classifier_trained ck_loss].
  change (attrs (set_VAE_trained true m1)) with (attrs m1). rewrite Ha.
  destruct (labels (attrs (self w2))) as [l2|] eqn:E2,
           (labels (attrs (self w))) as [l1|] eqn:E1;
    (split; [exact Hsd|]); (split; [reflexivity|]);
    intros H1; try reflexivity.
  specialize (H1 eq_refl). discriminate.
Qed.

Lemma checkpoint_round_trip_witness :
  let w := boot toy_labelled toy_arrays [] in
  let moved :=
    set_params (encoder_params toy_labelled)
               (map (fun p => set_data p (map (map (fun x => x + 1)) (data p)))
                    (decoder_weights toy_labelled))
               (decoder_rest toy_labelled) (classifier toy_labelled)
               toy_labelled in
  let w2 := set_self moved
              (snd (epoch_end "best.pt" 0 (new_optimizer (1 # 10) toy_labelled)
                              (Fin 7) [] w)) in
  state_dict moved <> state_dict toy_labelled /\
  exists w3,
    load_model "best.pt" w2 = (Ok tt, w3) /\
    state_dict (self w3) = state_dict (self w) /\
    VAE_trained (self w3) = true /\
    ((labels (attrs (self w)) = None -> labels (attrs (self w2)) = None) ->
     val_loss_min (self w3) = Fin 7).
Proof.
  intros w moved w2. split; [vm_compute; discriminate|].
  apply (checkpoint_round_trip "best.pt" 0
           (new_optimizer (1 # 10) toy_labelled) (Fin 7) [] w w2).
  - reflexivity.
  - vm_compute. repeat constructor; simpl; intuition discriminate.
  - reflexivity.
  - vm_compute. repeat split; repeat constructor.
Defined.

(** ** Construction and loading *)

Lemma count_distinct_Z_repeat (x : Z) (n : nat) :
  (count_distinct_Z (repeat x n) <= 1)%nat.
Proof.
  unfold count_distinct_Z. induction n as [|n IH]; simpl; [lia|].
  destruct (in_dec Z.eq_dec x (repeat x n)) as [Hin|Hout]; [exact IH|].
  destruct n as [|n]; [simpl; lia|].
  exfalso. apply Hout. now left.
Qed.

Section InitLoad.

Variable Encoder_new : nat -> nat -> list nat -> Q -> Q -> list tparam.
Variable OntoDecoder_new :
  nat -> list nat -> list matrix -> nat -> nat -> option matrix -> nat ->
  list tparam * list matrix * list tparam.
Variable simple_classifier_new : nat -> nat -> list tparam.

#[local] Abbreviation init_ :=
  (init Encoder_new OntoDecoder_new simple_classifier_new).

(** A model built without labels and without checkpoint (lines 100-104 and
    146-148): its targets are dummy zeros, one for every sample of the
    dataset, so it has at most one class and no classifier head; it is
    untrained, its best loss is infinite and it is in training mode. *)
Theorem init_without_labels ontobj dataset top_ bottom_ nn dr zdr batches_
  arrays_ files_ m :
  init Encoder_new OntoDecoder_new simple_classifier_new ontobj dataset
       top_ bottom_ nn dr zdr None batches_ None arrays_ files_ = Ok m ->
  classifier m = None /\
  (n_classes (attrs m) <= 1)%nat /\
  (exists Xarr, nth_error arrays_ (X (attrs m)) = Some Xarr /\
                y (attrs m) = repeat 0%Z (length Xarr)) /\
  VAE_trained m = false /\ clf_trained m = false /\
  val_loss_min m = PInf /\ training m = true.
Proof.
  intros H.
  destruct (init_fresh _ _ _ _ _ _ _ _ _ _ _ _ _ _ _ H)
    as (Hv & Hc & Hl & Ht & _ & _ & _ & _ & _ & _ & _ & _ & _ &
        Xarr & HX & Hy & Hn).
  destruct (init_classifier _ _ _ _ _ _ _ _ _ _ _ _ _ _ _ _ H)
    as (_ & _ & Hcl & _).
  assert (Hle : (n_classes (attrs m) <= 1)%nat).
  { rewrite Hn, Hy. apply count_distinct_Z_repeat. }
  repeat split; try assumption.
  - now apply Hcl.
  - exists Xarr. split; [exact HX | exact Hy].
Qed.

(** The best loss of a checkpoint of a model without labels
    ([classifier_trained] false) is restored by [load_model] on a model
    without labels (line 793) but not by [__init__] (lines 120-123), which
    leaves it infinite: after rebuilding from the checkpoint, the first
    epoch of further training with a finite validation loss overwrites the
    checkpoint. *)
Theorem best_loss_restored_by_load_model_only ontobj dataset top_ bottom_ nn
  dr zdr labels_ batches_ path arrays_ files_ ck m (w w' : World) :
  torch_load path files_ = Ok ck ->
  ck_classifier_trained ck = false ->
  init_ ontobj dataset top_ bottom_ nn dr zdr labels_ batches_ (Some path)
        arrays_ files_ = Ok m ->
  files w = files_ ->
  labels (attrs (self w)) = None ->
  load_model path w = (Ok tt, w') ->
  val_loss_min m = PInf /\ VAE_trained m = true /\ clf_trained m = false /\
  val_loss_min (self w') = ck_loss ck /\ VAE_trained (self w') = true /\
  forall modelpath_ epoch o q train_param,
    files (snd (epoch_end modelpath_ epoch o (Fin q) train_param
                          (set_self m w)))
    <> files w.
Proof.
  intros Hload Hct Hinit Hfiles Hl Hlm.
  assert (Hm : val_loss_min m = PInf /\ VAE_trained m = true /\
               clf_trained m = false).
  { revert Hinit. unfold init, rbind, dict_item.
    destruct (dict_get (thresh_key top_ bottom_) (o_genes ontobj)) as [genes_|];
      [|discriminate].
    destruct (dict_get (thresh_key top_ bottom_) (o_masks ontobj)) as [masks_|];
      [|discriminate].
    destruct masks_ as [|m0 masks_]; [discriminate|].
    destruct (dict_get (thresh_key top_ bottom_) (o_data ontobj)) as [datasets|];
      [|discriminate].
    destruct (dict_get dataset datasets) as [X_|]; [|discriminate].
    destruct (nth_error arrays_ X_) as [Xarr|]; [|discriminate].
    rewrite Hload. cbv beta iota zeta. rewrite Hct.
    match goal with
    | |- context [OntoDecoder_new ?a ?b ?c ?d ?e ?f ?g] =>
        destruct (OntoDecoder_new a b c d e f g) as [[dec_w dec_masks] dec_rest]
    end.
    match goal with
    | |- match load_state_dict ?sd ?m1 with _ => _ end = _ -> _ =>
        pose proof (load_state_dict_attrs sd m1) as (_ & _ & Hv & Hc & Hvl & _);
        destruct (load_state_dict sd m1) as [m' [e|]]; [discriminate|]
    end.
    intros H. injection H as <-. cbn [fst] in *.
    rewrite Hv, Hc, Hvl. repeat split. }
  destruct Hm as (Hm1 & Hm2 & Hm3).
  assert (Hw' : val_loss_min (self w') = ck_loss ck /\
                VAE_trained (self w') = true).
  { revert Hlm. unfold load_model. rewrite Hfiles, Hload.
    pose proof (load_state_dict_attrs (ck_model_state_dict ck) (self w))
      as (Ha & _).
    destruct (load_state_dict (ck_model_state_dict ck) (self w)) as [m1 [e|]];
      [discriminate|].
    cbn [fst] in Ha.
    change (attrs (set_VAE_trained true m1)) with (attrs m1).
    rewrite Ha, Hl. intros H. injection H as <-. split; reflexivity. }
  destruct Hw' as [Hw1 Hw2].
  repeat split; try assumption.
  intros modelpath_ epoch o q train_param.
  destruct (epoch_end_files modelpath_ epoch o (Fin q) train_param
                            (set_self m w)) as [_ Hf].
  rewrite Hf. cbn [self set_self files]. rewrite Hm1. cbn [pf_lt].
  intros Heq. apply (f_equal (@length _)) in Heq. simpl in Heq. lia.
Qed.

End InitLoad.

Lemma init_without_labels_witness :
  classifier toy_plain = None /\
  (n_classes (attrs toy_plain) <= 1)%nat /\
  (exists Xarr, nth_error toy_arrays (X (attrs toy_plain)) = Some Xarr /\
                y (attrs toy_plain) = repeat 0%Z (length Xarr)) /\
  VAE_trained toy_plain = false /\ clf_trained toy_plain = false /\
  val_loss_min toy_plain = PInf /\ training toy_plain = true.
Proof.
  apply (init_without_labels toy_Encoder_new toy_OntoDecoder_new
           toy_classifier_new toy_onto "train" 1000%nat 30%nat 2%nat
           (1 # 5) (1 # 2) None toy_arrays []).
  reflexivity.
Defined.

Lemma best_loss_restored_by_load_model_only_witness :
  val_loss_min toy_rebuilt = PInf /\ VAE_trained toy_rebuilt = true /\
  clf_trained toy_rebuilt = false /\
  val_loss_min
    (self (snd (load_model "vae.pt"
                  (boot toy_plain toy_arrays [("vae.pt", toy_vae_checkpoint)]))))
  = Fin 1 /\
  VAE_trained
    (self (snd (load_model "vae.pt"
                  (boot toy_plain toy_arrays [("vae.pt", toy_vae_checkpoint)]))))
  = true /\
  forall modelpath_ epoch o q train_param,
    files (snd (epoch_end modelpath_ epoch o (Fin q) train_param
                  (set_self toy_rebuilt
                     (boot toy_plain toy_arrays
                           [("vae.pt", toy_vae_checkpoint)]))))
    <> files (boot toy_plain toy_arrays [("vae.pt", toy_vae_checkpoint)]).
Proof.
  apply (best_loss_restored_by_load_model_only
           toy_Encoder_new toy_OntoDecoder_new toy_classifier_new
           toy_onto "train" 1000%nat 30%nat 2%nat (1 # 5) (1 # 2)
           None None "vae.pt" toy_arrays [("vae.pt", toy_vae_checkpoint)]
           toy_vae_checkpoint toy_rebuilt
           (boot toy_plain toy_arrays [("vae.pt", toy_vae_checkpoint)])
           (snd (load_model "vae.pt"
                   (boot toy_plain toy_arrays [("vae.pt", toy_vae_checkpoint)])))).
  - reflexivity.
  - reflexivity.
  - vm_compute. reflexivity.
  - reflexivity.
  - reflexivity.
  - vm_compute. reflexivity.
Defined.

(** [load_model], lines 776-793, loads parameter values only: whatever the
    checkpoint says about classes and batches, the attributes of the model
    stay as [__init__] set them and no classifier head is created or
    removed (unlike [__init__] with [modelpath], which takes [n_classes]
    and [n_batch] from the checkpoint).  [VAE_trained] is set exactly when
    the call returns; the mode, the hooks and the files are untouched. *)
Theorem load_model_keeps_architecture (modelpath_ : string) (w : World) :
  attrs (self (snd (load_model modelpath_ w))) = attrs (self w) /\
  (classifier (self (snd (load_model modelpath_ w))) = None <-> classifier (self w) = None) /\
  VAE_trained (self (snd (load_model modelpath_ w)))
  = (if is_ok (fst (load_model modelpath_ w)) then true
     else VAE_trained (self w)) /\
  training (self (snd (load_model modelpath_ w))) = training (self w) /\
  forward_hooks (self (snd (load_model modelpath_ w))) = forward_hooks (self w) /\
  files (snd (load_model modelpath_ w)) = files w.
Proof.
  unfold load_model.
  destruct (torch_load modelpath_ (files w)) as [ck|e] eqn:El.
  - pose proof (load_state_dict_attrs (ck_model_state_dict ck) (self w))
      as (Ha & Hh & Hv & _ & _ & Ht & Hc).
    destruct (load_state_dict (ck_model_state_dict ck) (self w)) as [m1 [e|]];
      cbn [fst snd] in *.
    + cbn [self set_self files is_ok]. repeat split; try tauto; try congruence;
        discriminate.
    + change (attrs (set_VAE_trained true m1)) with (attrs m1).
      destruct (labels (attrs m1)); [destruct (ck_classifier_trained ck)|];
        cbn; repeat split; try tauto; try congruence; discriminate.
  - cbn. repeat split; tauto.
Qed.

(** ** The query methods *)

Lemma eqb_false_of_neq (a b : string) : a <> b -> String.eqb a b = false.
Proof. intros H. now apply String.eqb_neq. Qed.

Lemma term_index_as_set (annot : list (nat * string)) (ts ts' : list string) :
  (forall t, In t ts <-> In t ts') ->
  term_index annot ts = term_index annot ts'.
Proof.
  intros H. unfold term_index. f_equal. apply filter_ext_eq. intros row.
  destruct (existsb (String.eqb (snd row)) ts) eqn:E.
  - apply existsb_exists in E as (t & Hin & Ht). symmetry.
    apply existsb_exists. exists t. split; [now apply H | exact Ht].
  - destruct (existsb (String.eqb (snd row)) ts') eqn:E'; [|reflexivity].
    apply existsb_exists in E' as (t & Hin & Ht).
    assert (Hc : existsb (String.eqb (snd row)) ts = true).
    { apply existsb_exists. exists t. split; [now apply H | exact Ht]. }
    congruence.
Qed.

Lemma perturb_loop_frame (r : nat) (values : list Q) (indices : list nat) :
  forall i w,
  self (snd (perturb_loop r i indices values w)) = self w /\
  rng (snd (perturb_loop r i indices values w)) = rng w.
Proof.
  induction indices as [|ix rest IH]; intros i w; [split; reflexivity|].
  cbn [perturb_loop]. destruct (nth_error values i) as [v|]; [|split; reflexivity].
  rewrite bind_array_read.
  destruct (nth_error (arrays w) r) as [a|]; [|split; reflexivity].
  rewrite bind_lift. destruct (set_col ix v a) as [a'|]; [|split; reflexivity].
  unfold bind at 1, array_write. cbv beta iota.
  exact (IH (S i) (set_arrays (list_update r a' (arrays w)) w)).
Qed.

Lemma perturb_loop_short (r : nat) (values : list Q) (indices : list nat) :
  forall i w,
  (i <= length values)%nat -> (length values < i + length indices)%nat ->
  exists e, fst (perturb_loop r i indices values w) = Raise e.
Proof.
  induction indices as [|ix rest IH]; intros i w Hi Hlen;
    [simpl in Hlen; lia|].
  cbn [perturb_loop]. destruct (nth_error values i) as [v|] eqn:Ev;
    [|eexists; reflexivity].
  assert (Hlt : (i < length values)%nat).
  { apply nth_error_Some. congruence. }
  rewrite bind_array_read.
  destruct (nth_error (arrays w) r) as [a|]; [|eexists; reflexivity].
  rewrite bind_lift. destruct (set_col ix v a) as [a'|]; [|eexists; reflexivity].
  unfold bind at 1, array_write. cbv beta iota.
  apply IH; [lia | simpl in Hlen; lia].
Qed.

Section QueryMore.

Variable exp : Q -> Q.
Variable randn : nat -> nat -> nat -> Q.
Variable Encoder_forward :
  bool -> nat -> list tparam -> matrix -> result (matrix * matrix).
Variable OntoDecoder_forward :
  bool -> nat -> list tparam -> list tparam -> Attrs -> matrix ->
  option (list nat) -> list (nat * matrix) * result matrix.
Variable classifier_forward : list tparam -> matrix -> result matrix.

#[local] Abbreviation pass_data_ :=
  (_pass_data exp randn Encoder_forward OntoDecoder_forward
              classifier_forward).
#[local] Abbreviation get_classification_ :=
  (get_classification exp randn Encoder_forward OntoDecoder_forward
                      classifier_forward).
#[local] Abbreviation get_pathway_activities_ :=
  (get_pathway_activities exp randn Encoder_forward OntoDecoder_forward
                          classifier_forward).
#[local] Abbreviation get_reconstructed_values_ :=
  (get_reconstructed_values exp randn Encoder_forward OntoDecoder_forward
                            classifier_forward).
#[local] Abbreviation perturbation_ :=
  (perturbation exp randn Encoder_forward OntoDecoder_forward
                classifier_forward).

(** Every query method first compares the ontology of the model with the
    description of the [Ontobj] it is given (lines 250, 651, 687, 739).  On
    a mismatch nothing is read or changed; [get_pathway_activities],
    [get_reconstructed_values] and [perturbation] raise a [ValueError],
    while [get_classification] calls [sys.exit], which raises [SystemExit]
    with the same message. *)
Theorem wrong_ontology_rejected (w : World) (ontobj : Ontobj)
  (dataset : string) (batch : option (list nat))
  (terms rec_genes : option (list string)) (genes_ : list string)
  (values : list Q) (output : string) :
  ontology (attrs (self w)) <> description ontobj ->
  get_classification_ ontobj dataset batch w
  = (Raise (SystemExit ("Wrong ontology provided, should be "
                        ++ ontology (attrs (self w)))), w) /\
  get_pathway_activities_ ontobj dataset batch terms w
  = (Raise (ValueError ("Wrong ontology provided, should be "
                        ++ ontology (attrs (self w)))), w) /\
  get_reconstructed_values_ ontobj dataset batch rec_genes w
  = (Raise (ValueError ("Wrong ontology provided, should be "
                        ++ ontology (attrs (self w)))), w) /\
  perturbation_ ontobj dataset genes_ values batch output terms rec_genes w
  = (Raise (ValueError ("Wrong ontology provided, should be "
                        ++ ontology (attrs (self w)))), w).
Proof.
  intros Hne. apply eqb_false_of_neq in Hne.
  unfold get_classification, get_pathway_activities, get_reconstructed_values,
    perturbation.
  rewrite !bind_get_self, Hne. repeat split.
Qed.

(** [get_reconstructed_values] with an empty list of genes never returns:
    [np.array([])] is an array of floats, which cannot index the columns
    (line 703).  (With [rec_genes=None] all genes are returned.) *)
Theorem reconstructed_values_of_no_genes (w : World) (ontobj : Ontobj)
  (dataset : string) (batch : option (list nat)) :
  exists e,
    fst (get_reconstructed_values_ ontobj dataset batch (Some []) w) = Raise e.
Proof.
  unfold get_reconstructed_values. rewrite bind_get_self.
  destruct (negb (String.eqb (ontology (attrs (self w))) (description ontobj)));
    [eexists; reflexivity|].
  cbv beta iota. rewrite bind_lift.
  destruct (dataset_ref (self w) ontobj dataset) as [r|]; [|eexists; reflexivity].
  rewrite bind_array_copy.
  destruct (nth_error (arrays w) r) as [a|]; [|eexists; reflexivity].
  rewrite bind_array_read. cbn [arrays set_arrays]. rewrite nth_error_last.
  mstep (pass_data_ a batch "rec") (set_arrays (arrays w ++ [a]) w)
    as res e w1; [|eexists; reflexivity].
  rewrite bind_lift. destruct (subscript_none res) as [rec|];
    [|eexists; reflexivity].
  rewrite bind_lift. unfold subset_genes, rbind.
  destruct (dict_item _ _); eexists; reflexivity.
Qed.

(** The term filter of [get_pathway_activities] (lines 663-667) selects by
    membership ([annot.ID.isin(terms)]): the columns come in the order of
    the annotation table, so two lists with the same terms, in any order and
    with any repetitions, give the same result. *)
Theorem pathway_terms_as_set (w : World) (ontobj : Ontobj) (dataset : string)
  (batch : option (list nat)) (ts ts' : list string) :
  (forall t, In t ts <-> In t ts') ->
  get_pathway_activities_ ontobj dataset batch (Some ts) w
  = get_pathway_activities_ ontobj dataset batch (Some ts') w.
Proof.
  intros Hset. unfold get_pathway_activities. rewrite !bind_get_self.
  destruct (negb (String.eqb (ontology (attrs (self w))) (description ontobj)));
    [reflexivity|].
  rewrite !bind_lift.
  destruct (dataset_ref (self w) ontobj dataset) as [r|]; [|reflexivity].
  rewrite !bind_array_copy.
  destruct (nth_error (arrays w) r) as [a|]; [|reflexivity].
  rewrite !bind_array_read. cbn [arrays set_arrays]. rewrite nth_error_last.
  mstep (pass_data_ a batch "act") (set_arrays (arrays w ++ [a]) w)
    as res e w1; [|reflexivity].
  rewrite !bind_lift. destruct (subscript_none res) as [act|]; [|reflexivity].
  rewrite !bind_lift. unfold subset_terms, rbind.
  destruct (dict_item _ _) as [annot|]; [|reflexivity].
  rewrite (term_index_as_set annot ts ts' Hset). reflexivity.
Qed.

(** [perturbation] assigns its result only for [output='terms'] and
    [output='genes'] (lines 755-758).  With any other value of [output] it
    never returns, and it fails without having run the model: the model
    object and the random generator are as before. *)
Theorem perturbation_unknown_output (w : World) (ontobj : Ontobj)
  (dataset : string) (genes_ : list string) (values : list Q)
  (batch : option (list nat)) (output : string)
  (terms rec_genes : option (list string)) :
  output <> "terms" -> output <> "genes" ->
  (exists e,
     fst (perturbation_ ontobj dataset genes_ values batch output terms
                        rec_genes w) = Raise e) /\
  self (snd (perturbation_ ontobj dataset genes_ values batch output terms
                           rec_genes w)) = self w /\
  rng (snd (perturbation_ ontobj dataset genes_ values batch output terms
                          rec_genes w)) = rng w.
Proof.
  intros Ht Hg. apply eqb_false_of_neq in Ht, Hg.
  unfold perturbation. rewrite Ht, Hg. rewrite bind_get_self.
  destruct (negb (String.eqb (ontology (attrs (self w))) (description ontobj)));
    [repeat split; eexists; reflexivity|].
  cbv beta iota. rewrite bind_lift.
  destruct (dataset_ref (self w) ontobj dataset) as [r|];
    [|repeat split; eexists; reflexivity].
  rewrite bind_array_copy.
  destruct (nth_error (arrays w) r) as [a|];
    [|repeat split; eexists; reflexivity].
  rewrite bind_lift.
  destruct (rmap _ genes_) as [indices|];
    [|repeat split; eexists; reflexivity].
  pose proof (perturb_loop_frame (length (arrays w)) values indices O
                (set_arrays (arrays w ++ [a]) w)) as [Hs Hr].
  destruct (perturb_loop (length (arrays w)) 0 indices values
              (set_arrays (arrays w ++ [a]) w)) as [[u|e] w1] eqn:E;
    [rewrite (bind_ok _ _ _ _ _ E) | rewrite (bind_fail _ _ _ _ _ E)];
    cbn [fst snd] in Hs, Hr; cbn [self rng set_arrays] in Hs, Hr;
    [|repeat split; [eexists; reflexivity | exact Hs | exact Hr]].
  rewrite bind_array_read.
  destruct (nth_error (arrays w1) (length (arrays w))) as [data_|];
    [|repeat split; [eexists; reflexivity | exact Hs | exact Hr]].
  rewrite !bind_ret.
  destruct (if String.eqb output " genes" then None else terms) as [ts|].
  - rewrite bind_assoc, bind_lift. cbn [unbound_res].
    repeat split; [eexists; reflexivity | exact Hs | exact Hr].
  - rewrite bind_ret. destruct rec_genes as [gs|].
    + rewrite bind_assoc, bind_lift. cbn [unbound_res].
      repeat split; [eexists; reflexivity | exact Hs | exact Hr].
    + rewrite bind_ret. unfold lift. cbn [unbound_res fst snd].
      repeat split; [eexists; reflexivity | exact Hs | exact Hr].
Qed.

(** [perturbation] with fewer values than genes never returns: once the
    values are used up, [values[i]] raises an [IndexError] (line 749),
    unless a step before it has failed. *)
Theorem perturbation_too_few_values (w : World) (ontobj : Ontobj)
  (dataset : string) (genes_ : list string) (values : list Q)
  (batch : option (list nat)) (output : string)
  (terms rec_genes : option (list string)) :
  (length values < length genes_)%nat ->
  exists e,
    fst (perturbation_ ontobj dataset genes_ values batch output terms
                       rec_genes w) = Raise e.
Proof.
  intros Hlen. unfold perturbation. rewrite bind_get_self.
  destruct (negb (String.eqb (ontology (attrs (self w))) (description ontobj)));
    [eexists; reflexivity|].
  cbv beta iota. rewrite bind_lift.
  destruct (dataset_ref (self w) ontobj dataset) as [r|]; [|eexists; reflexivity].
  rewrite bind_array_copy.
  destruct (nth_error (arrays w) r) as [a|]; [|eexists; reflexivity].
  rewrite bind_lift.
  destruct (rmap _ genes_) as [indices|] eqn:Ei; [|eexists; reflexivity].
  assert (Hli : length indices = length genes_).
  { clear - Ei. revert indices Ei.
    induction genes_ as [|g gs IH]; intros indices Ei; simpl in Ei.
    - injection Ei as <-. reflexivity.
    - destruct (list_index g _); [|discriminate].
      destruct (rmap _ gs) as [t|]; [|discriminate].
      injection Ei as <-. simpl. now rewrite (IH t eq_refl). }
  destruct (perturb_loop_short (length (arrays w)) values indices O
              (set_arrays (arrays w ++ [a]) w)) as [e He]; [lia | lia |].
  destruct (perturb_loop (length (arrays w)) 0 indices values
              (set_arrays (arrays w ++ [a]) w)) as [[u|e'] w1] eqn:E;
    [discriminate|].
  rewrite (bind_fail _ _ _ _ _ E). eexists. reflexivity.
Qed.

End QueryMore.

Lemma wrong_ontology_rejected_witness :
  get_classification exp_series toy_randn (toy_encoder 4)
                     (toy_decoder [6; 3]%nat) toy_classifier
                     other_onto "train" None toy_world
  = (Raise (SystemExit ("Wrong ontology provided, should be "
                        ++ ontology (attrs (self toy_world)))), toy_world) /\
  get_pathway_activities exp_series toy_randn (toy_encoder 4)
                         (toy_decoder [6; 3]%nat) toy_classifier
                         other_onto "train" None None toy_world
  = (Raise (ValueError ("Wrong ontology provided, should be "
                        ++ ontology (attrs (self toy_world)))), toy_world) /\
  get_reconstructed_values exp_series toy_randn (toy_encoder 4)
                           (toy_decoder [6; 3]%nat) toy_classifier
                           other_onto "train" None None toy_world
  = (Raise (ValueError ("Wrong ontology provided, should be "
                        ++ ontology (attrs (self toy_world)))), toy_world) /\
  perturbation exp_series toy_randn (toy_encoder 4) (toy_decoder [6; 3]%nat)
               toy_classifier other_onto "train" ["g2"] [9] None "genes"
               None None toy_world
  = (Raise (ValueError ("Wrong ontology provided, should be "
                        ++ ontology (attrs (self toy_world)))), toy_world).
Proof.
  apply (wrong_ontology_rejected exp_series toy_randn (toy_encoder 4)
           (toy_decoder [6; 3]%nat) toy_classifier toy_world other_onto
           "train" None None None ["g2"] [9] "genes").
  vm_compute. discriminate.
Defined.

Lemma pathway_terms_as_set_witness :
  get_pathway_activities exp_series toy_randn (toy_encoder 4)
                         (toy_decoder [6; 3]%nat) toy_classifier
                         toy_onto "train" None (Some ["T1"; "T3"])
                         (boot toy_plain toy_arrays [])
  = get_pathway_activities exp_series toy_randn (toy_encoder 4)
                           (toy_decoder [6; 3]%nat) toy_classifier
                           toy_onto "train" None (Some ["T3"; "T1"; "T1"])
                           (boot toy_plain toy_arrays []).
Proof.
  apply (pathway_terms_as_set exp_series toy_randn (toy_encoder 4)
           (toy_decoder [6; 3]%nat) toy_classifier
           (boot toy_plain toy_arrays []) toy_onto "train" None
           ["T1"; "T3"] ["T3"; "T1"; "T1"]).
  intros t. simpl. tauto.
Defined.

Lemma perturbation_unknown_output_witness :
  (exists e,
     fst (perturbation exp_series toy_randn (toy_encoder 4)
                       (toy_decoder [6; 3]%nat) toy_classifier
                       toy_onto "train" ["g2"] [9] None "gene" None None
                       (boot toy_plain toy_arrays [])) = Raise e) /\
  self (snd (perturbation exp_series toy_randn (toy_encoder 4)
                          (toy_decoder [6; 3]%nat) toy_classifier
                          toy_onto "train" ["g2"] [9] None "gene" None None
                          (boot toy_plain toy_arrays []))) = toy_plain /\
  rng (snd (perturbation exp_series toy_randn (toy_encoder 4)
                         (toy_decoder [6; 3]%nat) toy_classifier
                         toy_onto "train" ["g2"] [9] None "gene" None None
                         (boot toy_plain toy_arrays []))) = O.
Proof.
  apply (perturbation_unknown_output exp_series toy_randn (toy_encoder 4)
           (toy_decoder [6; 3]%nat) toy_classifier
           (boot toy_plain toy_arrays []) toy_onto "train" ["g2"] [9] None
           "gene" None None).
  - discriminate.
  - discriminate.
Defined.

Lemma perturbation_too_few_values_witness :
  exists e,
    fst (perturbation exp_series toy_randn (toy_encoder 4)
                      (toy_decoder [6; 3]%nat) toy_classifier
                      toy_onto "train" ["g2"; "g3"] [9] None "genes" None None
                      (boot toy_plain toy_arrays [])) = Raise e.
Proof.
  apply (perturbation_too_few_values exp_series toy_randn (toy_encoder 4)
           (toy_decoder [6; 3]%nat) toy_classifier
           (boot toy_plain toy_arrays []) toy_onto "train" ["g2"; "g3"] [9]
           None "genes" None None).
  simpl. lia.
Defined.

(** ** The activities [_pass_data] returns *)

Section PassDataFacts.

Variable exp : Q -> Q.
Variable randn : nat -> nat -> nat -> Q.
Variable Encoder_forward :
  bool -> nat -> list tparam -> matrix -> result (matrix * matrix).
Variable OntoDecoder_forward :
  bool -> nat -> list tparam -> list tparam -> Attrs -> matrix ->
  option (list nat) -> list (nat * matrix) * result matrix.
Variable classifier_forward : list tparam -> matrix -> result matrix.

#[local] Abbreviation pass_data_ :=
  (_pass_data exp randn Encoder_forward OntoDecoder_forward
              classifier_forward).

Lemma encoder_stage_parts (m : COntoVAE) (s : nat) (x : matrix)
  (batch : option (list nat)) mu log_var z :
  encoder_stage exp randn Encoder_forward m s x batch = Ok (mu, log_var, z) ->
  exists x1,
    attach_batch m none_has_no_to x batch = Ok x1 /\
    Encoder_forward (training m) s (encoder_params m) x1 = Ok (mu, log_var) /\
    sample exp randn (S s) mu log_var = Ok z.
Proof.
  intros H.
  apply (encoder_stage_ok exp randn Encoder_forward
           {| self := m; rng := s; arrays := []; dicts := [];
              next_handle := O; files := [] |} x batch mu log_var z H).
Qed.

Lemma get_embedding_run (w : World) (x : matrix) (batch : option (list nat))
  mu log_var z :
  encoder_stage exp randn Encoder_forward (set_training false (self w)) (rng w)
                x batch = Ok (mu, log_var, z) ->
  get_embedding exp randn Encoder_forward x batch w
  = (Ok z, set_rng (S (S (rng w))) (set_self (set_training false (self w)) w)).
Proof.
  intros H. destruct (encoder_stage_parts _ _ _ _ _ _ _ H) as (x1 & Ha & He & Hs).
  unfold get_embedding, eval. rewrite bind_get_self, bind_lift.
  change (attach_batch (self w) none_has_no_to x batch)
    with (attach_batch (set_training false (self w)) none_has_no_to x batch).
  rewrite Ha, bind_modify_self, bind_call_encoder.
  cbn [self set_self rng training set_training encoder_params] in *.
  rewrite He.
  cbv beta iota. unfold reparameterize. rewrite bind_draw. unfold lift.
  cbn [rng set_rng]. rewrite Hs. reflexivity.
Qed.

(** What [_pass_data], lines 587-633, returns on a model without labels.
    The generator is used for two latent samples: [z1], drawn by
    [get_embedding] (line 603), gives the latent columns of the activities;
    [z2], drawn by the [forward] call (line 620), is what the decoder runs
    on, so the captured columns and the reconstruction belong to [z2].  The
    aggregation of both parts is done, and can raise, whatever [output] is;
    an [output] other than ['act'] and ['rec'] gives [None]. *)
Theorem pass_data_uses_two_samples (w : World) (data_ : matrix)
  (batch : option (list nat)) (mu1 lv1 z1 mu2 lv2 z2 : matrix)
  (outs : list matrix) (reconstruction : matrix) (output : string) :
  labels (attrs (self w)) = None ->
  hooks_wf w ->
  encoder_stage exp randn Encoder_forward (set_training false (self w))
                (rng w) data_ batch = Ok (mu1, lv1, z1) ->
  encoder_stage exp randn Encoder_forward (set_training false (self w))
                (S (S (rng w))) data_ batch = Ok (mu2, lv2, z2) ->
  OntoDecoder_forward false (S (S (S (S (rng w)))))
    (decoder_weights (self w)) (decoder_rest (self w)) (attrs (self w))
    z2 batch
  = (combine (seq 0 (length outs)) outs, Ok reconstruction) ->
  length outs = length (decoder_weights (self w)) ->
  fst (pass_data_ data_ batch output w)
  = (let! z' := np_split_mean (neuronnum (attrs (self w))) z1 in
     let! c := cat_dim1 (removelast outs) in
     let! act := np_split_mean (neuronnum (attrs (self w))) c in
     if String.eqb output "act"
     then (let! r := hstack z' act in Ok (Some r))
     else if String.eqb output "rec" then Ok (Some reconstruction)
          else Ok None)%res.
Proof.
  intros Hl Hwf Hst1 Hst2 Hdec Hlen.
  unfold _pass_data, eval. rewrite bind_modify_self.
  set (w0 := set_self (set_training false (self w)) w).
  rewrite (bind_ok _ _ _ _ _ (get_embedding_run w0 data_ batch mu1 lv1 z1 Hst1)).
  rewrite bind_get_self, bind_lift.
  match goal with |- context [np_split_mean (neuronnum (attrs (self ?W))) z1] =>
    change (neuronnum (attrs (self W))) with (neuronnum (attrs (self w))) end.
  destruct (np_split_mean (neuronnum (attrs (self w))) z1) as [z'|e];
    [|reflexivity].
  cbn [rbind]. rewrite bind_new_dict, bind_attach_hooks.
  set (k := (length (decoder_weights (self w)) - 1)%nat).
  set (hooks' := forward_hooks (self w)
                 ++ new_hooks (next_handle w) (length (dicts w)) (seq 0 k)).
  set (w3 := with_hooks hooks' (next_handle w + k)
               (set_dicts (dicts w ++ [[]])
                  (set_rng (S (S (rng w)))
                     (set_self (set_training false (self w)) w)))).
  destruct (encoder_stage_parts _ _ _ _ _ _ _ Hst2) as (x1 & Ha & He & Hs).
  pose proof (forward_plain_run exp randn Encoder_forward OntoDecoder_forward
                classifier_forward w3 data_ batch x1 mu2 lv2 z2 Hl Ha He Hs)
    as Hrun.
  cbv zeta in Hrun.
  cbn [w3 self set_self with_hooks set_next_handle set_dicts set_rng rng
       training set_training set_forward_hooks decoder_weights decoder_rest
       attrs forward_hooks dicts] in Hrun.
  rewrite Hdec in Hrun. cbn [fst snd] in Hrun.
  unfold bind at 1.
  match goal with |- context [forward _ _ _ _ _ data_ batch ?W] =>
    change W with w3 end.
  rewrite Hrun. rewrite bind_dict_values.
  cbn [dicts set_dicts set_rng].
  change (dicts (set_self (set_training false (self w0)) w0)) with (dicts w).
  subst hooks' k. rewrite <- Hlen.
  rewrite (captured_outputs w (next_handle w) outs Hwf).
  rewrite bind_lift.
  destruct (cat_dim1 (removelast outs)) as [c|e]; [|reflexivity].
  cbn [rbind]. rewrite bind_lift.
  destruct (np_split_mean (neuronnum (attrs (self w))) c) as [act|e];
    [|reflexivity].
  cbn [rbind]. unfold bind at 1. rewrite remove_hooks_eq.
  destruct (String.eqb output "act").
  - rewrite bind_lift. destruct (hstack z' act); reflexivity.
  - destruct (String.eqb output "rec"); reflexivity.
Qed.

End PassDataFacts.

Lemma pass_data_uses_two_samples_witness :
  toy_z2 <> toy_z /\
  fst (_pass_data exp_series toy_randn (toy_encoder 4) (toy_decoder [6; 3]%nat)
                  toy_classifier toy_x None "act"
                  (boot toy_plain toy_arrays []))
  = (let! z' := np_split_mean 2 toy_z in
     let! c := cat_dim1 (removelast toy_outs2) in
     let! act := np_split_mean 2 c in
     if String.eqb "act" "act"
     then (let! r := hstack z' act in Ok (Some r))
     else if String.eqb "act" "rec" then Ok (Some toy_reconstruction2)
          else Ok None)%res.
Proof.
  split; [vm_compute; discriminate|].
  apply (pass_data_uses_two_samples exp_series toy_randn (toy_encoder 4)
           (toy_decoder [6; 3]%nat) toy_classifier
           (boot toy_plain toy_arrays []) toy_x None
           toy_mu toy_log_var toy_z toy_mu toy_log_var toy_z2
           toy_outs2 toy_reconstruction2 "act").
  - reflexivity.
  - constructor.
  - vm_compute. reflexivity.
  - vm_compute. reflexivity.
  - vm_compute. reflexivity.
  - reflexivity.
Defined.

(** ** Training on very small datasets *)

Lemma round_08_small (n : nat) : (n <= 2)%nat -> round_08 n = n.
Proof.
  intros H. unfold round_08.
  destruct n as [|[|[|n]]]; [reflexivity | reflexivity | reflexivity | lia].
Qed.

(** The split of [train_model], lines 488-490, on a permutation of [n]
    indices: the first [round(0.8 * n)] indices train, the others validate;
    the validation part is [0.2 * n] rounded to an integer, it is empty
    exactly for [n <= 2], and from three samples on both parts are
    inhabited. *)
Theorem train_val_split (perm : list nat) :
  length (firstn (round_08 (length perm)) perm) = round_08 (length perm) /\
  firstn (round_08 (length perm)) perm ++ skipn (round_08 (length perm)) perm
  = perm /\
  (2 * length perm <= 10 * length (skipn (round_08 (length perm)) perm) + 5)%nat /\
  (10 * length (skipn (round_08 (length perm)) perm) < 2 * length perm + 5)%nat /\
  (skipn (round_08 (length perm)) perm = [] <-> (length perm <= 2)%nat) /\
  (firstn (round_08 (length perm)) perm = [] <-> perm = []).
Proof.
  set (n := length perm).
  assert (Hdiv : (10 * round_08 n <= 8 * n + 5 < 10 * round_08 n + 10)%nat).
  { unfold round_08. pose proof (Nat.div_mod_eq (8 * n + 5) 10) as H.
    pose proof (Nat.mod_upper_bound (8 * n + 5) 10 ltac:(lia)). lia. }
  assert (Hle : (round_08 n <= n)%nat) by lia.
  rewrite length_firstn, length_skipn. fold n.
  repeat split; try lia.
  - apply firstn_skipn.
  - intros H. apply (f_equal (@length nat)) in H.
    rewrite length_skipn in H. fold n in H. simpl in H. lia.
  - intros H. apply skipn_all2. fold n. rewrite (round_08_small n H). lia.
  - intros H. apply (f_equal (@length nat)) in H.
    rewrite length_firstn in H. fold n in H. simpl in H.
    apply length_zero_iff_nil. fold n. lia.
  - intros ->. reflexivity.
Qed.

Section SmallData.

Variable exp : Q -> Q.
Variable sqrt : Q -> Q.
Variable randn : nat -> nat -> nat -> Q.
Variable Encoder_forward :
  bool -> nat -> list tparam -> matrix -> result (matrix * matrix).
Variable OntoDecoder_forward :
  bool -> nat -> list tparam -> list tparam -> Attrs -> matrix ->
  option (list nat) -> list (nat * matrix) * result matrix.
Variable classifier_forward : list tparam -> matrix -> result matrix.
Variable permutation : nat -> list nat.
Variable loader : bool -> nat -> nat -> minibatch -> list minibatch.
Variable cross_entropy : matrix -> list Z -> result Q.
Variable argsort0 : matrix -> matrix.
Variable autograd :
  COntoVAE -> nat -> minibatch -> Q -> Q -> Q -> nat -> nat -> nat -> nat -> Q.

#[local] Abbreviation train_model_ :=
  (train_model exp sqrt randn Encoder_forward OntoDecoder_forward
               classifier_forward permutation loader cross_entropy argsort0
               autograd).
#[local] Abbreviation pass_data_ :=
  (_pass_data exp randn Encoder_forward OntoDecoder_forward
              classifier_forward).
#[local] Abbreviation train_round_ :=
  (train_round exp sqrt randn Encoder_forward OntoDecoder_forward
               classifier_forward cross_entropy argsort0 autograd).

Lemma epoch_loop_empty_validation (modelpath_ : string) (epoch : nat)
  (rest : list nat) (o : optimizer) (trainset : minibatch) (y_val : list Z)
  (batch_val : list nat) (act_val : matrix) (batch_size : nat)
  (kl_coeff clf_coeff prior_coeff : Q) (train_param : list (string * Q))
  (w : World) :
  (forall shuffle bs s y_ b act, loader shuffle bs s ([], y_, b, act) = []) ->
  exists e,
    fst (epoch_loop exp sqrt randn Encoder_forward OntoDecoder_forward
           classifier_forward loader cross_entropy argsort0 autograd
           modelpath_ (epoch :: rest) o trainset ([], y_val, batch_val, act_val)
           batch_size kl_coeff clf_coeff prior_coeff train_param w) = Raise e.
Proof.
  intros Hloader. cbn [epoch_loop]. rewrite bind_draw.
  match goal with |- context [bind ?c ?k ?W] =>
    destruct (c W) as [[[o' loss]|e] w1] eqn:E;
    [rewrite (bind_ok _ _ _ _ _ E) | rewrite (bind_fail _ _ _ _ _ E);
                                     eexists; reflexivity]
  end.
  rewrite Hloader. eexists. reflexivity.
Qed.

(** [train_model] splits the samples with [round(0.8 * n)] (lines 488-490):
    a dataset of one or two samples leaves no sample for validation.  With a
    data loader that has no minibatch for an empty dataset, the first
    validation round then divides by zero (line 463), unless something has
    failed before: the call never returns, whatever the model. *)
Theorem train_model_needs_three_samples (w : World) (modelpath_ : string)
  (lr kl_coeff clf_coeff prior_coeff : Q) (batch_size epochs : nat)
  (Xarr : matrix) :
  nth_error (arrays w) (X (attrs (self w))) = Some Xarr ->
  (n_rows Xarr <= 2)%nat ->
  length (permutation (n_rows Xarr)) = n_rows Xarr ->
  (forall shuffle bs s y_ b act, loader shuffle bs s ([], y_, b, act) = []) ->
  (0 < epochs)%nat ->
  exists e,
    fst (train_model_ modelpath_ lr kl_coeff clf_coeff prior_coeff batch_size
                      epochs w) = Raise e.
Proof.
  intros HX Hsmall Hperm Hloader Hep. unfold train_model.
  rewrite bind_get_self, bind_array_read, HX.
  rewrite Hperm, (round_08_small _ Hsmall).
  rewrite (skipn_all2 (permutation (n_rows Xarr))) by lia.
  cbn [take_rows].
  do 3 (rewrite bind_lift;
        match goal with
        | |- context [match ?r with Ok _ => _ | Raise _ => _ end] =>
            destruct r; [|eexists; reflexivity]
        end).
  rewrite !bind_lift.
  destruct epochs as [|epochs']; [lia|].
  match goal with |- context [bind ?c ?k w] =>
    destruct (c w) as [[[act_train act_val]|e] w1] eqn:E;
    [rewrite (bind_ok _ _ _ _ _ E) | rewrite (bind_fail _ _ _ _ _ E);
                                     eexists; reflexivity]
  end.
  rewrite bind_get_self. apply epoch_loop_empty_validation. exact Hloader.
Qed.
End SmallData.

Lemma train_model_needs_three_samples_witness :
  exists e,
    fst (train_model exp_series sqrt_fix toy_randn (toy_encoder 4)
                     (toy_decoder [6; 3]%nat) toy_classifier
                     (fun n => seq 0 n) toy_loader
                     (fun (_ : matrix) (_ : list Z) => Ok 0)
                     (fun a : matrix => a)
                     (fun _ _ _ _ _ _ _ _ _ _ => 0)
                     "best.pt" (1 # 10000) (1 # 10000) 100000 (1 # 10) 128 3
                     (boot toy_plain toy_arrays [])) = Raise e.
Proof.
  apply (train_model_needs_three_samples exp_series sqrt_fix toy_randn
           (toy_encoder 4) (toy_decoder [6; 3]%nat) toy_classifier
           (fun n => seq 0 n) toy_loader
           (fun (_ : matrix) (_ : list Z) => Ok 0)
           (fun a : matrix => a)
           (fun _ _ _ _ _ _ _ _ _ _ => 0)
           (boot toy_plain toy_arrays []) "best.pt" (1 # 10000) (1 # 10000)
           100000 (1 # 10) 128%nat 3%nat toy_x).
  - reflexivity.
  - simpl. lia.
  - reflexivity.
  - intros. reflexivity.
  - lia.
Defined.

(** ** A decoder that is frozen in part *)

Lemma for_each_raises {A} (f : nat -> A -> result A) (l : list A) :
  Exists (fun a => forall j, is_ok (f j a) = false) l ->
  forall i, exists e, snd (for_each f i l) = Some e.
Proof.
  induction 1 as [a l Ha|a l _ IH]; intros i; cbn [for_each].
  - specialize (Ha i). destruct (f i a); [discriminate|]. eexists. reflexivity.
  - destruct (f i a) as [a'|e]; [|eexists; reflexivity].
    destruct (IH (S i)) as [e He].
    destruct (for_each f (S i) l) as [t' e']. cbn [snd] in *. eauto.
Qed.

Lemma backward_frozen (g : nat -> nat -> nat -> Q) (ws : list tparam) :
  Exists (fun w => requires_grad w = false) ws ->
  Exists (fun w => grad w = None) (backward_group g (zero_grad ws)).
Proof.
  unfold backward_group, zero_grad. rewrite length_map.
  intros H. generalize O.
  induction H as [w ws Hw|w ws _ IH]; intros s0; cbn [length seq map combine].
  - left. cbn [snd set_grad requires_grad]. rewrite Hw. reflexivity.
  - right. apply IH.
Qed.

Lemma backward_head (g : nat -> nat -> nat -> Q) (w0 : tparam)
  (ws : list tparam) :
  exists w0' ws',
    backward_group g (zero_grad (w0 :: ws)) = w0' :: ws' /\
    requires_grad w0' = requires_grad w0.
Proof.
  unfold backward_group, zero_grad. cbn [map length seq combine snd].
  eexists. eexists. split; [reflexivity|].
  cbn [requires_grad set_grad]. destruct (requires_grad w0) eqn:E; cbn; auto.
Qed.

(** The masking of the gradients and the clamping of the weights are
    guarded by [requires_grad] of the first decoder weight alone (lines 395
    and 403), but they loop over every layer.  When the first layer is
    trainable and some other layer is frozen, the frozen layer has no
    gradient after [backward], the product with its mask fails, and the
    training iteration raises. *)
Theorem decoder_step_partially_frozen (sqrt : Q -> Q) (lr : Q)
  (masks : list matrix) (sts : list (option adam_state)) (w0 : tparam)
  (ws : list tparam) (g : nat -> nat -> nat -> Q) :
  requires_grad w0 = true ->
  Exists (fun w => requires_grad w = false) ws ->
  exists e, decoder_train_step sqrt lr masks (sts, w0 :: ws) g = Raise e.
Proof.
  intros H0 Hfrozen. unfold decoder_train_step. cbn [fst snd].
  destruct (backward_head g w0 ws) as (w0' & ws' & Eb & Hr).
  assert (Hex : Exists (fun w => grad w = None)
                       (backward_group g (zero_grad (w0 :: ws)))).
  { apply backward_frozen. now right. }
  rewrite Eb in *. unfold mask_gradients. rewrite Hr, H0.
  destruct (for_each_raises (mask_one_grad masks) (w0' :: ws')) with (i := O)
    as [e He].
  { eapply Exists_impl; [|exact Hex]. cbv beta. intros a Ha j.
    unfold mask_one_grad. now rewrite Ha. }
  destruct (for_each (mask_one_grad masks) 0 (w0' :: ws')) as [ws1 e1].
  cbn [snd] in He. subst e1. eauto.
Qed.

Lemma decoder_step_partially_frozen_witness :
  exists e,
    decoder_train_step sqrt_fix (1 # 10) [toy_weight_mask; toy_weight_mask]
      ([None; None],
       [toy_weight;
        {| pname := "decoder.decoder.1.0.weight"; data := [[1; 0]; [0; 1]];
           requires_grad := false; grad := None |}])
      (fun _ _ _ => 1)
    = Raise e.
Proof.
  apply (decoder_step_partially_frozen sqrt_fix (1 # 10)
           [toy_weight_mask; toy_weight_mask] [None; None] toy_weight
           [{| pname := "decoder.decoder.1.0.weight"; data := [[1; 0]; [0; 1]];
               requires_grad := false; grad := None |}]
           (fun _ _ _ => 1)).
  - reflexivity.
  - left. reflexivity.
Defined.

(** ** Attaching and removing the hooks *)

Lemma dict_set_absent_keys {V} (k : string) (v : V) d :
  dict_get k d = None -> map fst (dict_set k v d) = map fst d ++ [k].
Proof.
  induction d as [|[k0 v0] d IH]; simpl; intros H; [reflexivity|].
  destruct (String.eqb k k0); [discriminate|]. simpl. now rewrite IH.
Qed.

Lemma attach_dict_keys (layers : list nat) :
  forall nh hooks,
  NoDup layers ->
  (forall j, In j layers -> dict_get (py_str j) hooks = None) ->
  map fst (attach_dict nh layers hooks) = map fst hooks ++ map py_str layers.
Proof.
  induction layers as [|i rest IH]; intros nh hooks Hnd Habs; simpl.
  - now rewrite app_nil_r.
  - inversion Hnd as [|? ? Hni Hnd']; subst.
    rewrite IH; auto.
    + rewrite dict_set_absent_keys by (apply Habs; now left).
      rewrite <- app_assoc. reflexivity.
    + intros j Hj. rewrite dict_get_set.
      destruct (String.eqb (py_str j) (py_str i)) eqn:E.
      * apply String.eqb_eq, py_str_inj in E. subst. contradiction.
      * apply Habs. now right.
Qed.

Lemma new_hooks_layers nh d layers :
  map hook_layer (new_hooks nh d layers) = layers /\
  Forall (fun h => hook_dict h = d) (new_hooks nh d layers).
Proof.
  revert nh. induction layers as [|i rest IH]; intros nh; simpl.
  - split; constructor.
  - destruct (IH (S nh)) as [H1 H2]. rewrite H1. split; [reflexivity|].
    constructor; [reflexivity | exact H2].
Qed.

(** [_attach_hooks], lines 580-584, on a fresh [hooks] dictionary: it
    returns one handle under each key [str(i)], [i] running over the
    decoder blocks but the last, and leaves behind the hooks that were
    there, one new hook on each of these blocks, in order, all writing to
    the [activation] dictionary it was given; removing the handles it
    returned (the loops at lines 234, 294 and 626) gives back the model as
    it was. *)
Theorem attach_then_remove_hooks (w : World) (activation : nat) :
  Forall (fun h => handle_id h < next_handle w)%nat (forward_hooks (self w)) ->
  exists hooks w1 added,
    _attach_hooks activation [] w = (Ok hooks, w1) /\
    map fst hooks
    = map py_str (seq 0 (length (decoder_weights (self w)) - 1)) /\
    forward_hooks (self w1) = forward_hooks (self w) ++ added /\
    map hook_layer added = seq 0 (length (decoder_weights (self w)) - 1) /\
    Forall (fun h => hook_dict h = activation) added /\
    fst (remove_hooks hooks w1) = Ok tt /\
    self (snd (remove_hooks hooks w1)) = self w.
Proof.
  intros Hwf.
  set (k := (length (decoder_weights (self w)) - 1)%nat).
  exists (attach_dict (next_handle w) (seq 0 k) []),
         (with_hooks (forward_hooks (self w)
                      ++ new_hooks (next_handle w) activation (seq 0 k))
                     (next_handle w + k) w),
         (new_hooks (next_handle w) activation (seq 0 k)).
  destruct (new_hooks_layers (next_handle w) activation (seq 0 k)) as [Hl Hd].
  repeat split; try assumption.
  - unfold _attach_hooks. rewrite bind_get_self, attach_loop_eq, length_seq.
    reflexivity.
  - rewrite attach_dict_keys; [reflexivity | apply seq_NoDup | reflexivity].
  - rewrite remove_hooks_eq. reflexivity.
  - rewrite remove_hooks_eq.
    cbn [snd self set_self with_hooks set_next_handle forward_hooks
         set_forward_hooks].
    rewrite pass_hooks_removed by exact Hwf.
    destruct (self w). reflexivity.
Qed.

Lemma attach_then_remove_hooks_witness :
  exists hooks w1 added,
    _attach_hooks 0 [] toy_world = (Ok hooks, w1) /\
    map fst hooks
    = map py_str (seq 0 (length (decoder_weights (self toy_world)) - 1)) /\
    forward_hooks (self w1) = forward_hooks (self toy_world) ++ added /\
    map hook_layer added
    = seq 0 (length (decoder_weights (self toy_world)) - 1) /\
    Forall (fun h => hook_dict h = O) added /\
    fst (remove_hooks hooks w1) = Ok tt /\
    self (snd (remove_hooks hooks w1)) = self toy_world.
Proof.
  apply (attach_then_remove_hooks toy_world 0). constructor.
Defined.

(** ** What training does to the model object *)

Lemma bind_ret_r {A} (c : M A) w : bind c ret w = c w.
Proof. unfold bind, ret. destruct (c w) as [[a|e] w1]; reflexivity. Qed.

Create HintDb steps.

Section Steps.

Variable R : COntoVAE -> COntoVAE -> Prop.
Hypothesis R_refl : forall m, R m m.
Hypothesis R_trans : forall a b c, R a b -> R b c -> R a c.

Lemma steps_bind {A B} (c : M A) (k : A -> M B) :
  steps R c -> (forall a, steps R (k a)) -> steps R (bind c k).
Proof.
  intros Hc Hk w. specialize (Hc w). unfold bind.
  destruct (c w) as [[a|e] w1]; cbn [snd] in *; [|exact Hc].
  eapply R_trans; [exact Hc | apply Hk].
Qed.

Lemma steps_same {A} (c : M A) :
  (forall w, self (snd (c w)) = self w) -> steps R c.
Proof. intros H w. rewrite H. apply R_refl. Qed.

Lemma steps_ret {A} (a : A) : steps R (ret a).
Proof. now apply steps_same. Qed.

Lemma steps_lift {A} (r : result A) : steps R (lift r).
Proof. now apply steps_same. Qed.

Lemma steps_raise {A} (e : exn) : steps R (@raise A e).
Proof. now apply steps_same. Qed.

Lemma steps_get_self : steps R get_self.
Proof. now apply steps_same. Qed.

Lemma steps_draw : steps R draw.
Proof. now apply steps_same. Qed.

Lemma steps_new_dict : steps R new_dict.
Proof. now apply steps_same. Qed.

Lemma steps_dict_values d : steps R (dict_values d).
Proof. now apply steps_same. Qed.

Lemma steps_array_read r : steps R (array_read r).
Proof.
  apply steps_same. intros w. unfold array_read.
  destruct (nth_error (arrays w) r); reflexivity.
Qed.

Lemma steps_torch_save ck path : steps R (torch_save ck path).
Proof. now apply steps_same. Qed.

Lemma steps_modify_self (g : COntoVAE -> COntoVAE) :
  (forall m, R m (g m)) -> steps R (modify_self g).
Proof. intros H w. apply H. Qed.

Section Run.

Variable exp : Q -> Q.
Variable sqrt : Q -> Q.
Variable randn : nat -> nat -> nat -> Q.
Variable Encoder_forward :
  bool -> nat -> list tparam -> matrix -> result (matrix * matrix).
Variable OntoDecoder_forward :
  bool -> nat -> list tparam -> list tparam -> Attrs -> matrix ->
  option (list nat) -> list (nat * matrix) * result matrix.
Variable classifier_forward : list tparam -> matrix -> result matrix.
Variable permutation : nat -> list nat.
Variable loader : bool -> nat -> nat -> minibatch -> list minibatch.
Variable cross_entropy : matrix -> list Z -> result Q.
Variable argsort0 : matrix -> matrix.
Variable autograd :
  COntoVAE -> nat -> minibatch -> Q -> Q -> Q -> nat -> nat -> nat -> nat -> Q.

Hypothesis R_hooks : forall hs m, R m (set_forward_hooks hs m).
Hypothesis R_params : forall enc dec rest clf m,
  R m (set_params enc dec rest clf m).
Hypothesis R_mode : forall b m, R m (set_training b m).

Lemma steps_call_encoder x : steps R (call_encoder Encoder_forward x).
Proof.
  apply steps_same. intros w. rewrite <- bind_ret_r, bind_call_encoder.
  destruct (Encoder_forward _ _ _ _); reflexivity.
Qed.

Lemma steps_reparameterize mu lv : steps R (reparameterize exp randn mu lv).
Proof.
  apply steps_same. intros w. rewrite <- bind_ret_r, bind_reparameterize.
  destruct (sample _ _ _ _ _); reflexivity.
Qed.

Lemma steps_call_decoder z batch :
  steps R (call_decoder OntoDecoder_forward z batch).
Proof.
  apply steps_same. intros w. rewrite <- bind_ret_r, bind_call_decoder.
  cbv zeta. destruct (snd (OntoDecoder_forward _ _ _ _ _ _ _)); reflexivity.
Qed.

Lemma steps_call_classifier act :
  steps R (call_classifier classifier_forward act).
Proof.
  apply steps_same. intros w. rewrite <- bind_ret_r, bind_call_classifier.
  destruct (classifier (self w)); [|reflexivity].
  destruct (classifier_forward _ _); reflexivity.
Qed.

Lemma steps_attach_hooks d hooks : steps R (_attach_hooks d hooks).
Proof.
  intros w. rewrite <- bind_ret_r, bind_attach_hooks. apply R_hooks.
Qed.

Lemma steps_remove_hooks hooks : steps R (remove_hooks hooks).
Proof. intros w. rewrite remove_hooks_eq. apply R_hooks. Qed.

Lemma steps_eval : steps R eval.
Proof. apply steps_modify_self. apply R_mode. Qed.

Lemma steps_train : steps R train.
Proof. apply steps_modify_self. apply R_mode. Qed.

#[local] Hint Resolve steps_ret steps_lift steps_raise steps_get_self
  steps_draw steps_new_dict steps_dict_values steps_array_read
  steps_torch_save steps_call_encoder steps_reparameterize steps_call_decoder
  steps_call_classifier steps_attach_hooks steps_remove_hooks steps_eval
  steps_train : steps.

Ltac steps_go :=
  repeat first
    [ solve [auto with steps]
    | apply steps_bind; [|intros ?]
    | match goal with
      | |- steps _ (match ?x with _ => _ end) => destruct x
      end ].

Lemma steps_forward x batch :
  steps R (forward exp randn Encoder_forward OntoDecoder_forward
                   classifier_forward x batch).
Proof. unfold forward. steps_go. Qed.

Lemma steps_get_embedding x batch :
  steps R (get_embedding exp randn Encoder_forward x batch).
Proof. unfold get_embedding. steps_go. Qed.

Lemma steps_pass_data data_ batch output :
  steps R (_pass_data exp randn Encoder_forward OntoDecoder_forward
                      classifier_forward data_ batch output).
Proof.
  unfold _pass_data.
  pose proof steps_forward. pose proof steps_get_embedding. steps_go.
Qed.

#[local] Hint Resolve steps_forward steps_get_embedding steps_pass_data : steps.

Lemma steps_finish_loop (r : list tparam * option exn) :
  steps R (finish_loop r store_decoder_weights).
Proof.
  intros w. unfold finish_loop. destruct (snd r); apply R_params.
Qed.

Lemma steps_optimizer_step (o : optimizer) : steps R (optimizer_step sqrt o).
Proof.
  intros w. unfold optimizer_step.
  destruct (step_group sqrt (opt_lr o) (st_encoder o) _) as [[s1 p1] [e1|]];
    [apply R_params|].
  destruct (step_group sqrt (opt_lr o) (st_decoder_weights o) _)
    as [[s2 p2] [e2|]]; [apply R_params|].
  destruct (step_group sqrt (opt_lr o) (st_decoder_rest o) _)
    as [[s3 p3] [e3|]]; [apply R_params|].
  destruct (classifier (self w)) as [ps|].
  - destruct (step_group sqrt (opt_lr o) (st_classifier o) ps)
      as [[s4 p4] [e4|]]; apply R_params.
  - apply R_params.
Qed.

#[local] Hint Resolve steps_finish_loop steps_optimizer_step : steps.

Lemma steps_minibatch_loss mb kl_coeff clf_coeff prior_coeff :
  steps R (minibatch_loss exp randn Encoder_forward OntoDecoder_forward
             classifier_forward cross_entropy argsort0 mb kl_coeff clf_coeff
             prior_coeff).
Proof.
  unfold minibatch_loss, classify_loss. destruct mb as [[[data_ y_] batch_] act_].
  steps_go.
Qed.

#[local] Hint Resolve steps_minibatch_loss : steps.

Lemma steps_train_iteration o mb kl_coeff clf_coeff prior_coeff :
  steps R (train_iteration exp sqrt randn Encoder_forward OntoDecoder_forward
             classifier_forward cross_entropy argsort0 autograd o mb kl_coeff
             clf_coeff prior_coeff).
Proof.
  unfold train_iteration. steps_go;
    apply steps_modify_self; intros m; apply R_params.
Qed.

#[local] Hint Resolve steps_train_iteration : steps.

Lemma steps_train_loop mbs : forall o kl_coeff clf_coeff prior_coeff running,
  steps R (train_loop exp sqrt randn Encoder_forward OntoDecoder_forward
             classifier_forward cross_entropy argsort0 autograd o mbs kl_coeff
             clf_coeff prior_coeff running).
Proof.
  induction mbs as [|mb rest IH]; intros; cbn [train_loop]; steps_go.
Qed.

Lemma steps_val_loop mbs : forall kl_coeff clf_coeff prior_coeff running,
  steps R (val_loop exp randn Encoder_forward OntoDecoder_forward
             classifier_forward cross_entropy argsort0 mbs kl_coeff clf_coeff
             prior_coeff running).
Proof.
  induction mbs as [|mb rest IH]; intros; cbn [val_loop]; steps_go.
Qed.

#[local] Hint Resolve steps_train_loop steps_val_loop : steps.

Lemma steps_train_round dataloader kl_coeff clf_coeff prior_coeff o :
  steps R (train_round exp sqrt randn Encoder_forward OntoDecoder_forward
             classifier_forward cross_entropy argsort0 autograd dataloader
             kl_coeff clf_coeff prior_coeff o).
Proof. unfold train_round. steps_go. Qed.

Lemma steps_val_round dataloader kl_coeff clf_coeff prior_coeff :
  steps R (val_round exp randn Encoder_forward OntoDecoder_forward
             classifier_forward cross_entropy argsort0 dataloader kl_coeff
             clf_coeff prior_coeff).
Proof. unfold val_round. steps_go. Qed.

#[local] Hint Resolve steps_train_round steps_val_round : steps.

Hypothesis R_vae : forall m, R m (set_VAE_trained true m).
Hypothesis R_clf : forall m, R m (set_clf_trained true m).
Hypothesis R_param_dict : forall d m, R m (set_param_dict d m).
Hypothesis R_loss : forall v m,
  pf_lt v (val_loss_min m) = true -> R m (set_val_loss_min v m).

Lemma steps_epoch_end modelpath_ epoch o v train_param :
  steps R (epoch_end modelpath_ epoch o v train_param).
Proof.
  intros w. unfold epoch_end. rewrite bind_get_self.
  destruct (pf_lt v (val_loss_min (self w))) eqn:E;
    destruct (labels (attrs (self w))); cbn;
    repeat (eapply R_trans; [|apply R_param_dict || apply R_clf || apply R_vae]);
    try apply R_refl; apply R_loss; exact E.
Qed.

#[local] Hint Resolve steps_epoch_end : steps.

Lemma steps_epoch_loop modelpath_ epochs :
  forall o trainset valset batch_size kl_coeff clf_coeff prior_coeff train_param,
  steps R (epoch_loop exp sqrt randn Encoder_forward OntoDecoder_forward
             classifier_forward loader cross_entropy argsort0 autograd
             modelpath_ epochs o trainset valset batch_size kl_coeff clf_coeff
             prior_coeff train_param).
Proof.
  induction epochs as [|epoch rest IH]; intros; cbn [epoch_loop]; steps_go.
Qed.

#[local] Hint Resolve steps_epoch_loop : steps.

Lemma steps_train_model modelpath_ lr kl_coeff clf_coeff prior_coeff
  batch_size epochs :
  steps R (train_model exp sqrt randn Encoder_forward OntoDecoder_forward
             classifier_forward permutation loader cross_entropy argsort0
             autograd modelpath_ lr kl_coeff clf_coeff prior_coeff batch_size
             epochs).
Proof. unfold train_model. steps_go. Qed.

End Run.
End Steps.

Lemma pf_lt_trans (a b c : pyfloat) :
  pf_lt c b = true -> pf_lt b a = true -> pf_lt c a = true.
Proof.
  destruct a as [x| | |], b as [y| | |], c as [z| | |]; cbn;
    try discriminate; try reflexivity.
  rewrite !negb_true_iff. intros H1 H2.
  destruct (Qle_bool x z) eqn:E; [|reflexivity].
  apply Qle_bool_iff in E.
  assert (H1' : ~ y <= z) by (rewrite <- Qle_bool_iff; congruence).
  assert (H2' : ~ x <= y) by (rewrite <- Qle_bool_iff; congruence).
  apply Qnot_le_lt in H1', H2'.
  exfalso. apply (Qlt_irrefl z). 
  eapply Qlt_le_trans; [|exact E]. eapply Qlt_trans; eauto.
Qed.

Lemma lowered_trans (a b c : pyfloat) :
  lowered a b -> lowered b c -> lowered a c.
Proof.
  intros [->|H1] [->|H2]; [now left | now right | now right|].
  right. eapply pf_lt_trans; eauto.
Qed.

Lemma bookkeeping_advances_refl m : bookkeeping_advances m m.
Proof. repeat split; auto. now left. Qed.

Lemma bookkeeping_advances_trans a b c :
  bookkeeping_advances a b -> bookkeeping_advances b c ->
  bookkeeping_advances a c.
Proof.
  intros (H1 & H2 & H3) (H4 & H5 & H6). repeat split; auto.
  eapply lowered_trans; eauto.
Qed.

Lemma same_bookkeeping_trans a b c :
  same_bookkeeping a b -> same_bookkeeping b c -> same_bookkeeping a c.
Proof.
  unfold same_bookkeeping. intros (H1 & H2 & H3 & H4) (H5 & H6 & H7 & H8).
  repeat split; congruence.
Qed.

Section TrainingInvariants.

Variable exp : Q -> Q.
Variable sqrt : Q -> Q.
Variable randn : nat -> nat -> nat -> Q.
Variable Encoder_forward :
  bool -> nat -> list tparam -> matrix -> result (matrix * matrix).
Variable OntoDecoder_forward :
  bool -> nat -> list tparam -> list tparam -> Attrs -> matrix ->
  option (list nat) -> list (nat * matrix) * result matrix.
Variable classifier_forward : list tparam -> matrix -> result matrix.
Variable permutation : nat -> list nat.
Variable loader : bool -> nat -> nat -> minibatch -> list minibatch.
Variable cross_entropy : matrix -> list Z -> result Q.
Variable argsort0 : matrix -> matrix.
Variable autograd :
  COntoVAE -> nat -> minibatch -> Q -> Q -> Q -> nat -> nat -> nat -> nat -> Q.

#[local] Abbreviation train_round_ :=
  (train_round exp sqrt randn Encoder_forward OntoDecoder_forward
               classifier_forward cross_entropy argsort0 autograd).
#[local] Abbreviation val_round_ :=
  (val_round exp randn Encoder_forward OntoDecoder_forward
             classifier_forward cross_entropy argsort0).
#[local] Abbreviation train_model_ :=
  (train_model exp sqrt randn Encoder_forward OntoDecoder_forward
               classifier_forward permutation loader cross_entropy argsort0
               autograd).

(** The mode a round leaves behind: the loops do not touch it once it is
    set. *)
Lemma train_round_mode dataloader kl_coeff clf_coeff prior_coeff o w :
  training (self (snd (train_round_ dataloader kl_coeff clf_coeff prior_coeff
                                    o w))) = true.
Proof.
  unfold train_round, train. rewrite bind_modify_self.
  match goal with |- context [bind ?c ?k ?W] =>
    assert (H : steps (fun m m' => training m' = training m) (bind c k))
  end.
  { apply steps_bind; [congruence | | intros [o' rl]].
    - apply steps_train_loop; try congruence; reflexivity.
    - apply steps_bind; [congruence | apply steps_lift; reflexivity |].
      intros a. apply steps_ret. reflexivity. }
  rewrite H. reflexivity.
Qed.

Lemma val_round_mode dataloader kl_coeff clf_coeff prior_coeff w :
  training (self (snd (val_round_ dataloader kl_coeff clf_coeff prior_coeff w)))
  = false.
Proof.
  unfold val_round, eval. rewrite bind_modify_self.
  match goal with |- context [bind ?c ?k ?W] =>
    assert (H : steps (fun m m' => training m' = training m) (bind c k))
  end.
  { apply steps_bind; [congruence | | intros a].
    - apply steps_val_loop; try congruence; reflexivity.
    - apply steps_lift. reflexivity. }
  rewrite H. reflexivity.
Qed.

(** A round of training or of validation (lines 333-464) changes the
    parameters, the hooks and the mode of the model only: the trained
    flags, the best validation loss and the parameter dictionary are as
    before, whether the round returns or raises.  [train_round] leaves the
    model in training mode and [val_round] in evaluation mode. *)
Theorem rounds_keep_bookkeeping dataloader kl_coeff clf_coeff prior_coeff o w :
  same_bookkeeping
    (self w)
    (self (snd (train_round_ dataloader kl_coeff clf_coeff prior_coeff o w))) /\
  training (self (snd (train_round_ dataloader kl_coeff clf_coeff prior_coeff
                                    o w))) = true /\
  same_bookkeeping
    (self w)
    (self (snd (val_round_ dataloader kl_coeff clf_coeff prior_coeff w))) /\
  training (self (snd (val_round_ dataloader kl_coeff clf_coeff prior_coeff w)))
  = false.
Proof.
  repeat split; try apply train_round_mode; try apply val_round_mode.
  all: first
    [ apply (steps_train_round same_bookkeeping)
    | apply (steps_val_round same_bookkeeping) ];
    try (intros; repeat split; reflexivity);
    apply same_bookkeeping_trans.
Qed.

(** Over a whole call of [train_model] (lines 466-573), whether it returns
    or raises, the bookkeeping only moves forward: the best validation loss
    is the one before the call or a strictly lower one, and a trained flag
    that was set stays set. *)
Theorem train_model_bookkeeping_advances modelpath_ lr kl_coeff clf_coeff
  prior_coeff batch_size epochs w :
  bookkeeping_advances
    (self w)
    (self (snd (train_model_ modelpath_ lr kl_coeff clf_coeff prior_coeff
                             batch_size epochs w))).
Proof.
  apply (steps_train_model bookkeeping_advances).
  - apply bookkeeping_advances_refl.
  - apply bookkeeping_advances_trans.
  - intros. repeat split; auto. now left.
  - intros. repeat split; auto. now left.
  - intros. repeat split; auto. now left.
  - intros m. repeat split; auto. now left.
  - intros m. repeat split; auto. now left.
  - intros d m. repeat split; auto. now left.
  - intros v m H. repeat split; auto. now right.
Qed.

Lemma epoch_end_flags modelpath_ epoch o v train_param w :
  training (self (snd (epoch_end modelpath_ epoch o v train_param w)))
  = training (self w) /\
  VAE_trained (self (snd (epoch_end modelpath_ epoch o v train_param w)))
  = true /\
  (labels (attrs (self (snd (epoch_end modelpath_ epoch o v train_param w))))
   <> None ->
   clf_trained (self (snd (epoch_end modelpath_ epoch o v train_param w)))
   = true).
Proof.
  unfold epoch_end. rewrite bind_get_self.
  destruct (pf_lt v (val_loss_min (self w)));
    destruct (labels (attrs (self w))) eqn:El; cbn; rewrite ?El;
    repeat split; congruence.
Qed.

Lemma epoch_loop_ok modelpath_ epochs :
  forall o trainset valset batch_size kl_coeff clf_coeff prior_coeff
         train_param w w',
  epoch_loop exp sqrt randn Encoder_forward OntoDecoder_forward
    classifier_forward loader cross_entropy argsort0 autograd modelpath_
    epochs o trainset valset batch_size kl_coeff clf_coeff prior_coeff
    train_param w = (Ok tt, w') ->
  epochs <> [] ->
  training (self w') = false /\ VAE_trained (self w') = true /\
  (labels (attrs (self w')) <> None -> clf_trained (self w') = true).
Proof.
  induction epochs as [|epoch rest IH]; intros o trainset valset batch_size
    kl_coeff clf_coeff prior_coeff train_param w w' Hrun Hne; [congruence|].
  cbn [epoch_loop] in Hrun. rewrite bind_draw in Hrun.
  match type of Hrun with context [bind ?c ?k ?W] =>
    destruct (c W) as [[[o' loss]|e] w1] eqn:E1;
    [rewrite (bind_ok _ _ _ _ _ E1) in Hrun
    | rewrite (bind_fail _ _ _ _ _ E1) in Hrun; discriminate]
  end.
  pose proof (val_round_mode (loader false batch_size 0 valset) kl_coeff
                clf_coeff prior_coeff w1) as Hmode.
  match type of Hrun with context [bind ?c ?k ?W] =>
    destruct (c W) as [[vl|e] w2] eqn:E2;
    [rewrite (bind_ok _ _ _ _ _ E2) in Hrun
    | rewrite (bind_fail _ _ _ _ _ E2) in Hrun; discriminate]
  end.
  cbn [snd] in Hmode.
  pose proof (epoch_end_flags modelpath_ epoch o' (Fin vl) train_param w2)
    as (Ht & Hv & Hc).
  pose proof (epoch_end_files modelpath_ epoch o' (Fin vl) train_param w2)
    as [Hok _].
  destruct (epoch_end modelpath_ epoch o' (Fin vl) train_param w2)
    as [[u|e] w3] eqn:E3; cbn [fst snd] in *; [|discriminate].
  rewrite (bind_ok _ _ _ _ _ E3) in Hrun.
  destruct rest as [|epoch' rest'].
  - cbn [epoch_loop] in Hrun. injection Hrun as <-.
    rewrite Ht, Hmode. auto.
  - eapply IH; [exact Hrun | discriminate].
Qed.

(** When [train_model] returns after at least one epoch, the model is in
    evaluation mode (the last thing that sets the mode is the validation
    round of the last epoch), [VAE_trained] is set, and [clf_trained] is
    set when the model has labels. *)
Theorem train_model_returns_trained modelpath_ lr kl_coeff clf_coeff
  prior_coeff batch_size epochs w w' :
  (0 < epochs)%nat ->
  train_model exp sqrt randn Encoder_forward OntoDecoder_forward
              classifier_forward permutation loader cross_entropy argsort0
              autograd modelpath_ lr kl_coeff clf_coeff prior_coeff batch_size
              epochs w
  = (Ok tt, w') ->
  training (self w') = false /\ VAE_trained (self w') = true /\
  (labels (attrs (self w')) <> None -> clf_trained (self w') = true).
Proof.
  intros Hep. unfold train_model.
  rewrite bind_get_self, bind_array_read.
  destruct (nth_error (arrays w) (X (attrs (self w)))) as [Xarr|];
    [|discriminate].
  do 6 (rewrite bind_lift;
        match goal with
        | |- context [match ?r with Ok _ => _ | Raise _ => _ end] =>
            destruct r; [|discriminate]
        end).
  match goal with |- context [bind ?c ?k w] =>
    destruct (c w) as [[[act_train act_val]|e] w1] eqn:E;
    [rewrite (bind_ok _ _ _ _ _ E) | rewrite (bind_fail _ _ _ _ _ E);
                                     discriminate]
  end.
  rewrite bind_get_self. intros Hrun.
  eapply epoch_loop_ok; [exact Hrun|].
  destruct epochs; [lia | discriminate].
Qed.

End TrainingInvariants.

Lemma train_model_returns_trained_witness :
  training (self (snd (toy_train_model "best.pt" (1 # 10000) (1 # 10000) 100000
                         (1 # 10) 128 1 (boot toy_plain toy_arrays []))))
  = false /\
  VAE_trained (self (snd (toy_train_model "best.pt" (1 # 10000) (1 # 10000)
                            100000 (1 # 10) 128 1
                            (boot toy_plain toy_arrays [])))) = true /\
  (labels (attrs (self (snd (toy_train_model "best.pt" (1 # 10000) (1 # 10000)
                               100000 (1 # 10) 128 1
                               (boot toy_plain toy_arrays []))))) <> None ->
   clf_trained (self (snd (toy_train_model "best.pt" (1 # 10000) (1 # 10000)
                             100000 (1 # 10) 128 1
                             (boot toy_plain toy_arrays [])))) = true).
Proof.
  apply (train_model_returns_trained exp_series sqrt_fix toy_randn
           (toy_encoder 4) (toy_decoder [6; 3]%nat) toy_classifier
           (fun n => seq 0 n)
           (fun (_ : bool) (_ _ : nat) (mb : minibatch) => [mb])
           (fun (_ : matrix) (_ : list Z) => Ok 0)
           (fun a : matrix => a)
           (fun _ _ _ _ _ _ _ _ _ _ => 0)
           "best.pt" (1 # 10000) (1 # 10000) 100000 (1 # 10) 128%nat 1%nat
           (boot toy_plain toy_arrays [])).
  - lia.
  - vm_compute. reflexivity.
Defined.

(** ** The queries work on copies *)

Lemma kept_bind {A B} (c : M A) (k : A -> M B) :
  arrays_kept c -> (forall a, arrays_kept (k a)) -> arrays_kept (bind c k).
Proof.
  intros Hc Hk w. specialize (Hc w). unfold bind.
  destruct (c w) as [[a|e] w1]; cbn [snd] in *; [|exact Hc].
  rewrite Hk. exact Hc.
Qed.

Lemma kept_blind {A} (c : M A) : arrays_blind c -> arrays_kept c.
Proof. intros H w. now apply blind_arrays. Qed.

Lemma kept_array_read r : arrays_kept (array_read r).
Proof.
  intros w. unfold array_read. destruct (nth_error (arrays w) r); reflexivity.
Qed.

Lemma kept_lift {A} (r : result A) : arrays_kept (lift r).
Proof. intros w. reflexivity. Qed.

Lemma kept_ret {A} (a : A) : arrays_kept (ret a).
Proof. intros w. reflexivity. Qed.

(** The loop of [perturbation] writes to the array it is given, here the
    last one, and to no other. *)
Lemma perturb_loop_last (values : list Q) (indices : list nat) :
  forall (i : nat) (w : World) (l : list matrix) (a : matrix),
  arrays w = l ++ [a] ->
  exists a', arrays (snd (perturb_loop (length l) i indices values w)) = l ++ [a'].
Proof.
  induction indices as [|ix rest IH]; intros i w l a Hw; cbn [perturb_loop].
  - exists a. exact Hw.
  - destruct (nth_error values i) as [v|]; [|exists a; exact Hw].
    rewrite bind_array_read, Hw, nth_error_last.
    rewrite bind_lift. destruct (set_col ix v a) as [a1|]; [|exists a; exact Hw].
    unfold bind at 1, array_write. cbv beta iota.
    apply (IH (S i) _ l a1). cbn [arrays set_arrays].
    rewrite Hw. apply list_update_last.
Qed.

Section Copies.

Variable exp : Q -> Q.
Variable randn : nat -> nat -> nat -> Q.
Variable Encoder_forward :
  bool -> nat -> list tparam -> matrix -> result (matrix * matrix).
Variable OntoDecoder_forward :
  bool -> nat -> list tparam -> list tparam -> Attrs -> matrix ->
  option (list nat) -> list (nat * matrix) * result matrix.
Variable classifier_forward : list tparam -> matrix -> result matrix.

#[local] Abbreviation pass_data_ :=
  (_pass_data exp randn Encoder_forward OntoDecoder_forward
              classifier_forward).

Lemma kept_pass_data data_ batch output :
  arrays_kept (pass_data_ data_ batch output).
Proof. apply kept_blind, blind_pass_data. Qed.

(** [get_pathway_activities], [get_reconstructed_values] and
    [perturbation] read the dataset through [.copy()] (lines 654, 690 and
    742) and write to nothing else: whatever the arguments and whether the
    call returns or raises, every array that existed before the call is
    unchanged after it, and at most one array, the working copy, is new.
    In particular the values [perturbation] sets never reach the dataset
    stored in the ontology object. *)
Theorem queries_leave_datasets_alone (w : World) (ontobj : Ontobj)
  (dataset : string) (batch : option (list nat))
  (terms rec_genes : option (list string)) (genes_ : list string)
  (values : list Q) (output : string) :
  (exists extra,
     arrays (snd (get_pathway_activities exp randn Encoder_forward
                    OntoDecoder_forward classifier_forward ontobj dataset
                    batch terms w)) = arrays w ++ extra /\
     (length extra <= 1)%nat) /\
  (exists extra,
     arrays (snd (get_reconstructed_values exp randn Encoder_forward
                    OntoDecoder_forward classifier_forward ontobj dataset
                    batch rec_genes w)) = arrays w ++ extra /\
     (length extra <= 1)%nat) /\
  (exists extra,
     arrays (snd (perturbation exp randn Encoder_forward OntoDecoder_forward
                    classifier_forward ontobj dataset genes_ values batch
                    output terms rec_genes w)) = arrays w ++ extra /\
     (length extra <= 1)%nat).
Proof.
  assert (Hnil : exists extra, arrays w = arrays w ++ extra /\ (length extra <= 1)%nat).
  { exists []. rewrite app_nil_r. split; [reflexivity | simpl; lia]. }
  repeat split.
  - unfold get_pathway_activities. rewrite bind_get_self.
    destruct (negb (String.eqb (ontology (attrs (self w))) (description ontobj)));
      [exact Hnil|].
    cbv beta iota. rewrite bind_lift.
    destruct (dataset_ref (self w) ontobj dataset) as [r|]; [|exact Hnil].
    rewrite bind_array_copy.
    destruct (nth_error (arrays w) r) as [a|]; [|exact Hnil].
    exists [a]. split; [|simpl; lia].
    match goal with |- arrays (snd (?c ?W)) = _ =>
      change (arrays w ++ [a]) with (arrays W);
      apply (@kept_bind _ _ (array_read (length (arrays w))))
    end; [apply kept_array_read | intros data_].
    apply kept_bind; [apply kept_pass_data | intros act].
    destruct terms as [ts|]; [|apply kept_ret].
    apply kept_bind; [apply kept_lift | intros act'].
    apply kept_bind; [apply kept_lift | intros act'']. apply kept_ret.
  - unfold get_reconstructed_values. rewrite bind_get_self.
    destruct (negb (String.eqb (ontology (attrs (self w))) (description ontobj)));
      [exact Hnil|].
    cbv beta iota. rewrite bind_lift.
    destruct (dataset_ref (self w) ontobj dataset) as [r|]; [|exact Hnil].
    rewrite bind_array_copy.
    destruct (nth_error (arrays w) r) as [a|]; [|exact Hnil].
    exists [a]. split; [|simpl; lia].
    match goal with |- arrays (snd (?c ?W)) = _ =>
      change (arrays w ++ [a]) with (arrays W);
      apply (@kept_bind _ _ (array_read (length (arrays w))))
    end; [apply kept_array_read | intros data_].
    apply kept_bind; [apply kept_pass_data | intros act].
    destruct rec_genes as [gs|]; [|apply kept_ret].
    apply kept_bind; [apply kept_lift | intros act'].
    apply kept_bind; [apply kept_lift | intros act'']. apply kept_ret.
  - unfold perturbation. rewrite bind_get_self.
    destruct (negb (String.eqb (ontology (attrs (self w))) (description ontobj)));
      [exact Hnil|].
    cbv beta iota. rewrite bind_lift.
    destruct (dataset_ref (self w) ontobj dataset) as [r|]; [|exact Hnil].
    rewrite bind_array_copy.
    destruct (nth_error (arrays w) r) as [a|]; [|exact Hnil].
    rewrite bind_lift.
    destruct (rmap _ genes_) as [indices|];
      [|exists [a]; split; [reflexivity | simpl; lia]].
    destruct (perturb_loop_last values indices O
                (set_arrays (arrays w ++ [a]) w) (arrays w) a eq_refl)
      as [a' Ha'].
    exists [a']. split; [|simpl; lia]. rewrite <- Ha'.
    unfold bind at 1.
    destruct (perturb_loop (length (arrays w)) 0 indices values
                (set_arrays (arrays w ++ [a]) w)) as [[u|e] w2];
      cbn [snd]; [|reflexivity].
    match goal with |- arrays (snd (?c w2)) = _ =>
      apply (@kept_bind _ _ (array_read (length (arrays w))))
    end; [apply kept_array_read | intros data_].
    apply kept_bind.
    { destruct (String.eqb output "terms"); [|apply kept_ret].
      apply kept_bind; [apply kept_pass_data | intros; apply kept_ret]. }
    intros res.
    apply kept_bind.
    { destruct (String.eqb output "genes"); [|apply kept_ret].
      apply kept_bind; [apply kept_pass_data | intros; apply kept_ret]. }
    intros res1.
    apply kept_bind.
    { destruct (if String.eqb output " genes" then None else terms);
        [|apply kept_ret].
      repeat (apply kept_bind; [apply kept_lift | intros]). apply kept_ret. }
    intros res2.
    apply kept_bind.
    { destruct (if String.eqb output "terms" then None else rec_genes);
        [|apply kept_ret].
      repeat (apply kept_bind; [apply kept_lift | intros]). apply kept_ret. }
    intros res3. apply kept_lift.
Qed.

End Copies.

(** ** Perturbation against the ordinary activities *)

Lemma perturb_loop_set_cols (values : list Q) (indices : list nat) :
  forall (i : nat) (w : World) (l : list matrix) (D D' : matrix),
  arrays w = l ++ [D] ->
  set_cols i indices values D = Ok D' ->
  perturb_loop (length l) i indices values w
  = (Ok tt, set_arrays (l ++ [D']) w).
Proof.
  induction indices as [|ix rest IH]; intros i w l D D' Hw Hset;
    cbn [perturb_loop set_cols] in *.
  - injection Hset as <-. rewrite <- Hw, set_arrays_id. reflexivity.
  - destruct (nth_error values i) as [v|]; [|discriminate].
    rewrite bind_array_read, Hw, nth_error_last, bind_lift.
    destruct (set_col ix v D) as [D1|]; [|discriminate].
    unfold bind at 1, array_write. cbv beta iota.
    rewrite (IH (S i) _ l D1 D').
    + reflexivity.
    + cbn [arrays set_arrays]. rewrite Hw. apply list_update_last.
    + exact Hset.
Qed.

Section TermsConsistency.

Variable exp : Q -> Q.
Variable randn : nat -> nat -> nat -> Q.
Variable Encoder_forward :
  bool -> nat -> list tparam -> matrix -> result (matrix * matrix).
Variable OntoDecoder_forward :
  bool -> nat -> list tparam -> list tparam -> Attrs -> matrix ->
  option (list nat) -> list (nat * matrix) * result matrix.
Variable classifier_forward : list tparam -> matrix -> result matrix.

#[local] Abbreviation pass_data_ :=
  (_pass_data exp randn Encoder_forward OntoDecoder_forward
              classifier_forward).

(** The counterpart of the reconstruction path for [output='terms'], and
    for any list of genes: with genes of the model's gene list and values
    for all of them, [perturbation] returns the pathway activities (of the
    terms asked for, if any) that [get_pathway_activities] returns on the
    dataset whose columns have been set by hand, the random generator being
    in the same state; [rec_genes] plays no part. *)
Theorem perturbation_terms_consistency (ontobj : Ontobj) (dataset : string)
  (genes_ : list string) (values : list Q) (batch : option (list nat))
  (terms rec_genes : option (list string)) (w : World) (r : nat)
  (indices : list nat) (D D' : matrix) :
  dataset_ref (self w) ontobj dataset = Ok r ->
  nth_error (arrays w) r = Some D ->
  rmap (fun g => list_index g (genes (attrs (self w)))) genes_ = Ok indices ->
  set_cols 0 indices values D = Ok D' ->
  fst (perturbation exp randn Encoder_forward OntoDecoder_forward
         classifier_forward ontobj dataset genes_ values batch "terms" terms
         rec_genes w)
  = fst (get_pathway_activities exp randn Encoder_forward OntoDecoder_forward
           classifier_forward ontobj dataset batch terms
           (set_arrays (list_update r D' (arrays w)) w)).
Proof.
  intros Href HD Hidx Hset.
  assert (Hr : (r < length (arrays w))%nat)
    by (apply nth_error_Some; congruence).
  unfold perturbation, get_pathway_activities.
  change (String.eqb "terms" "terms") with true.
  change (String.eqb "terms" " genes") with false.
  change (String.eqb "terms" "genes") with false.
  cbv iota. rewrite !bind_get_self. cbn [self set_arrays].
  destruct (negb (String.eqb (ontology (attrs (self w))) (description ontobj)));
    [reflexivity|].
  rewrite !bind_lift, Href.
  rewrite !bind_array_copy. cbn [arrays set_arrays].
  rewrite HD, (nth_error_list_update r D' (arrays w) Hr).
  rewrite bind_lift, Hidx.
  rewrite (bind_ok _ _ _ _ _
             (perturb_loop_set_cols values indices O
                (set_arrays (arrays w ++ [D]) w) (arrays w) D D' eq_refl Hset)).
  rewrite !bind_array_read. cbn [arrays set_arrays].
  rewrite !nth_error_last.
  change (set_arrays ?a (set_arrays ?b ?w0)) with (set_arrays a w0).
  rewrite !bind_assoc.
  unfold bind at 1.
  rewrite (blind_pass_data exp randn Encoder_forward OntoDecoder_forward
             classifier_forward D' batch "act" (arrays w ++ [D']) w).
  match goal with |- _ = fst (bind ?c ?k ?W) =>
    change (bind c k W)
      with (match c W with
            | (Ok a, w') => k a w'
            | (Raise e, w') => (Raise e, w')
            end)
  end.
  rewrite (blind_pass_data exp randn Encoder_forward OntoDecoder_forward
             classifier_forward D' batch "act"
             (list_update r D' (arrays w) ++ [D']) w).
  destruct (pass_data_ D' batch "act" w) as [[act|e] w1]; cbn [fst snd];
    [|reflexivity].
  rewrite !bind_ret.
  destruct terms as [ts|].
  - rewrite !bind_assoc, !bind_lift. cbn [unbound_res].
    rewrite !bind_assoc, !bind_lift.
    destruct (subscript_none act) as [a|]; [|reflexivity].
    rewrite !bind_assoc, !bind_lift.
    destruct (subset_terms (self w) ontobj ts a); [|reflexivity].
    rewrite !bind_ret. reflexivity.
  - rewrite !bind_ret. reflexivity.
Qed.

End TermsConsistency.

Lemma perturbation_terms_consistency_witness :
  fst (perturbation exp_series toy_randn (toy_encoder 4) (toy_decoder [6; 3]%nat)
         toy_classifier toy_onto "train" ["g2"; "g3"] [9; 7] None "terms"
         (Some ["T1"]) (Some ["g1"]) (boot toy_plain toy_arrays []))
  = fst (get_pathway_activities exp_series toy_randn (toy_encoder 4)
           (toy_decoder [6; 3]%nat) toy_classifier toy_onto "train" None
           (Some ["T1"])
           (set_arrays (list_update 0 [[1; 9; 7]; [4; 9; 7]]
                                    (arrays (boot toy_plain toy_arrays [])))
                       (boot toy_plain toy_arrays []))).
Proof.
  apply (perturbation_terms_consistency exp_series toy_randn (toy_encoder 4)
           (toy_decoder [6; 3]%nat) toy_classifier toy_onto "train"
           ["g2"; "g3"] [9; 7] None (Some ["T1"]) (Some ["g1"])
           (boot toy_plain toy_arrays []) 0%nat [1%nat; 2%nat] toy_x
           [[1; 9; 7]; [4; 9; 7]]).
  - reflexivity.
  - reflexivity.
  - reflexivity.
  - reflexivity.
Defined.

(** ** The reparameterization *)

Lemma zip_rows_nth_error {A B C} (f : A -> B -> C) (m : list (list A))
  (m' : list (list B)) (r : list (list C)) :
  zip_rows f m m' = Ok r ->
  forall i a b, nth_error m i = Some a -> nth_error m' i = Some b ->
  exists c, zip_with f a b = Ok c /\ nth_error r i = Some c.
Proof.
  revert m' r. induction m as [|x m IH]; intros [|y m'] r H; simpl in H;
    try discriminate.
  - intros [|i]; discriminate.
  - destruct (zip_with f x y) as [c0|] eqn:E0; [|discriminate].
    destruct (zip_rows f m m') as [r'|] eqn:E; [|discriminate].
    injection H as <-. intros [|i] a b Ha Hb; simpl in *.
    + injection Ha as <-. injection Hb as <-. eauto.
    + eapply IH; eauto.
Qed.

Lemma nth_error_tabulate_row (f : nat -> Q) (row : vec) (k j : nat) (x : Q) :
  nth_error row j = Some x ->
  nth_error (map (fun jc : nat * Q => f (fst jc))
                 (combine (seq k (length row)) row)) j
  = Some (f (k + j)%nat).
Proof.
  revert k j. induction row as [|a row IH]; intros k [|j] H; simpl in *;
    try discriminate.
  - now rewrite Nat.add_0_r.
  - rewrite (IH (S k) j H). f_equal. f_equal. lia.
Qed.

Lemma nth_error_tabulate_from (f : nat -> nat -> Q) (t : matrix) (k i : nat)
  (row : vec) :
  nth_error t i = Some row ->
  nth_error (map (fun ir : nat * vec =>
                    map (fun jc : nat * Q => f (fst ir) (fst jc))
                        (combine (seq 0 (length (snd ir))) (snd ir)))
                 (combine (seq k (length t)) t)) i
  = Some (map (fun jc : nat * Q => f (k + i)%nat (fst jc))
              (combine (seq 0 (length row)) row)).
Proof.
  revert k i. induction t as [|a t IH]; intros k [|i] H; simpl in *;
    try discriminate.
  - injection H as <-. now rewrite Nat.add_0_r.
  - rewrite (IH (S k) i H). do 2 f_equal.
    replace (S k + i)%nat with (k + S i)%nat by lia. reflexivity.
Qed.

Lemma same_shape_sym {A B} (m : list (list A)) (m' : list (list B)) :
  same_shape m m' -> same_shape m' m.
Proof. induction 1; constructor; auto. Qed.

Lemma same_shape_trans {A B C} (m : list (list A)) (m' : list (list B))
  (m'' : list (list C)) :
  same_shape m m' -> same_shape m' m'' -> same_shape m m''.
Proof.
  intros H. revert m''. induction H as [|a b la lb Hab _ IH]; intros m'' H';
    inversion H' as [|b' c lb' lc Hbc Hrest]; subst; constructor.
  - congruence.
  - apply IH. exact Hrest.
Qed.

Lemma same_shape_map {A B} (h : A -> B) (t : list (list A)) :
  same_shape (map (map h) t) t.
Proof.
  induction t as [|r t IH]; simpl; constructor; [apply length_map | exact IH].
Qed.

Lemma same_shape_tabulate_from (f : nat -> nat -> Q) (t : matrix) (k : nat) :
  same_shape
    (map (fun ir : nat * vec =>
            map (fun jc : nat * Q => f (fst ir) (fst jc))
                (combine (seq 0 (length (snd ir))) (snd ir)))
         (combine (seq k (length t)) t)) t.
Proof.
  revert k. induction t as [|r t IH]; intros k; simpl; constructor.
  - rewrite length_map, length_combine, length_seq. apply Nat.min_id.
  - apply IH.
Qed.

Lemma same_shape_tabulate (f : nat -> nat -> Q) (t : matrix) :
  same_shape (tabulate_like f t) t.
Proof. apply same_shape_tabulate_from. Qed.

Lemma zip_rows_shape {A B C} (f : A -> B -> C) (m : list (list A))
  (m' : list (list B)) (r : list (list C)) :
  zip_rows f m m' = Ok r -> same_shape m m' /\ same_shape m r.
Proof.
  intros H. destruct (zip_rows_inv _ _ _ _ H) as [Hs ->]. split; [exact Hs|].
  clear H. induction Hs as [|a b la lb Hab _ IH]; simpl; constructor.
  - rewrite length_map, length_combine. lia.
  - exact IH.
Qed.



(** ** Perturbing a gene the model does not have *)

Lemma list_index_missing (g : string) (l : list string) :
  ~ In g l -> list_index g l = Raise (ValueError (g ++ " is not in list")).
Proof.
  induction l as [|a l IH]; intros Hnin; cbn [list_index]; [reflexivity|].
  destruct (String.eqb a g) eqn:E.
  - apply String.eqb_eq in E. exfalso. apply Hnin. now left.
  - rewrite IH; [reflexivity|]. intros Hin. apply Hnin. now right.
Qed.

Lemma list_index_raises (g : string) (l : list string) (e : exn) :
  list_index g l = Raise e -> e = ValueError (g ++ " is not in list").
Proof.
  induction l as [|a l IH]; cbn [list_index]; intros H.
  - now injection H as <-.
  - destruct (String.eqb a g); [discriminate|].
    destruct (list_index g l) as [i|e0]; [discriminate|].
    injection H as <-. now apply IH.
Qed.

Lemma rmap_list_index_missing (genes_ l : list string) (g : string) :
  In g genes_ -> ~ In g l ->
  exists g', In g' genes_ /\ ~ In g' l /\
    rmap (fun x => list_index x l) genes_
    = Raise (ValueError (g' ++ " is not in list")).
Proof.
  induction genes_ as [|a genes_ IH]; intros Hin Hnin; [contradiction|].
  cbn [rmap]. destruct (list_index a l) as [i|e] eqn:Ea.
  - destruct Hin as [->|Hin].
    + rewrite (list_index_missing g l Hnin) in Ea. discriminate.
    + destruct (IH Hin Hnin) as (g' & Hg' & Hn' & ->).
      exists g'. repeat split; [now right | exact Hn'].
  - exists a. rewrite (list_index_raises a l e Ea). repeat split; [now left|].
    intros Hin'. clear - Ea Hin'. induction l as [|b l IH]; [contradiction|].
    cbn [list_index] in Ea. destruct (String.eqb b a) eqn:E; [discriminate|].
    destruct (list_index a l) as [i|e0] eqn:El; [discriminate|].
    destruct Hin' as [->|Hin'].
    + rewrite String.eqb_refl in E. discriminate.
    + eapply IH; eauto.
Qed.

(** [perturbation] looks every gene up in the gene list of the model (line
    745) before it changes anything: when one of the genes is not in that
    list, the call raises the [ValueError] of [list.index], the dataset has
    been copied, and neither the copy nor the model has been touched. *)
Theorem perturbation_unknown_gene (exp : Q -> Q)
  (randn : nat -> nat -> nat -> Q)
  (Encoder_forward :
     bool -> nat -> list tparam -> matrix -> result (matrix * matrix))
  (OntoDecoder_forward :
     bool -> nat -> list tparam -> list tparam -> Attrs -> matrix ->
     option (list nat) -> list (nat * matrix) * result matrix)
  (classifier_forward : list tparam -> matrix -> result matrix)
  (ontobj : Ontobj) (dataset : string) (genes_ : list string)
  (values : list Q) (batch : option (list nat)) (output : string)
  (terms rec_genes : option (list string)) (w : World) (r : nat) (D : matrix)
  (g : string) :
  ontology (attrs (self w)) = description ontobj ->
  dataset_ref (self w) ontobj dataset = Ok r ->
  nth_error (arrays w) r = Some D ->
  In g genes_ -> ~ In g (genes (attrs (self w))) ->
  exists msg,
    perturbation exp randn Encoder_forward OntoDecoder_forward
                 classifier_forward ontobj dataset genes_ values batch output
                 terms rec_genes w
    = (Raise (ValueError msg), set_arrays (arrays w ++ [D]) w).
Proof.
  intros Hon Href HD Hin Hnin.
  destruct (rmap_list_index_missing genes_ (genes (attrs (self w))) g Hin Hnin)
    as (g' & Hg' & Hn' & Hr).
  eexists.
  unfold perturbation. rewrite bind_get_self, Hon, String.eqb_refl.
  cbn [negb]. rewrite bind_lift, Href, bind_array_copy, HD.
  rewrite bind_lift.
  change (genes (attrs (self (set_arrays (arrays w ++ [D]) w))))
    with (genes (attrs (self w))).
  rewrite Hr. reflexivity.
Qed.

Lemma perturbation_unknown_gene_witness :
  exists msg,
    perturbation exp_series toy_randn (toy_encoder 4) (toy_decoder [6; 3]%nat)
                 toy_classifier toy_onto "train" ["g2"; "g9"] [9; 7] None
                 "genes" None None toy_world
    = (Raise (ValueError msg),
       set_arrays (arrays toy_world ++ [toy_x]) toy_world).
Proof.
  apply (perturbation_unknown_gene exp_series toy_randn (toy_encoder 4)
           (toy_decoder [6; 3]%nat) toy_classifier toy_onto "train"
           ["g2"; "g9"] [9; 7] None "genes" None None toy_world 0%nat toy_x
           "g9").
  - reflexivity.
  - reflexivity.
  - reflexivity.
  - simpl. auto.
  - simpl. intros [H|[H|[H|H]]]; try discriminate H. exact H.
Defined.
